(** * NASA data tool: a shallow embedding of [nasa_tool.py], of
      [mcp_chat.py] and of the test cases of [test_suite.py]

    The Python program is a keyword router, four HTTP fetchers, a template
    formatter, a tool class over the same endpoints, and a chat loop that
    answers from the fetched data or from a language model.  It is embedded
    as follows.

    - Python values that travel through the program (decoded JSON, the
      records the fetchers build) are the inductive [pyval]; a [dict] is an
      association list, in insertion order, looked up by first match.
    - A Python [str] is the [string] of its UTF-8 encoding, one [ascii]
      for each byte.  The length, the indexing and the slicing of a [str]
      count characters: they go through [chars], which cuts the bytes into
      characters.  White space is that of [str.isspace].  [lower] maps the
      ASCII letters and leaves the other characters as they are; Python
      lower-cases two characters outside ASCII into text with an ASCII
      letter, the Kelvin sign into k and the dotted capital I into i
      followed by a combining dot, and no keyword, exit word or endpoint
      name of the program holds a k or ends in i: the tests that look for
      them in lower-cased text are those of Python on every text.
      [is_digit], the [\d] of the date pattern and of [strptime], accepts
      the ASCII digits, where Python accepts every decimal digit of its
      Unicode table: what depends on the date of a query is stated for
      ASCII queries ([is_ascii]).
    - A Python [float] is a binary64 [float] of the kernel.  What belongs
      to the Python runtime and varies with it is taken as the parameter
      [float_lib]: the conversions between floats and text ([float(s)],
      [repr], the [.2f] format), the order in which [list.sort] leaves keys
      that [<] does not order (a NaN among them), and the text of a year
      below 1000 in [strftime].  The properties hold for every such library,
      and the examples run on [PyFloat.lib], which computes the conversions
      as CPython does.
    - Code that can raise returns a [result]; the outside world (the HTTP
      transport and the clock) is the record [world].
    - The chat loop runs over a script of input lines and a language-model
      [backend]; a run is the [session] of the lines it printed, the
      conversation history and the way it ended.  *)

From Stdlib Require Import ZArith List String Ascii Bool Lia Floats.
From Stdlib Require Import Sorting.Sorted Sorting.Permutation DecimalString.
Import ListNotations.

Local Set Warnings "-register-all,-inexact-float".

Local Open Scope Z_scope.
Local Open Scope list_scope.
Local Open Scope string_scope.

(** ** Exceptions and the error monad *)

Inductive exn_kind :=
| KeyError | TypeError | AttributeError | ValueError | IndexError
| OverflowError | RequestException | JSONDecodeError.

(** An exception object: its class and the text [str(e)] gives. *)
Record exn := Exn { exn_class : exn_kind; exn_str : string }.

Inductive result (A : Type) :=
| Ok (a : A)
| Raise (e : exn).
Arguments Ok {A} a.
Arguments Raise {A} e.

Definition bind {A B} (m : result A) (k : A -> result B) : result B :=
  match m with
  | Ok a => k a
  | Raise e => Raise e
  end.

Notation "x <- m ;; k" := (bind m (fun x => k))
  (at level 61, m at next level, right associativity).

Definition raise {A} (c : exn_kind) (msg : string) : result A :=
  Raise (Exn c msg).

(** [mapM f l]: a list comprehension whose element expression can raise;
    elements are evaluated left to right and the first exception wins. *)
Fixpoint mapM {A B} (f : A -> result B) (l : list A) : result (list B) :=
  match l with
  | [] => Ok []
  | a :: l' => b <- f a ;; bs <- mapM f l' ;; Ok (b :: bs)
  end.

(** ** Strings *)

Definition is_upper (c : ascii) : bool :=
  let n := nat_of_ascii c in (65 <=? n)%nat && (n <=? 90)%nat.

(** The ASCII digits: the [\d] of a pattern on ASCII text. *)
Definition is_digit (c : ascii) : bool :=
  let n := nat_of_ascii c in (48 <=? n)%nat && (n <=? 57)%nat.

Definition byte_in (lo hi : nat) (c : ascii) : bool :=
  let n := nat_of_ascii c in (lo <=? n)%nat && (n <=? hi)%nat.

(** [str.isspace] on the characters of one byte: tab, LF, VT, FF, CR, FS,
    GS, RS, US, space. *)
Definition is_space (c : ascii) : bool :=
  byte_in 9 13 c || byte_in 28 32 c.

(** On the characters of two bytes: U+0085 and U+00A0. *)
Definition is_space2 (a b : ascii) : bool :=
  byte_in 194 194 a && (byte_in 133 133 b || byte_in 160 160 b).

(** On the characters of three bytes: U+1680; U+2000 to U+200A, U+2028,
    U+2029, U+202F; U+205F; U+3000.  No character of four bytes is white
    space. *)
Definition is_space3 (a b c : ascii) : bool :=
  (byte_in 225 225 a && byte_in 154 154 b && byte_in 128 128 c)
  || (byte_in 226 226 a && byte_in 128 128 b
      && (byte_in 128 138 c || byte_in 168 169 c || byte_in 175 175 c))
  || (byte_in 226 226 a && byte_in 129 129 b && byte_in 159 159 c)
  || (byte_in 227 227 a && byte_in 128 128 b && byte_in 128 128 c).

(** Is the text one character of white space? *)
Definition is_space_char (g : string) : bool :=
  match g with
  | String a EmptyString => is_space a
  | String a (String b EmptyString) => is_space2 a b
  | String a (String b (String c EmptyString)) => is_space3 a b c
  | _ => false
  end.

Definition lower_char (c : ascii) : ascii :=
  if is_upper c then ascii_of_nat (nat_of_ascii c + 32) else c.

(** [s.lower()] *)
Fixpoint lower (s : string) : string :=
  match s with
  | EmptyString => EmptyString
  | String c s' => String (lower_char c) (lower s')
  end.

(** [needle in hay] on two [str]. *)
Fixpoint contains (needle hay : string) : bool :=
  prefix needle hay ||
  match hay with
  | EmptyString => false
  | String _ hay' => contains needle hay'
  end.

(** [s.lstrip()]: the characters of white space at the start are left out. *)
Fixpoint lstrip (s : string) : string :=
  match s with
  | String a s1 =>
      if is_space a then lstrip s1
      else
        match s1 with
        | String b s2 =>
            if is_space2 a b then lstrip s2
            else
              match s2 with
              | String c s3 => if is_space3 a b c then lstrip s3 else s
              | EmptyString => s
              end
        | EmptyString => s
        end
  | EmptyString => EmptyString
  end.

(** [s.rstrip()]: the characters of white space at the end are left out;
    going from the right, a character of white space is dropped when nothing
    is kept after it. *)
Fixpoint rstrip (s : string) : string :=
  match s with
  | EmptyString => EmptyString
  | String c s' =>
      let t := String c (rstrip s') in
      if is_space_char t then EmptyString else t
  end.

(** [s.strip()] *)
Definition strip (s : string) : string := rstrip (lstrip s).

(** The first [n] bytes of [s]. *)
Fixpoint str_take (n : nat) (s : string) : string :=
  match n, s with
  | S n', String c s' => String c (str_take n' s')
  | _, _ => EmptyString
  end.

(** *** Characters

    In UTF-8 a character is one byte below 128, or one leading byte
    followed by continuation bytes (those from 128 to 191). *)

Definition is_ascii_char (c : ascii) : bool := (nat_of_ascii c <? 128)%nat.

(** Text of ASCII characters only. *)
Definition is_ascii (s : string) : bool :=
  forallb is_ascii_char (list_ascii_of_string s).

Definition is_continuation (c : ascii) : bool :=
  let n := nat_of_ascii c in (128 <=? n)%nat && (n <? 192)%nat.

Definition starts_with_continuation (s : string) : bool :=
  match s with
  | String c _ => is_continuation c
  | EmptyString => false
  end.

(** The characters of a [str], in order: every byte that starts a character
    with the continuation bytes that follow it. *)
Fixpoint chars (s : string) : list string :=
  match s with
  | EmptyString => []
  | String c s' =>
      match chars s' with
      | g :: rest =>
          if starts_with_continuation g then String c g :: rest
          else String c EmptyString :: g :: rest
      | [] => [String c EmptyString]
      end
  end.

(** [len(s)] *)
Definition str_len (s : string) : nat := List.length (chars s).

(** [s[:n]] for [n >= 0]: the first [n] characters. *)
Definition str_slice (n : nat) (s : string) : string :=
  String.concat "" (firstn n (chars s)).

(** [sep.join(items)] *)
Definition join (sep : string) (items : list string) : string :=
  String.concat sep items.

(** [str(z)] for an [int]. *)
Definition str_of_Z (z : Z) : string := NilZero.string_of_int (Z.to_int z).

(** *** The date pattern of the router: [re.search(r'(\d{4}-\d{2}-\d{2})', s)] *)

Definition hyphen : ascii := "-"%char.

(** The strings the pattern denotes: four digits, a hyphen, two digits, a
    hyphen, two digits. *)
Definition is_date_token (s : string) : bool :=
  match s with
  | String y1 (String y2 (String y3 (String y4 (String h1
      (String m1 (String m2 (String h2 (String d1 (String d2 EmptyString))))))))) =>
      is_digit y1 && is_digit y2 && is_digit y3 && is_digit y4
      && Ascii.eqb h1 hyphen && is_digit m1 && is_digit m2
      && Ascii.eqb h2 hyphen && is_digit d1 && is_digit d2
  | _ => false
  end.

(** Does the pattern match at the very start of [s]?  Every match has ten
    characters, so the only candidate is the first ten. *)
Definition date_at (s : string) : option string :=
  let d := str_take 10 s in
  if is_date_token d then Some d else None.

(** [re.search] scans start positions from the left and returns the first
    position where the pattern matches; [group(1)] is the matched text. *)
Fixpoint re_search_date (s : string) : option string :=
  match date_at s with
  | Some d => Some d
  | None =>
      match s with
      | EmptyString => None
      | String _ s' => re_search_date s'
      end
  end.

(** ** The router: the keyword tests of [get_nasa_response] *)

Definition apod_keywords : list string :=
  ["astronomy picture"; "apod"; "picture of the day"; "nasa image"; "space photo"].
Definition mars_keywords : list string :=
  ["mars"; "rover"; "curiosity"; "perseverance"; "opportunity"; "spirit"].
Definition neo_keywords : list string :=
  ["asteroid"; "near earth"; "neo"; "object"; "impact"; "potentially hazardous"].
Definition epic_keywords : list string :=
  ["earth"; "epic"; "blue marble"; "planet photo"; "earth view"; "earth image"].

(** [any(keyword in query for keyword in keywords)] *)
Definition any_keyword (keywords : list string) (query : string) : bool :=
  existsb (fun keyword => contains keyword query) keywords.

(** What the router decides for a query it routes: the fetcher to call and
    the arguments it extracted. *)
Inductive route_decision :=
| RouteApod (date : option string)
| RouteMars (rover : string) (date : option string)
| RouteNeo (date : option string)
| RouteEpic (date : option string).


(** The branch structure of [get_nasa_response], before the fetcher call of
    each branch.  [None] is the final [return None, None]. *)
Definition route (user_query : string) : option route_decision :=
  let query := lower user_query in
  if any_keyword apod_keywords query then
    Some (RouteApod (re_search_date query))
  else if any_keyword mars_keywords query then
    let rover :=
      if contains "perseverance" query then "perseverance"
      else if contains "opportunity" query then "opportunity"
      else if contains "spirit" query then "spirit"
      else "curiosity" in
    Some (RouteMars rover (re_search_date query))
  else if any_keyword neo_keywords query then
    Some (RouteNeo (re_search_date query))
  else if any_keyword epic_keywords query then
    Some (RouteEpic (re_search_date query))
  else None.

(** ** Python values *)

Inductive pyval :=
| PNone
| PBool (b : bool)
| PInt (z : Z)
| PFloat (f : float)
| PStr (s : string)
| PList (l : list pyval)
| PDict (d : list (string * pyval)).

(** A [dict] with [str] keys, as [json] decodes them and as the fetchers
    build them: key/value pairs in insertion order. *)
Definition record := list (string * pyval).

Fixpoint dict_get (key : string) (d : record) : option pyval :=
  match d with
  | [] => None
  | (k, v) :: d' => if String.eqb key k then Some v else dict_get key d'
  end.

(** [key in d] *)
Definition dict_has (key : string) (d : record) : bool :=
  match dict_get key d with Some _ => true | None => false end.

(** [d[key] = v] on a dict: replaces the value in place, or appends. *)
Fixpoint dict_set (key : string) (v : pyval) (d : record) : record :=
  match d with
  | [] => [(key, v)]
  | (k, x) :: d' =>
      if String.eqb key k then (k, v) :: d' else (k, x) :: dict_set key v d'
  end.

Definition type_name (v : pyval) : string :=
  match v with
  | PNone => "NoneType"
  | PBool _ => "bool"
  | PInt _ => "int"
  | PFloat _ => "float"
  | PStr _ => "str"
  | PList _ => "list"
  | PDict _ => "dict"
  end.

(** Truth value of an object, as [if x:] and [not x] test it. *)
Definition truthy (v : pyval) : bool :=
  match v with
  | PNone => false
  | PBool b => b
  | PInt z => negb (z =? 0)%Z
  | PFloat f => negb (PrimFloat.eqb f 0%float)
  | PStr s => negb (String.eqb s "")
  | PList l => match l with [] => false | _ => true end
  | PDict d => match d with [] => false | _ => true end
  end.

(** *** The part of the runtime taken as a parameter *)

Record float_lib := {
  (** [float(s)] on a [str]; [None] when it raises [ValueError] *)
  float_of_str : string -> option float;
  (** [float(n)] on an [int]; [None] when it raises [OverflowError] *)
  float_of_int : Z -> option float;
  (** [repr(x)], which is also [str(x)] *)
  float_repr : float -> string;
  (** [format(x, '.2f')] *)
  float_fmt_2f : float -> string;
  (** [list.sort] on keys with a NaN among them, which [<] does not order:
      the exchanges of neighbours (each the position of the left one) that
      lead from the list to the order the sort leaves it in *)
  nan_swaps : list float -> list nat;
  (** [%Y] of [strftime] for a year below 1000, which the C library writes
      on four digits or on as many as the year has *)
  short_year : Z -> string
}.

Section PythonValues.

Context (fl : float_lib).

Definition hex_digit (n : nat) : ascii :=
  ascii_of_nat (if (n <? 10)%nat then 48 + n else 87 + n).

(** One character inside [repr] of a [str] quoted with [q]. *)
Definition repr_char (q : ascii) (c : ascii) : string :=
  let n := nat_of_ascii c in
  if Ascii.eqb c q || (n =? 92)%nat then String (ascii_of_nat 92) (String c "")
  else if (n =? 10)%nat then String (ascii_of_nat 92) "n"
  else if (n =? 13)%nat then String (ascii_of_nat 92) "r"
  else if (n =? 9)%nat then String (ascii_of_nat 92) "t"
  else if (n <? 32)%nat || (n =? 127)%nat then
    String (ascii_of_nat 92)
      (String "x" (String (hex_digit (n / 16)) (String (hex_digit (n mod 16)) "")))
  else String c "".

Fixpoint repr_chars (q : ascii) (s : string) : string :=
  match s with
  | EmptyString => EmptyString
  | String c s' => repr_char q c ++ repr_chars q s'
  end.

Definition squote : ascii := ascii_of_nat 39.
Definition dquote : ascii := ascii_of_nat 34.

(** [repr(s)] of a [str]: single quotes, unless [s] holds a single quote and
    no double quote. *)
Definition py_repr_str (s : string) : string :=
  let q :=
    if contains (String squote "") s && negb (contains (String dquote "") s)
    then dquote else squote in
  String q (repr_chars q s ++ String q "").

Fixpoint py_repr (v : pyval) : string :=
  match v with
  | PNone => "None"
  | PBool b => if b then "True" else "False"
  | PInt z => str_of_Z z
  | PFloat f => float_repr fl f
  | PStr s => py_repr_str s
  | PList l => "[" ++ join ", " (map py_repr l) ++ "]"
  | PDict d =>
      "{" ++ join ", "
               (map (fun kv => py_repr_str (fst kv) ++ ": " ++ py_repr (snd kv)) d)
          ++ "}"
  end.

(** [str(v)], which is what an f-string field [{v}] inserts. *)
Definition py_str (v : pyval) : string :=
  match v with
  | PStr s => s
  | _ => py_repr v
  end.

Definition not_subscriptable {A} (v : pyval) : result A :=
  raise TypeError ("'" ++ type_name v ++ "' object is not subscriptable").

(** A sequence index: [None] when out of range; negative counts from the end. *)
Definition seq_index {A} (l : list A) (i : Z) : option A :=
  let n := Z.of_nat (List.length l) in
  let j := (if i <? 0 then i + n else i)%Z in
  if ((0 <=? j) && (j <? n))%Z then nth_error l (Z.to_nat j) else None.

Definition index_of_key (key : pyval) : option Z :=
  match key with
  | PInt i => Some i
  | PBool b => Some (if b then 1 else 0)
  | _ => None
  end.

(** [v[key]] *)
Definition getitem (v key : pyval) : result pyval :=
  match v with
  | PDict d =>
      match key with
      | PStr k =>
          match dict_get k d with
          | Some x => Ok x
          | None => raise KeyError (py_repr key)
          end
      | PList _ | PDict _ =>
          raise TypeError ("unhashable type: '" ++ type_name key ++ "'")
      | _ => raise KeyError (py_repr key)
      end
  | PList l =>
      match index_of_key key with
      | Some i =>
          match seq_index l i with
          | Some x => Ok x
          | None => raise IndexError "list index out of range"
          end
      | None =>
          raise TypeError
            ("list indices must be integers or slices, not " ++ type_name key)
      end
  | PStr s =>
      match index_of_key key with
      | Some i =>
          match seq_index (chars s) i with
          | Some c => Ok (PStr c)
          | None => raise IndexError "string index out of range"
          end
      | None =>
          raise TypeError
            ("string indices must be integers, not '" ++ type_name key ++ "'")
      end
  | _ => not_subscriptable v
  end.

(** [v["key"]] *)
Definition item (v : pyval) (key : string) : result pyval := getitem v (PStr key).

(** [v.get(key, default)]; only a [dict] has the method. *)
Definition get_method (v : pyval) (key : string) (default : pyval) : result pyval :=
  match v with
  | PDict d => Ok (match dict_get key d with Some x => x | None => default end)
  | _ => raise AttributeError
           ("'" ++ type_name v ++ "' object has no attribute 'get'")
  end.

(** Number of elements [l[:stop]] keeps of a sequence of length [len]. *)
Definition slice_len (len : nat) (stop : Z) : nat :=
  Z.to_nat (if stop <? 0 then Z.of_nat len + stop else stop)%Z.

(** [v[:stop]] for an [int] stop. *)
Definition slice_to (v : pyval) (stop : Z) : result pyval :=
  match v with
  | PList l => Ok (PList (firstn (slice_len (List.length l) stop) l))
  | PStr s => Ok (PStr (str_slice (slice_len (str_len s) stop) s))
  | PDict _ => raise TypeError "unhashable type: 'slice'"
  | _ => not_subscriptable v
  end.

(** [v[:stop]] for any object as stop: [None] keeps everything. *)
Definition slice_to_val (v stop : pyval) : result pyval :=
  match stop with
  | PNone =>
      match v with
      | PList _ | PStr _ => Ok v
      | PDict _ => raise TypeError "unhashable type: 'slice'"
      | _ => not_subscriptable v
      end
  | PInt _ | PBool _ =>
      slice_to v (match index_of_key stop with Some i => i | None => 0 end)
  | _ =>
      match v with
      | PList _ | PStr _ =>
          raise TypeError
            "slice indices must be integers or None or have an __index__ method"
      | PDict _ => raise TypeError "unhashable type: 'slice'"
      | _ => not_subscriptable v
      end
  end.

(** The elements a [for] loop or [list.extend] draws from [v]. *)
Definition iter (v : pyval) : result (list pyval) :=
  match v with
  | PList l => Ok l
  | PStr s => Ok (map PStr (chars s))
  | PDict d => Ok (map (fun kv => PStr (fst kv)) d)
  | _ => raise TypeError ("'" ++ type_name v ++ "' object is not iterable")
  end.

(** [len(v)] *)
Definition py_len (v : pyval) : result Z :=
  match v with
  | PList l => Ok (Z.of_nat (List.length l))
  | PStr s => Ok (Z.of_nat (str_len s))
  | PDict d => Ok (Z.of_nat (List.length d))
  | _ => raise TypeError ("object of type '" ++ type_name v ++ "' has no len()")
  end.

(** [x in v] for a [str] [x]. *)
Definition str_in (x : string) (v : pyval) : result bool :=
  match v with
  | PList l =>
      Ok (existsb (fun e => match e with PStr s => String.eqb x s | _ => false end) l)
  | PStr s => Ok (contains x s)
  | PDict d => Ok (dict_has x d)
  | _ => raise TypeError
           ("argument of type '" ++ type_name v ++ "' is not iterable")
  end.

Definition float_of_bool (b : bool) : float := if b then 1%float else 0%float.

Definition int_to_float (z : Z) : result float :=
  match float_of_int fl z with
  | Some f => Ok f
  | None => raise OverflowError "int too large to convert to float"
  end.

(** [float(v)] *)
Definition py_float (v : pyval) : result float :=
  match v with
  | PFloat f => Ok f
  | PInt z => int_to_float z
  | PBool b => Ok (float_of_bool b)
  | PStr s =>
      match float_of_str fl s with
      | Some f => Ok f
      | None => raise ValueError
                  ("could not convert string to float: " ++ py_repr_str s)
      end
  | _ => raise TypeError
           ("float() argument must be a string or a real number, not '"
              ++ type_name v ++ "'")
  end.

(** The f-string field [{v:.2f}] *)
Definition format_2f (v : pyval) : result string :=
  match v with
  | PFloat f => Ok (float_fmt_2f fl f)
  | PInt z => f <- int_to_float z ;; Ok (float_fmt_2f fl f)
  | PBool b => Ok (float_fmt_2f fl (float_of_bool b))
  | PStr _ => raise ValueError "Unknown format code 'f' for object of type 'str'"
  | _ => raise TypeError
           ("unsupported format string passed to " ++ type_name v ++ ".__format__")
  end.

(** [enumerate(l)] *)
Definition enumerate {A} (l : list A) : list (Z * A) :=
  combine (map Z.of_nat (seq 0 (List.length l))) l.

End PythonValues.

(** ** Python's [datetime], as far as the program uses it

    [datetime.strptime(s, "%Y-%m-%d")], [+ timedelta(days=n)] and
    [strftime], after CPython's [_strptime.py] and [datetime.py]: a date is
    converted to its proleptic Gregorian ordinal (1 for 0001-01-01), the days
    are added, and the ordinal is converted back. *)

Record pydate := Date { year : Z; month : Z; day : Z }.

Definition is_leap (y : Z) : bool :=
  ((y mod 4 =? 0) && (negb (y mod 100 =? 0) || (y mod 400 =? 0)))%Z.

Definition days_before_year (y : Z) : Z :=
  let y' := y - 1 in y' * 365 + y' / 4 - y' / 100 + y' / 400.

(** The tables [_DAYS_IN_MONTH] and [_DAYS_BEFORE_MONTH]. *)
Definition DAYS_IN_MONTH (m : Z) : Z :=
  match m with
  | 1 => 31 | 2 => 28 | 3 => 31 | 4 => 30 | 5 => 31 | 6 => 30
  | 7 => 31 | 8 => 31 | 9 => 30 | 10 => 31 | 11 => 30 | 12 => 31
  | _ => -1
  end.

Definition DAYS_BEFORE_MONTH (m : Z) : Z :=
  match m with
  | 1 => 0 | 2 => 31 | 3 => 59 | 4 => 90 | 5 => 120 | 6 => 151
  | 7 => 181 | 8 => 212 | 9 => 243 | 10 => 273 | 11 => 304 | 12 => 334
  | _ => -1
  end.

Definition days_in_month (y m : Z) : Z :=
  if (m =? 2)%Z && is_leap y then 29 else DAYS_IN_MONTH m.

Definition days_before_month (y m : Z) : Z :=
  DAYS_BEFORE_MONTH m + (if (2 <? m)%Z && is_leap y then 1 else 0).

Definition ymd2ord (d : pydate) : Z :=
  days_before_year (year d) + days_before_month (year d) (month d) + day d.

Definition MAXORDINAL : Z := 3652059.

Definition ord2ymd (n : Z) : pydate :=
  let n := n - 1 in
  let n400 := n / 146097 in
  let n := n mod 146097 in
  let y := n400 * 400 + 1 in
  let n100 := n / 36524 in
  let n := n mod 36524 in
  let n4 := n / 1461 in
  let n := n mod 1461 in
  let n1 := n / 365 in
  let n := n mod 365 in
  let y := y + n100 * 100 + n4 * 4 + n1 in
  if ((n1 =? 4) || (n100 =? 4))%Z then Date (y - 1) 12 31
  else
    let leapyear := ((n1 =? 3) && (negb (n4 =? 24) || (n100 =? 3)))%Z in
    let m := Z.shiftr (n + 50) 5 in
    let preceding := DAYS_BEFORE_MONTH m + (if (2 <? m)%Z && leapyear then 1 else 0) in
    if (n <? preceding)%Z then
      let m := m - 1 in
      let preceding :=
        preceding - (DAYS_IN_MONTH m + (if (m =? 2)%Z && leapyear then 1 else 0)) in
      Date y m (n - preceding + 1)
    else Date y m (n - preceding + 1).

(** A date the [date] constructor accepts. *)
Definition valid_date (d : pydate) : bool :=
  ((1 <=? year d) && (year d <=? 9999) && (1 <=? month d) && (month d <=? 12)
   && (1 <=? day d) && (day d <=? days_in_month (year d) (month d)))%Z.

Definition digit_val (c : ascii) : Z := Z.of_nat (nat_of_ascii c) - 48.

Definition in_range (lo hi : nat) (c : ascii) : bool :=
  let n := nat_of_ascii c in (48 + lo <=? n)%nat && (n <=? 48 + hi)%nat.

(** The directive [%m] followed by a hyphen: the alternatives
    [1[0-2]], [0[1-9]], [[1-9]] in this order. *)
Definition parse_month (s : string) : option (Z * string) :=
  match s with
  | String a (String b (String h rest)) =>
      if Ascii.eqb a "1" && in_range 0 2 b && Ascii.eqb h hyphen
      then Some (10 + digit_val b, rest)
      else if Ascii.eqb a "0" && in_range 1 9 b && Ascii.eqb h hyphen
      then Some (digit_val b, rest)
      else if in_range 1 9 a && Ascii.eqb b hyphen
      then Some (digit_val a, String h rest)
      else None
  | String a (String b rest) =>
      if in_range 1 9 a && Ascii.eqb b hyphen then Some (digit_val a, rest) else None
  | _ => None
  end.

(** The directive [%d] at the end of the format: the alternatives
    [3[0-1]], [[1-2]\d], [0[1-9]], [[1-9]], [ [1-9]] in this order. *)
Definition parse_day (s : string) : option (Z * string) :=
  match s with
  | String a (String b rest) =>
      if Ascii.eqb a "3" && in_range 0 1 b then Some (30 + digit_val b, rest)
      else if in_range 1 2 a && is_digit b then Some (10 * digit_val a + digit_val b, rest)
      else if Ascii.eqb a "0" && in_range 1 9 b then Some (digit_val b, rest)
      else if in_range 1 9 a then Some (digit_val a, String b rest)
      else if Ascii.eqb a " " && in_range 1 9 b then Some (digit_val b, rest)
      else None
  | String a rest => if in_range 1 9 a then Some (digit_val a, rest) else None
  | _ => None
  end.

Definition parse_year (s : string) : option (Z * string) :=
  match s with
  | String a (String b (String c (String d (String h rest)))) =>
      if is_digit a && is_digit b && is_digit c && is_digit d && Ascii.eqb h hyphen
      then Some (1000 * digit_val a + 100 * digit_val b + 10 * digit_val c
                 + digit_val d, rest)
      else None
  | _ => None
  end.

(** [datetime.strptime(s, "%Y-%m-%d")], date part. *)
Definition strptime_ymd (s : string) : result pydate :=
  let no_match :=
    raise ValueError
      ("time data " ++ py_repr_str s ++ " does not match format '%Y-%m-%d'") in
  match parse_year s with
  | None => no_match
  | Some (y, s1) =>
      match parse_month s1 with
      | None => no_match
      | Some (m, s2) =>
          match parse_day s2 with
          | None => no_match
          | Some (d, rest) =>
              if negb (String.eqb rest "") then
                raise ValueError ("unconverted data remains: " ++ rest)
              else if (y =? 0)%Z then raise ValueError "year 0 is out of range"
              else if (days_in_month y m <? d)%Z then
                raise ValueError "day is out of range for month"
              else Ok (Date y m d)
          end
      end
  end.

(** [d + timedelta(days=n)] *)
Definition add_days (d : pydate) (n : Z) : result pydate :=
  let o := ymd2ord d + n in
  if ((0 <? o) && (o <=? MAXORDINAL))%Z then Ok (ord2ymd o)
  else raise OverflowError "date value out of range".

(** Decimal text of [z >= 0] with zeros added on the left, one as long as
    the text is shorter than the width that is left; with [width] 2, its
    only use, this is the zero-padding of a month or a day to two digits. *)
Fixpoint zero_pad (width : nat) (s : string) : string :=
  match width with
  | O => s
  | S w => if (String.length s <=? w)%nat then zero_pad w ("0" ++ s) else s
  end.

(** [%Y] of [strftime]: the decimal text of a year from 1000 on; the C
    library decides how a year below 1000 is written. *)
Definition year_text fl (y : Z) : string :=
  if (1000 <=? y)%Z then str_of_Z y else short_year fl y.

(** [d.strftime("%Y" + sep + "%m" + sep + "%d")] *)
Definition strftime_ymd fl (sep : string) (d : pydate) : string :=
  year_text fl (year d) ++ sep ++ zero_pad 2 (str_of_Z (month d))
    ++ sep ++ zero_pad 2 (str_of_Z (day d)).

(** ** The outside world *)

(** What [requests.get] returns: [json] is the outcome of [response.json()],
    which raises when the body is not JSON. *)
Record response := {
  status_code : Z;
  text : string;
  json : result pyval
}.

(** [requests_get url] raises on a transport failure; [today] is
    [datetime.now().strftime("%Y-%m-%d")]. *)
Record world := {
  requests_get : string -> result response;
  today : string
}.

Definition NASA_API_KEY : string := "vrLarPvunisrxeRSAFei0AaDY9hCtenVt6htfVyo".

(** [try: body except Exception as e: handler(e)] *)
Definition try_except {A} (body : result A) (handler : exn -> result A) : result A :=
  match body with
  | Ok a => Ok a
  | Raise e => handler e
  end.

Definition or_today (w : world) (date : option string) : string :=
  match date with
  | None => today w
  | Some d => d
  end.

(** The record every module-level fetcher returns on a status other than 200. *)
Definition api_error (r : response) : record :=
  [("error", PStr ("API error: " ++ str_of_Z (status_code r)));
   ("message", PStr (text r))].

(** ** Fetchers *)

Section Fetchers.

Context (fl : float_lib).

Local Abbreviation item := (item fl).
Local Abbreviation getitem := (getitem fl).
Local Abbreviation py_str := (py_str fl).

(** The record built from the decoded APOD body; the same dict display ends
    [get_astronomy_picture] and [NasaApiTool._get_astronomy_picture]. *)
Definition apod_record (data : pyval) : result record :=
  title <- get_method data "title" PNone ;;
  date <- get_method data "date" PNone ;;
  explanation <- get_method data "explanation" PNone ;;
  image_url <- get_method data "url" PNone ;;
  media_type <- get_method data "media_type" PNone ;;
  copyright <- get_method data "copyright" (PStr "NASA") ;;
  Ok [("title", title); ("date", date); ("explanation", explanation);
      ("image_url", image_url); ("media_type", media_type);
      ("copyright", copyright)].

Definition get_astronomy_picture (w : world) (date : option string)
  : result record :=
  let date := or_today w date in
  let url := "https://api.nasa.gov/planetary/apod?api_key=" ++ NASA_API_KEY
             ++ "&date=" ++ date in
  response <- requests_get w url ;;
  if negb (status_code response =? 200)%Z then Ok (api_error response)
  else
    data <- json response ;;
    apod_record data.

(** One element of the [photos] comprehension. *)
Definition photo_descriptor (photo : pyval) : result pyval :=
  id <- item photo "id" ;;
  sol <- item photo "sol" ;;
  camera <- item photo "camera" ;;
  full_name <- item camera "full_name" ;;
  earth_date <- item photo "earth_date" ;;
  img_src <- item photo "img_src" ;;
  Ok (PDict [("id", id); ("sol", sol); ("camera", full_name);
             ("earth_date", earth_date); ("img_src", img_src)]).

(** From [if not data.get("photos")] to the end; the same lines end
    [get_mars_photos] and [NasaApiTool._get_mars_photos]. *)
Definition mars_record (data rover date : pyval) : result record :=
  got <- get_method data "photos" PNone ;;
  if negb (truthy got) then
    Ok [("message",
         PStr ("No photos available for " ++ py_str rover ++ " on " ++ py_str date))]
  else
    all_photos <- item data "photos" ;;
    photos <- slice_to all_photos 5 ;;
    photo_count <- py_len photos ;;
    elements <- iter photos ;;
    descriptors <- mapM photo_descriptor elements ;;
    Ok [("rover", rover); ("date", date); ("photo_count", PInt photo_count);
        ("photos", PList descriptors)].

Definition get_mars_photos (w : world) (rover : string) (date : option string)
  : result record :=
  let date := or_today w date in
  let url := "https://api.nasa.gov/mars-photos/api/v1/rovers/" ++ rover
             ++ "/photos?earth_date=" ++ date ++ "&api_key=" ++ NASA_API_KEY in
  response <- requests_get w url ;;
  if negb (status_code response =? 200)%Z then Ok (api_error response)
  else
    data <- json response ;;
    mars_record data (PStr rover) (PStr date).

(** The sort key:
    [float(x["close_approach_data"][0]["miss_distance"]["kilometers"])] *)
Definition miss_distance_key (x : pyval) : result float :=
  cad <- item x "close_approach_data" ;;
  first <- getitem cad (PInt 0) ;;
  miss <- item first "miss_distance" ;;
  km <- item miss "kilometers" ;;
  py_float fl km.

(** Stable insertion by [<] on the keys: [x] goes before the first element
    that is not smaller than it. *)
Fixpoint insert_by_key {A} (x : float * A) (l : list (float * A)) : list (float * A) :=
  match l with
  | [] => [x]
  | y :: l' =>
      if PrimFloat.ltb (fst y) (fst x) then y :: insert_by_key x l'
      else x :: l
  end.

(** The stable sort by [<] on the keys: the one order a stable sort can
    leave keys in that [<] orders totally. *)
Definition sort_by_key {A} (l : list (float * A)) : list (float * A) :=
  fold_right insert_by_key [] l.

(** The exchange of the elements at the positions [i] and [i + 1]. *)
Fixpoint swap_at {A} (i : nat) (l : list A) : list A :=
  match i, l with
  | O, a :: b :: l' => b :: a :: l'
  | S i', a :: l' => a :: swap_at i' l'
  | _, _ => l
  end.

Definition apply_swaps {A} (swaps : list nat) (l : list A) : list A :=
  fold_left (fun l i => swap_at i l) swaps l.

(** [list.sort(key=...)] once the keys are computed.  The sort of CPython is
    stable and compares keys with [<] only.  Keys without a NaN are ordered
    totally by [<], and the sort returns the one stable order.  With a NaN
    among the keys the outcome depends on the comparisons the algorithm
    happens to make: it is the list rearranged as the runtime decides from
    the keys, by exchanges of neighbours, which reach every rearrangement. *)
Definition list_sort {A} (l : list (float * A)) : list (float * A) :=
  if forallb (fun kx => negb (is_nan (fst kx))) l then sort_by_key l
  else apply_swaps (nan_swaps fl (map fst l)) l.

(** [all_neo.sort(key=lambda x: ...)]: the keys of all elements are computed
    first, in order, and an exception of any of them leaves the sort. *)
Definition with_key (x : pyval) : result (float * pyval) :=
  k <- miss_distance_key x ;; Ok (k, x).

Definition sort_neo (all_neo : list pyval) : result (list pyval) :=
  keyed <- mapM with_key all_neo ;;
  Ok (map snd (list_sort keyed)).

(** [for day in days: all_neo.extend(days[day])] *)
Definition flatten_days (days : pyval) : result (list pyval) :=
  keys <- iter days ;;
  groups <- mapM (fun day => group <- getitem days day ;; iter group) keys ;;
  Ok (List.concat groups).

(** One element of the [near_earth_objects] comprehension. *)
Definition neo_descriptor (neo : pyval) : result pyval :=
  name <- item neo "name" ;;
  id <- item neo "id" ;;
  d1 <- item neo "estimated_diameter" ;;
  k1 <- item d1 "kilometers" ;;
  diameter_min <- item k1 "estimated_diameter_min" ;;
  d2 <- item neo "estimated_diameter" ;;
  k2 <- item d2 "kilometers" ;;
  diameter_max <- item k2 "estimated_diameter_max" ;;
  hazardous <- item neo "is_potentially_hazardous_asteroid" ;;
  c1 <- item neo "close_approach_data" ;;
  a1 <- getitem c1 (PInt 0) ;;
  close_approach_date <- item a1 "close_approach_date" ;;
  c2 <- item neo "close_approach_data" ;;
  a2 <- getitem c2 (PInt 0) ;;
  m2 <- item a2 "miss_distance" ;;
  miss_distance <- item m2 "kilometers" ;;
  c3 <- item neo "close_approach_data" ;;
  a3 <- getitem c3 (PInt 0) ;;
  v3 <- item a3 "relative_velocity" ;;
  velocity <- item v3 "kilometers_per_hour" ;;
  Ok (PDict [("name", name); ("id", id); ("diameter_min_km", diameter_min);
             ("diameter_max_km", diameter_max);
             ("is_potentially_hazardous", hazardous);
             ("close_approach_date", close_approach_date);
             ("miss_distance_km", miss_distance);
             ("relative_velocity_kph", velocity)]).

(** From [all_neo = []] to the end; the same lines end [get_neo_objects] and
    [NasaApiTool._get_near_earth_objects].  [count] is the object given as
    the slice stop. *)
Definition neo_record (data : pyval) (start_date end_date : string) (count : pyval)
  : result record :=
  days <- item data "near_earth_objects" ;;
  all_neo <- flatten_days days ;;
  sorted <- sort_neo all_neo ;;
  selected <- slice_to_val (PList sorted) count ;;
  total_count <- item data "element_count" ;;
  selected_neo <- iter selected ;;
  descriptors <- mapM neo_descriptor selected_neo ;;
  Ok [("total_count", total_count);
      ("period", PStr (start_date ++ " to " ++ end_date));
      ("near_earth_objects", PList descriptors)].

(** The feed URL both near-Earth-object fetchers request. *)
Definition neo_feed_url (key start_date end_date : string) : string :=
  "https://api.nasa.gov/neo/rest/v1/feed?start_date=" ++ start_date
    ++ "&end_date=" ++ end_date ++ "&api_key=" ++ key.

(** What the formatter reads of a descriptor: [float(obj['miss_distance_km'])] *)
Definition descriptor_km (obj : pyval) : result float :=
  km <- item obj "miss_distance_km" ;; py_float fl km.

(** [(datetime.strptime(date, "%Y-%m-%d") + timedelta(days=7)).strftime("%Y-%m-%d")] *)
Definition seven_days_later (date : string) : result string :=
  d <- strptime_ymd date ;;
  d' <- add_days d 7 ;;
  Ok (strftime_ymd fl "-" d').

Definition get_neo_objects (w : world) (date : option string) (count : Z)
  : result record :=
  let date := or_today w date in
  let start_date := date in
  end_date <- seven_days_later date ;;
  let url := neo_feed_url NASA_API_KEY start_date end_date in
  response <- requests_get w url ;;
  if negb (status_code response =? 200)%Z then Ok (api_error response)
  else
    data <- json response ;;
    neo_record data start_date end_date (PInt count).

(** One element of the [images] comprehension. *)
Definition epic_descriptor (formatted_date : string) (img : pyval) : result pyval :=
  id <- item img "identifier" ;;
  caption <- item img "caption" ;;
  image <- item img "image" ;;
  date <- item img "date" ;;
  c1 <- item img "centroid_coordinates" ;;
  lat <- item c1 "lat" ;;
  c2 <- item img "centroid_coordinates" ;;
  lon <- item c2 "lon" ;;
  Ok (PDict [("id", id); ("caption", caption);
             ("image_url",
              PStr ("https://api.nasa.gov/EPIC/archive/natural/" ++ formatted_date
                    ++ "/png/" ++ py_str image ++ ".png?api_key=" ++ NASA_API_KEY));
             ("date", date);
             ("centroid_coordinates", PDict [("lat", lat); ("lon", lon)])]).

(** [datetime.strptime(date, "%Y-%m-%d")] on any object; the message for
    an object that is no [str] names its type, and [None] by its name. *)
Definition strptime_val (date : pyval) : result pydate :=
  match date with
  | PStr s => strptime_ymd s
  | PNone => raise TypeError "strptime() argument 1 must be str, not None"
  | _ => raise TypeError
           ("strptime() argument 1 must be str, not " ++ type_name date)
  end.

Definition get_epic_imagery (w : world) (date : option string) : result record :=
  let url := "https://api.nasa.gov/EPIC/api/natural/available?api_key="
             ++ NASA_API_KEY in
  response <- requests_get w url ;;
  if negb (status_code response =? 200)%Z then Ok (api_error response)
  else
    available_dates <- json response ;;
    date <- match date with
            | None => getitem available_dates (PInt 0)
            | Some d =>
                known <- str_in d available_dates ;;
                if negb known then getitem available_dates (PInt 0)
                else Ok (PStr d)
            end ;;
    let url := "https://api.nasa.gov/EPIC/api/natural/date/" ++ py_str date
               ++ "?api_key=" ++ NASA_API_KEY in
    response <- requests_get w url ;;
    if negb (status_code response =? 200)%Z then Ok (api_error response)
    else
      data <- json response ;;
      if negb (truthy data) then
        Ok [("message", PStr ("No EPIC imagery available for " ++ py_str date))]
      else
        dt <- strptime_val date ;;
        let formatted_date := strftime_ymd fl "/" dt in
        images <- slice_to data 3 ;;
        image_count <- py_len data ;;
        elements <- iter images ;;
        descriptors <- mapM (epic_descriptor formatted_date) elements ;;
        Ok [("date", date); ("image_count", PInt image_count);
            ("images", PList descriptors)].

(** ** The routing entry point *)

(** [get_nasa_response]: the router's decision, then the fetcher of the
    chosen branch.  [Ok None] is the pair [(None, None)]. *)
Definition get_nasa_response (w : world) (user_query : string)
  : result (option (string * record)) :=
  match route user_query with
  | Some (RouteApod date) =>
      r <- get_astronomy_picture w date ;; Ok (Some ("apod", r))
  | Some (RouteMars rover date) =>
      r <- get_mars_photos w rover date ;; Ok (Some ("mars", r))
  | Some (RouteNeo date) =>
      r <- get_neo_objects w date 5 ;; Ok (Some ("neo", r))
  | Some (RouteEpic date) =>
      r <- get_epic_imagery w date ;; Ok (Some ("epic", r))
  | None => Ok None
  end.

End Fetchers.

(** ** The tool class [NasaApiTool] *)

Record NasaApiTool := { api_key : string }.

(** [params.get(key, default)] on the [params] dict. *)
Definition params_get (key : string) (default : pyval) (params : record) : pyval :=
  match dict_get key params with
  | Some v => v
  | None => default
  end.

(** [endpoint in [...]] for a [str] and a list of [str]. *)
Definition str_among (s : string) (l : list string) : bool :=
  existsb (String.eqb s) l.

(** [NasaApiTool.__init__]: [api_key or os.environ.get('NASA_API_KEY',
    NASA_API_KEY)]; [env_key] is the environment variable, when it is set.
    An absent or empty argument is false for [or]. *)
Definition NasaApiTool_init (key : option string) (env_key : option string)
  : NasaApiTool :=
  let from_env := match env_key with Some k => k | None => NASA_API_KEY end in
  {| api_key := match key with
                | Some k => if String.eqb k "" then from_env else k
                | None => from_env
                end |}.

(** [NasaApiTool.get_tool_definition] *)
Definition get_tool_definition : pyval :=
  PDict
    [("type", PStr "function");
     ("function",
      PDict
        [("name", PStr "nasa_api");
         ("description",
          PStr "Access NASA data including astronomy picture of the day, Mars rover photos, and near-Earth objects");
         ("parameters",
          PDict
            [("type", PStr "object");
             ("properties",
              PDict
                [("endpoint",
                  PDict
                    [("type", PStr "string");
                     ("enum",
                      PList [PStr "apod"; PStr "mars_photos"; PStr "neo"; PStr "earth"]);
                     ("description",
                      PStr "NASA API endpoint to query. Use 'apod' for Astronomy Picture of the Day, 'mars_photos' for Mars rover photos, 'neo' for Near-Earth Objects, and 'earth' for Earth imagery.")]);
                 ("date",
                  PDict
                    [("type", PStr "string");
                     ("description",
                      PStr "Date for the query in YYYY-MM-DD format, defaults to today")]);
                 ("rover",
                  PDict
                    [("type", PStr "string");
                     ("enum",
                      PList [PStr "curiosity"; PStr "opportunity"; PStr "spirit";
                             PStr "perseverance"]);
                     ("description",
                      PStr "Mars rover to get photos from (for mars_photos endpoint)")]);
                 ("camera",
                  PDict
                    [("type", PStr "string");
                     ("description",
                      PStr "Camera name for Mars rover photos (optional)")]);
                 ("count",
                  PDict
                    [("type", PStr "integer");
                     ("description",
                      PStr "Number of items to return (default: 1)")])]);
             ("required", PList [PStr "endpoint"])])])].

Section Tool.

Context (fl : float_lib).

Local Abbreviation py_str := (py_str fl).

(** [endpoint.lower().strip()] needs a [str]: any other object has no
    method [lower]. *)
Definition _normalize_endpoint (endpoint : pyval) : result string :=
  match endpoint with
  | PStr s =>
      let endpoint := strip (lower s) in
      if str_among endpoint
           ["apod"; "astronomy picture of the day";
            "astronomy-picture-of-the-day"; "astronomy_picture_of_the_day"]
      then Ok "apod"
      else if str_among endpoint
                ["mars_photos"; "mars photos"; "mars-photos"; "mars_rover";
                 "mars rover"; "mars-rover"]
      then Ok "mars_photos"
      else if str_among endpoint
                ["neo"; "near earth objects"; "near-earth-objects";
                 "near_earth_objects"]
      then Ok "neo"
      else if str_among endpoint
                ["earth"; "earth imagery"; "earth-imagery"; "earth_imagery"]
      then Ok "earth"
      else Ok endpoint
  | _ => raise AttributeError
           ("'" ++ type_name endpoint ++ "' object has no attribute 'lower'")
  end.

Definition _get_astronomy_picture (self : NasaApiTool) (w : world) (date : pyval)
  : result record :=
  let url := "https://api.nasa.gov/planetary/apod?api_key=" ++ api_key self
             ++ "&date=" ++ py_str date in
  response <- requests_get w url ;;
  data <- json response ;;
  apod_record data.

Definition _get_mars_photos (self : NasaApiTool) (w : world)
  (rover date camera : pyval) : result record :=
  let url := "https://api.nasa.gov/mars-photos/api/v1/rovers/" ++ py_str rover
             ++ "/photos?earth_date=" ++ py_str date ++ "&api_key=" ++ api_key self in
  let url := if truthy camera then url ++ "&camera=" ++ py_str camera else url in
  response <- requests_get w url ;;
  data <- json response ;;
  mars_record fl data rover date.

Definition _get_near_earth_objects (self : NasaApiTool) (w : world)
  (date count : pyval) : result record :=
  let start_date := py_str date in
  end_date <- (d <- strptime_val date ;;
               d' <- add_days d 7 ;;
               Ok (strftime_ymd fl "-" d')) ;;
  let url := neo_feed_url (api_key self) start_date end_date in
  response <- requests_get w url ;;
  data <- json response ;;
  neo_record fl data start_date end_date count.

(** The fixed location of [_get_earth_imagery] (New York City). *)
Definition earth_lat : float := 40.71%float.
Definition earth_lon : float := (-74.00)%float.

Definition earth_url (self : NasaApiTool) (date : pyval) : string :=
  "https://api.nasa.gov/planetary/earth/imagery?lon=" ++ float_repr fl earth_lon
    ++ "&lat=" ++ float_repr fl earth_lat ++ "&date=" ++ py_str date
    ++ "&api_key=" ++ api_key self.

(** The record of the bare [except:] clause. *)
Definition earth_no_coverage : record :=
  [("message",
    PStr "Earth imagery may not be available for the specified date/location");
   ("note",
    PStr "The Earth imagery API has limited coverage and may return errors for some dates.")].

Definition _get_earth_imagery (self : NasaApiTool) (w : world) (date : pyval)
  : result record :=
  let lat := earth_lat in
  let lon := earth_lon in
  let url := earth_url self date in
  try_except
    (response <- requests_get w url ;;
     data <- json response ;;
     image_url <- get_method data "url"
                    (PStr "No image available for this date/location") ;;
     Ok [("date", date); ("location", PStr "New York City");
         ("coordinates", PDict [("lat", PFloat lat); ("lon", PFloat lon)]);
         ("image_url", image_url)])
    (fun _ => Ok earth_no_coverage).

(** [NasaApiTool.call]: the endpoint is normalized before the [try]. *)
Definition call (self : NasaApiTool) (w : world) (params : record) : result record :=
  endpoint <- _normalize_endpoint (params_get "endpoint" (PStr "") params) ;;
  let date := params_get "date" (PStr (today w)) params in
  try_except
    (if String.eqb endpoint "apod" then _get_astronomy_picture self w date
     else if String.eqb endpoint "mars_photos" then
       let rover := params_get "rover" (PStr "curiosity") params in
       let camera := params_get "camera" PNone params in
       _get_mars_photos self w rover date camera
     else if String.eqb endpoint "neo" then
       let count := params_get "count" (PInt 5) params in
       _get_near_earth_objects self w date count
     else if String.eqb endpoint "earth" then _get_earth_imagery self w date
     else Ok [("error", PStr ("Invalid endpoint specified: " ++ endpoint))])
    (fun e => Ok [("error", PStr (exn_str e))]).

End Tool.

(** ** The formatter of [nasa_tool.py] *)

Definition nl : string := String (ascii_of_nat 10) "".
Definition dq : string := String dquote "".

(** The warning sign U+26A0 U+FE0F of the hazard text, as its UTF-8 bytes. *)
Definition warning_sign : string :=
  string_of_list_ascii (map ascii_of_nat [226; 154; 160; 239; 184; 143]%nat).

Section Formatter.

Context (fl : float_lib).

Local Abbreviation item := (item fl).
Local Abbreviation py_str := (py_str fl).

Definition format_nasa_response (user_query : string) (nasa_data : record)
  (data_type : string) : result string :=
  if dict_has "error" nasa_data then
    e <- item (PDict nasa_data) "error" ;;
    Ok ("Sorry, I encountered an error when trying to fetch NASA data: " ++ py_str e)
  else if dict_has "message" nasa_data then
    m <- item (PDict nasa_data) "message" ;;
    Ok ("NASA API message: " ++ py_str m)
  else if String.eqb data_type "apod" then
    title <- item (PDict nasa_data) "title" ;;
    date <- item (PDict nasa_data) "date" ;;
    image_url <- item (PDict nasa_data) "image_url" ;;
    e1 <- item (PDict nasa_data) "explanation" ;;
    head <- slice_to e1 500 ;;
    e2 <- item (PDict nasa_data) "explanation" ;;
    len <- py_len e2 ;;
    copyright <- get_method (PDict nasa_data) "copyright" (PStr "NASA") ;;
    Ok ("Today's Astronomy Picture of the Day is titled " ++ dq ++ py_str title
        ++ dq ++ " from " ++ py_str date ++ "." ++ nl ++ nl
        ++ "Image URL: " ++ py_str image_url ++ nl ++ nl
        ++ "Description: " ++ py_str head ++ (if (500 <? len)%Z then "..." else "")
        ++ nl ++ nl
        ++ "Credit: " ++ py_str copyright ++ nl ++ nl
        ++ "You can view this image and more at NASA's official APOD website: https://apod.nasa.gov/apod/"
        ++ nl)
  else if String.eqb data_type "mars" then
    if dict_has "message" nasa_data then
      m <- item (PDict nasa_data) "message" ;;
      Ok ("NASA Mars Rover Data: " ++ py_str m)
    else
      photos <- item (PDict nasa_data) "photos" ;;
      shown <- slice_to photos 3 ;;
      elements <- iter shown ;;
      lines <- mapM (fun ip : Z * pyval =>
                       let (i, photo) := ip in
                       camera <- item photo "camera" ;;
                       earth_date <- item photo "earth_date" ;;
                       sol <- item photo "sol" ;;
                       img_src <- item photo "img_src" ;;
                       Ok ("- Photo " ++ str_of_Z (i + 1) ++ ": Taken by "
                           ++ py_str camera ++ " on " ++ py_str earth_date
                           ++ " (Sol " ++ py_str sol ++ ")" ++ nl
                           ++ "  URL: " ++ py_str img_src))
                    (enumerate elements) ;;
      let photos_text := join nl lines in
      photo_count <- item (PDict nasa_data) "photo_count" ;;
      rover <- item (PDict nasa_data) "rover" ;;
      date <- item (PDict nasa_data) "date" ;;
      Ok ("I found " ++ py_str photo_count ++ " recent photos from the "
          ++ py_str rover ++ " Mars rover, dated " ++ py_str date ++ "." ++ nl ++ nl
          ++ "Here are some of them:" ++ nl ++ nl
          ++ photos_text ++ nl ++ nl
          ++ "You can find more Mars rover photos on NASA's website: https://mars.nasa.gov/"
          ++ nl)
  else if String.eqb data_type "neo" then
    objects <- item (PDict nasa_data) "near_earth_objects" ;;
    shown <- slice_to objects 3 ;;
    elements <- iter shown ;;
    lines <- mapM (fun obj =>
                     name <- item obj "name" ;;
                     dmin <- item obj "diameter_min_km" ;;
                     dmin_text <- format_2f fl dmin ;;
                     dmax <- item obj "diameter_max_km" ;;
                     dmax_text <- format_2f fl dmax ;;
                     approach <- item obj "close_approach_date" ;;
                     miss <- item obj "miss_distance_km" ;;
                     miss_km <- py_float fl miss ;;
                     hazardous <- item obj "is_potentially_hazardous" ;;
                     Ok ("- " ++ py_str name ++ ": " ++ dmin_text ++ "-" ++ dmax_text
                         ++ " km diameter, "
                         ++ "passing on " ++ py_str approach ++ " at a distance of "
                         ++ float_fmt_2f fl miss_km ++ " km, "
                         ++ (if truthy hazardous
                             then warning_sign ++ " Potentially hazardous"
                             else "Not considered hazardous")))
                  elements ;;
    let objects_text := join nl lines in
    total_count <- item (PDict nasa_data) "total_count" ;;
    period <- item (PDict nasa_data) "period" ;;
    Ok ("I found data on " ++ py_str total_count ++ " near-Earth objects from "
        ++ py_str period ++ "." ++ nl ++ nl
        ++ "Here are the closest approaches:" ++ nl ++ nl
        ++ objects_text ++ nl ++ nl
        ++ "This information comes from NASA's Near Earth Object Web Service (NeoWs)."
        ++ nl)
  else if String.eqb data_type "epic" then
    if dict_has "message" nasa_data then
      m <- item (PDict nasa_data) "message" ;;
      Ok ("NASA EPIC Data: " ++ py_str m)
    else
      images <- item (PDict nasa_data) "images" ;;
      shown <- slice_to images 3 ;;
      elements <- iter shown ;;
      lines <- mapM (fun ii : Z * pyval =>
                       let (i, img) := ii in
                       caption <- item img "caption" ;;
                       c1 <- item img "centroid_coordinates" ;;
                       lat <- item c1 "lat" ;;
                       c2 <- item img "centroid_coordinates" ;;
                       lon <- item c2 "lon" ;;
                       image_url <- item img "image_url" ;;
                       Ok ("- Image " ++ str_of_Z (i + 1) ++ ": " ++ py_str caption
                           ++ " (at coordinates: " ++ py_str lat ++ ", "
                           ++ py_str lon ++ ")" ++ nl
                           ++ "  URL: " ++ py_str image_url))
                    (enumerate elements) ;;
      let images_text := join nl lines in
      image_count <- item (PDict nasa_data) "image_count" ;;
      date <- item (PDict nasa_data) "date" ;;
      Ok ("I found " ++ py_str image_count
          ++ " Earth images from NASA's EPIC camera for " ++ py_str date ++ "."
          ++ nl ++ nl
          ++ "Here are some of them:" ++ nl ++ nl
          ++ images_text ++ nl ++ nl
          ++ "These images come from NASA's Earth Polychromatic Imaging Camera (EPIC)."
          ++ nl)
  else Ok "".

(** [s.upper()] *)
Definition upper (s : string) : string :=
  string_of_list_ascii
    (map (fun c => let n := nat_of_ascii c in
                   if (97 <=? n)%nat && (n <=? 122)%nat then ascii_of_nat (n - 32) else c)
       (list_ascii_of_string s)).

(** [process_query]: the response, its source label and the raw record, or
    [None].  The test [if data_type and nasa_data] asks for a non-empty
    record. *)
Definition process_query (w : world) (query : string)
  : result (option (string * string * record)) :=
  routed <- get_nasa_response fl w query ;;
  match routed with
  | Some (data_type, nasa_data) =>
      if negb (String.eqb data_type "") && truthy (PDict nasa_data) then
        formatted_response <- format_nasa_response query nasa_data data_type ;;
        Ok (Some (formatted_response, "NASA " ++ upper data_type ++ " API", nasa_data))
      else Ok None
  | None => Ok None
  end.

End Formatter.

(** ** The chat program [mcp_chat.py] *)

Module mcp_chat.

Definition MODEL_NAME : string := "llama3.2:latest".

(** The fetchers of [mcp_chat.py]: those of [nasa_tool.py] without the test
    of the status code. *)
Section Fetchers.

Context (fl : float_lib).

Definition get_astronomy_picture (w : world) (date : option string)
  : result record :=
  let date := or_today w date in
  let url := "https://api.nasa.gov/planetary/apod?api_key=" ++ NASA_API_KEY
             ++ "&date=" ++ date in
  response <- requests_get w url ;;
  data <- json response ;;
  apod_record data.

Definition get_mars_photos (w : world) (rover : string) (date : option string)
  : result record :=
  let date := or_today w date in
  let url := "https://api.nasa.gov/mars-photos/api/v1/rovers/" ++ rover
             ++ "/photos?earth_date=" ++ date ++ "&api_key=" ++ NASA_API_KEY in
  response <- requests_get w url ;;
  data <- json response ;;
  mars_record fl data (PStr rover) (PStr date).

Definition get_neo_objects (w : world) (date : option string) (count : Z)
  : result record :=
  let date := or_today w date in
  let start_date := date in
  end_date <- seven_days_later fl date ;;
  let url := neo_feed_url NASA_API_KEY start_date end_date in
  response <- requests_get w url ;;
  data <- json response ;;
  neo_record fl data start_date end_date (PInt count).

End Fetchers.

(** *** The formatter of [mcp_chat.py] *)

Section Formatter.

Context (fl : float_lib).

Local Abbreviation item := (item fl).
Local Abbreviation py_str := (py_str fl).

Definition get_model_response_with_nasa_data (user_query : string)
  (nasa_data : record) (data_type : string) : result string :=
  if String.eqb data_type "apod" then
    title <- item (PDict nasa_data) "title" ;;
    date <- item (PDict nasa_data) "date" ;;
    image_url <- item (PDict nasa_data) "image_url" ;;
    e1 <- item (PDict nasa_data) "explanation" ;;
    head <- slice_to e1 500 ;;
    e2 <- item (PDict nasa_data) "explanation" ;;
    len <- py_len e2 ;;
    copyright <- get_method (PDict nasa_data) "copyright" (PStr "NASA") ;;
    Ok ("Today's Astronomy Picture of the Day is titled " ++ dq ++ py_str title
        ++ dq ++ " from " ++ py_str date ++ "." ++ nl ++ nl
        ++ "Image URL: " ++ py_str image_url ++ nl ++ nl
        ++ "Description: " ++ py_str head ++ (if (500 <? len)%Z then "..." else "")
        ++ nl ++ nl
        ++ "Credit: " ++ py_str copyright ++ nl ++ nl
        ++ "You can view this image and more at NASA's official APOD website: https://apod.nasa.gov/apod/"
        ++ nl)
  else if String.eqb data_type "mars" then
    if dict_has "message" nasa_data then
      m <- item (PDict nasa_data) "message" ;;
      Ok ("NASA Mars Rover Data: " ++ py_str m)
    else
      photos <- item (PDict nasa_data) "photos" ;;
      shown <- slice_to photos 3 ;;
      elements <- iter shown ;;
      lines <- mapM (fun ip : Z * pyval =>
                       let (i, photo) := ip in
                       camera <- item photo "camera" ;;
                       earth_date <- item photo "earth_date" ;;
                       sol <- item photo "sol" ;;
                       img_src <- item photo "img_src" ;;
                       Ok ("- Photo " ++ str_of_Z (i + 1) ++ ": Taken by "
                           ++ py_str camera ++ " on " ++ py_str earth_date
                           ++ " (Sol " ++ py_str sol ++ ")" ++ nl
                           ++ "  URL: " ++ py_str img_src))
                    (enumerate elements) ;;
      let photos_text := join nl lines in
      photo_count <- item (PDict nasa_data) "photo_count" ;;
      rover <- item (PDict nasa_data) "rover" ;;
      date <- item (PDict nasa_data) "date" ;;
      Ok ("I found " ++ py_str photo_count ++ " recent photos from the "
          ++ py_str rover ++ " Mars rover, dated " ++ py_str date ++ "." ++ nl ++ nl
          ++ "Here are some of them:" ++ nl ++ nl
          ++ photos_text ++ nl ++ nl
          ++ "You can find more Mars rover photos on NASA's website: https://mars.nasa.gov/"
          ++ nl)
  else if String.eqb data_type "neo" then
    objects <- item (PDict nasa_data) "near_earth_objects" ;;
    shown <- slice_to objects 3 ;;
    elements <- iter shown ;;
    lines <- mapM (fun obj =>
                     name <- item obj "name" ;;
                     dmin <- item obj "diameter_min_km" ;;
                     dmin_text <- format_2f fl dmin ;;
                     dmax <- item obj "diameter_max_km" ;;
                     dmax_text <- format_2f fl dmax ;;
                     approach <- item obj "close_approach_date" ;;
                     miss <- item obj "miss_distance_km" ;;
                     miss_km <- py_float fl miss ;;
                     hazardous <- item obj "is_potentially_hazardous" ;;
                     Ok ("- " ++ py_str name ++ ": " ++ dmin_text ++ "-" ++ dmax_text
                         ++ " km diameter, "
                         ++ "passing on " ++ py_str approach ++ " at a distance of "
                         ++ float_fmt_2f fl miss_km ++ " km, "
                         ++ (if truthy hazardous
                             then warning_sign ++ " Potentially hazardous"
                             else "Not considered hazardous")))
                  elements ;;
    let objects_text := join nl lines in
    total_count <- item (PDict nasa_data) "total_count" ;;
    period <- item (PDict nasa_data) "period" ;;
    Ok ("I found data on " ++ py_str total_count ++ " near-Earth objects from "
        ++ py_str period ++ "." ++ nl ++ nl
        ++ "Here are the closest approaches:" ++ nl ++ nl
        ++ objects_text ++ nl ++ nl
        ++ "This information comes from NASA's Near Earth Object Web Service (NeoWs)."
        ++ nl)
  else Ok "".

End Formatter.

(** *** The chat session *)

(** The language-model backend: [ollama.list()] and
    [ollama.chat(model=MODEL_NAME, messages=...)]. *)
Record backend := {
  ollama_list : result unit;
  ollama_chat : list pyval -> result pyval
}.

(** How a run over a script of inputs ends: the loop left by [break], the
    process left by [sys.exit], an exception that leaves [mcp_chat], or the
    loop waiting at [input] for a line the script does not hold. *)
Inductive session_end :=
| Goodbye
| Exit (code : Z)
| Uncaught (e : exn)
| AwaitingInput.

(** The arguments of the [print] calls in order, the [messages] list, and
    the way the run ended. *)
Record session := {
  printed : list string;
  history : list pyval;
  ended : session_end
}.

Definition message (role content : string) : pyval :=
  PDict [("role", PStr role); ("content", PStr content)].

Definition system_message : pyval :=
  message "system"
    "You are a helpful AI assistant with knowledge about space and NASA.".

Fixpoint repeat_str (s : string) (n : nat) : string :=
  match n with
  | O => ""
  | S n' => s ++ repeat_str s n'
  end.

(** The lines printed before the loop. *)
Definition banner : list string :=
  [nl ++ repeat_str "=" 50;
   "NASA-enhanced Chat using " ++ MODEL_NAME;
   repeat_str "=" 50;
   "This implementation demonstrates the Model Context Protocol (MCP)";
   "by integrating NASA API data with a local LLM.";
   nl ++ "Ask about:";
   "- Astronomy Picture of the Day (try: 'show me today's astronomy picture')";
   "- Mars Rover photos (try: 'what photos did the Mars rover take recently?')";
   "- Near-Earth Objects (try: 'are there any asteroids passing near Earth?')";
   "- Earth imagery (try: 'show me images of Earth from space')";
   nl ++ "Type 'exit' to quit"].

(** [print(line)] and [messages.append(m)] *)
Definition print (out : list string) (line : string) : list string :=
  List.app out [line].

Definition append (messages : list pyval) (m : pyval) : list pyval :=
  List.app messages [m].

Section Session.

Context (fl : float_lib) (w : world) (llm : backend).

Local Abbreviation py_str := (py_str fl).

(** The [while True] loop of [mcp_chat], run over the lines [input] returns. *)
Fixpoint chat_loop (inputs : list string) (messages : list pyval)
  (out : list string) : session :=
  match inputs with
  | [] => {| printed := out; history := messages; ended := AwaitingInput |}
  | user_input :: rest =>
      if str_among (lower user_input) ["exit"; "quit"] then
        {| printed := print out "Goodbye!"; history := messages; ended := Goodbye |}
      else
        match process_query fl w user_input with
        | Raise e => {| printed := out; history := messages; ended := Uncaught e |}
        | Ok nasa_response =>
            let messages := append messages (message "user" user_input) in
            match nasa_response with
            | Some (prepared_response, source, _) =>
                let out := print out (nl ++ "Fetching data from " ++ source ++ "...") in
                let out := print out (nl ++ "Assistant: " ++ prepared_response) in
                chat_loop rest
                  (append messages (message "assistant" prepared_response)) out
            | None =>
                let out := print out "Thinking..." in
                let failed e :=
                  print out (nl ++ "Error getting response from model: " ++ exn_str e) in
                match ollama_chat llm messages with
                | Raise e => chat_loop rest messages (failed e)
                | Ok response =>
                    match (m <- get_method response "message" (PDict []) ;;
                           get_method m "content" (PStr "")) with
                    | Raise e => chat_loop rest messages (failed e)
                    | Ok content =>
                        if truthy content then
                          let out := print out (nl ++ "Assistant: " ++ py_str content) in
                          match item fl response "message" with
                          | Ok m => chat_loop rest (append messages m) out
                          | Raise e =>
                              chat_loop rest messages
                                (print out (nl ++ "Error getting response from model: "
                                              ++ exn_str e))
                          end
                        else
                          chat_loop rest messages
                            (print out (nl ++ "No response received from the model."))
                    end
                end
            end
        end
  end.

(** [mcp_chat()], over a script of input lines. *)
Definition mcp_chat (inputs : list string) : session :=
  match ollama_list llm with
  | Raise e =>
      {| printed := ["Error: Unable to connect to Ollama. " ++ exn_str e;
                     "Please install Ollama and the " ++ MODEL_NAME ++ " model."];
         history := []; ended := Exit 1 |}
  | Ok _ => chat_loop inputs [system_message] banner
  end.


End Session.

End mcp_chat.

(** ** The test cases of [test_suite.py] *)

Module test_suite.

(** [TEST_CASES]: id, category, query and [expected_api] of each case. *)
Definition TEST_CASES : list (Z * string * string * option string) :=
  [(1, "APOD", "What is today's astronomy picture of the day?", Some "APOD");
   (2, "APOD", "Show me NASA's picture from 2022-12-25", Some "APOD");
   (3, "Mars Rover", "What photos did Curiosity rover take recently?", Some "Mars");
   (4, "Mars Rover", "Show me pictures from Perseverance rover on Mars", Some "Mars");
   (5, "Near Earth Objects", "Are there any asteroids passing near Earth this week?",
    Some "NEO");
   (6, "Near Earth Objects", "Tell me about potentially hazardous asteroids",
    Some "NEO");
   (7, "Earth Imagery", "Show me images of Earth from space", Some "EPIC");
   (8, "Earth Imagery", "What does our planet look like from space?", Some "EPIC");
   (9, "Multi-Intent",
    "Tell me about the Mars rover and show me today's astronomy picture",
    Some "APOD or Mars");
   (10, "Off-Topic", "Tell me about black holes", None)].

End test_suite.

(** ** CPython's float conversions

    The four conversions of [float_lib] as CPython performs them on ASCII
    text, computed exactly on the integers: decimal text is rounded to the
    nearest binary64 value (ties to even), [repr] is the shortest text that
    reads back as the same value, and [.2f] rounds the exact binary value
    to two decimals (ties to even). *)

Module PyFloat.

Local Open Scope Z_scope.

(** The binary64 value nearest to [n / d], for [0 <= n] and [0 < d]. *)
Definition round_ratio (neg : bool) (n d : Z) : float :=
  if n =? 0 then SF2Prim (S754_zero neg)
  else
    let k := Z.max 0 (Z.log2 d - Z.log2 n + 56) in
    let (q, r) := Z.div_eucl (Z.shiftl n k) d in
    SF2Prim (binary_round_aux prec emax neg q (- k) (new_location d r)).

Definition of_int (z : Z) : option float :=
  let f := round_ratio (z <? 0) (Z.abs z) 1 in
  if PrimFloat.is_infinity f then None else Some f.

(** *** Reading decimal text *)

(** A run of digits, single underscores allowed between digits; returns the
    digits read and the rest. *)
Fixpoint read_digits (s : string) (after_digit : bool) : list ascii * string :=
  match s with
  | String c s' =>
      if is_digit c then
        let (ds, rest) := read_digits s' true in (c :: ds, rest)
      else if after_digit && Ascii.eqb c "_" then
        match s' with
        | String c' _ =>
            if is_digit c' then read_digits s' false else ([], s)
        | EmptyString => ([], s)
        end
      else ([], s)
  | EmptyString => ([], s)
  end.

Definition digits_value (ds : list ascii) : Z :=
  fold_left (fun acc c => 10 * acc + digit_val c) ds 0.

Definition read_sign (s : string) : bool * string :=
  match s with
  | String c s' =>
      if Ascii.eqb c "-" then (true, s')
      else if Ascii.eqb c "+" then (false, s')
      else (false, s)
  | EmptyString => (false, s)
  end.

(** The exponent part [[eE][+-]?digits], or nothing. *)
Definition read_exponent (s : string) : option (Z * string) :=
  match s with
  | String c s' =>
      if Ascii.eqb (lower_char c) "e" then
        let (neg, s1) := read_sign s' in
        match read_digits s1 false with
        | ([], _) => None
        | (ds, rest) =>
            Some ((if neg then - digits_value ds else digits_value ds), rest)
        end
      else Some (0, s)
  | EmptyString => Some (0, s)
  end.

Definition of_str (s : string) : option float :=
  let (neg, body) := read_sign (strip s) in
  let word := lower body in
  if String.eqb word "inf" || String.eqb word "infinity" then
    Some (if neg then neg_infinity else infinity)
  else if String.eqb word "nan" then Some nan
  else
    let (ipart, s1) := read_digits body false in
    let (fpart, s2) :=
      match s1 with
      | String c s1' =>
          if Ascii.eqb c "." then read_digits s1' false else ([], s1)
      | EmptyString => ([], s1)
      end in
    match (ipart ++ fpart)%list with
    | [] => None
    | ds =>
        match read_exponent s2 with
        | Some (e, EmptyString) =>
            let m := digits_value ds in
            let e10 := e - Z.of_nat (List.length fpart) in
            let magnitude := Z.of_nat (List.length ds) + e10 in
            if m =? 0 then Some (SF2Prim (S754_zero neg))
            else if 400 <? magnitude - Z.of_nat (List.length ds) + 1 + Z.log2 m / 3
            then Some (if neg then neg_infinity else infinity)
            else if magnitude <? -400 then Some (SF2Prim (S754_zero neg))
            else if 0 <=? e10 then Some (round_ratio neg (m * 10 ^ e10) 1)
            else Some (round_ratio neg m (10 ^ (- e10)))
        | _ => None
        end
    end.

(** *** Writing decimal text *)

(** [m * 2^e] as a fraction of positive integers. *)
Definition as_ratio (m : positive) (e : Z) : Z * Z :=
  if 0 <=? e then (Zpos m * 2 ^ e, 1) else (Zpos m, 2 ^ (- e)).

(** [floor (n / d / 10^k)] *)
Definition scaled_floor (n d k : Z) : Z :=
  if 0 <=? k then n / (d * 10 ^ k) else (n * 10 ^ (- k)) / d.

(** [floor (log10 (n / d))], from an estimate corrected by comparison. *)
Definition floor_log10 (n d : Z) : Z :=
  let est := (Z.log2 n - Z.log2 d) * 30103 / 100000 in
  let fix adjust (fuel : nat) (j : Z) : Z :=
    match fuel with
    | O => j
    | S fuel' =>
        if scaled_floor n d j =? 0 then adjust fuel' (j - 1)
        else if 10 <=? scaled_floor n d j then adjust fuel' (j + 1)
        else j
    end in
  adjust 8%nat est.

(** Is [c * 10^k] read back as the float [m * 2^e]?  In units of a quarter
    of the last place the float is [4m] and its rounding interval reaches
    from [4m - 2] (or [4m - 1] just above a power of two) to [4m + 2],
    ends included when [m] is even. *)
Definition reads_back (m : positive) (e : Z) (c k : Z) : bool :=
  let lo := if (Zpos m =? 2 ^ 52) && (-1074 <? e) then 4 * Zpos m - 1
            else 4 * Zpos m - 2 in
  let hi := 4 * Zpos m + 2 in
  let num := c * 10 ^ (Z.max k 0) * 2 ^ (Z.max (2 - e) 0) in
  let den := 10 ^ (Z.max (- k) 0) * 2 ^ (Z.max (e - 2) 0) in
  if Z.even (Zpos m) then (lo * den <=? num) && (num <=? hi * den)
  else (lo * den <? num) && (num <? hi * den).

(** The shortest decimal [c * 10^k] that reads back as [m * 2^e], the
    nearest one when two of that length do. *)
Definition shortest (m : positive) (e : Z) : Z * Z :=
  let (n, d) := as_ratio m e in
  let e10 := floor_log10 n d in
  let fix search (fuel : nat) (p : Z) : Z * Z :=
    let k := e10 - p + 1 in
    let c0 := scaled_floor n d k in
    let ok0 := reads_back m e c0 k in
    let ok1 := reads_back m e (c0 + 1) k in
    let upper_nearer :=
      (* 2 * (n/d) > (2 c0 + 1) * 10^k *)
      if 0 <=? k then (2 * c0 + 1) * 10 ^ k * d <? 2 * n
      else (2 * c0 + 1) * d <? 2 * n * 10 ^ (- k) in
    match fuel with
    | O => (c0, k)
    | S fuel' =>
        if ok0 && ok1 then (if upper_nearer then (c0 + 1, k) else (c0, k))
        else if ok0 then (c0, k)
        else if ok1 then (c0 + 1, k)
        else search fuel' (p + 1)
    end in
  search 17%nat 1.

Fixpoint strip_zeros (fuel : nat) (c k : Z) : Z * Z :=
  match fuel with
  | O => (c, k)
  | S fuel' => if c mod 10 =? 0 then strip_zeros fuel' (c / 10) (k + 1) else (c, k)
  end.

Fixpoint zeros (n : nat) : string :=
  match n with
  | O => ""
  | S n' => String "0" (zeros n')
  end.

Fixpoint str_drop (n : nat) (s : string) : string :=
  match n, s with
  | S n', String _ s' => str_drop n' s'
  | _, _ => s
  end.

(** [repr] of a finite non-zero magnitude from its digits [ds] and the
    position [decpt] of the decimal point after the first [decpt] digits. *)
Definition place_point (ds : string) (decpt : Z) : string :=
  let len := Z.of_nat (String.length ds) in
  if (16 <? decpt) || (decpt <? -3) then
    let x := decpt - 1 in
    let mant := match ds with
                | String c EmptyString => ds
                | String c rest => String c ("." ++ rest)%string
                | EmptyString => ds
                end in
    (mant ++ "e" ++ (if (x <? 0)%Z then "-" else "+")
       ++ zero_pad 2 (str_of_Z (Z.abs x)))%string
  else if decpt <=? 0 then ("0." ++ zeros (Z.to_nat (- decpt)) ++ ds)%string
  else if len <=? decpt then (ds ++ zeros (Z.to_nat (decpt - len)) ++ ".0")%string
  else (str_take (Z.to_nat decpt) ds ++ "." ++ str_drop (Z.to_nat decpt) ds)%string.

Definition sign_text (neg : bool) : string := if neg then "-" else "".

Definition repr (f : float) : string :=
  match Prim2SF f with
  | S754_nan => "nan"
  | S754_infinity s => (sign_text s ++ "inf")%string
  | S754_zero s => (sign_text s ++ "0.0")%string
  | S754_finite s m e =>
      let (c0, k0) := shortest m e in
      let (c, k) := strip_zeros 20%nat c0 k0 in
      let ds := str_of_Z c in
      (sign_text s ++ place_point ds (Z.of_nat (String.length ds) + k))%string
  end.

(** [format(f, '.2f')] *)
Definition fmt_2f (f : float) : string :=
  match Prim2SF f with
  | S754_nan => "nan"
  | S754_infinity s => (sign_text s ++ "inf")%string
  | S754_zero s => (sign_text s ++ "0.00")%string
  | S754_finite s m e =>
      let hundredths :=
        if 0 <=? e then Zpos m * 2 ^ e * 100
        else
          let d := 2 ^ (- e) in
          let (q, r) := Z.div_eucl (Zpos m * 100) d in
          match 2 * r ?= d with
          | Lt => q
          | Eq => if Z.even q then q else q + 1
          | Gt => q + 1
          end in
      (sign_text s ++ str_of_Z (hundredths / 100) ++ "."
         ++ zero_pad 2 (str_of_Z (hundredths mod 100)))%string
  end.

(** The conversions of floats, with the years of glibc, which writes a year
    below 1000 on as many digits as it has; no example sorts a NaN, and the
    exchanges for keys with a NaN are left empty. *)
Definition lib : float_lib := {|
  float_of_str := of_str;
  float_of_int := of_int;
  float_repr := repr;
  float_fmt_2f := fmt_2f;
  nan_swaps := fun _ => [];
  short_year := str_of_Z
|}.

End PyFloat.

(** ** Worlds for the examples *)

(** A response with status 200 and a JSON body. *)
Definition ok_response (body : pyval) : response :=
  {| status_code := 200; text := ""; json := Ok body |}.

(** A response with another status and a body that is plain text. *)
Definition failed_response (status : Z) (body : string) : response :=
  {| status_code := status; text := body;
     json := raise JSONDecodeError "Expecting value: line 1 column 1 (char 0)" |}.

(** The world that answers every request the same way. *)
Definition constant_world (answer : result response) (day : string) : world :=
  {| requests_get := fun _ => answer; today := day |}.

(** A rover photo as the provider sends it. *)
Definition sample_photo (n : Z) : pyval :=
  PDict [("id", PInt n); ("sol", PInt 1000);
         ("camera", PDict [("name", PStr "MAST"); ("full_name", PStr "Mast Camera")]);
         ("img_src", PStr ("http://mars.jpl.nasa.gov/msl-raw-images/" ++ str_of_Z n ++ ".jpg"));
         ("earth_date", PStr "2015-05-30")].

(** The provider answers with seven photos. *)
Definition seven_photos_world : world :=
  constant_world
    (Ok (ok_response (PDict [("photos", PList (map sample_photo [1; 2; 3; 4; 5; 6; 7]))])))
    "2015-05-30".

(** The provider answers with no photo. *)
Definition no_photos_world (day : string) : world :=
  constant_world (Ok (ok_response (PDict [("photos", PList [])]))) day.

(** The marker of [get_mars_photos] for a day without photos. *)
Definition no_photos_marker (rover date : string) : record :=
  [("message", PStr ("No photos available for " ++ rover ++ " on " ++ date))].

(** A near-Earth object as the feed sends it; the distances and velocities
    of the feed are decimal text. *)
Definition sample_neo (name day km : string) (hazardous : bool) : pyval :=
  PDict [("id", PStr "3542519"); ("name", PStr name);
         ("estimated_diameter",
          PDict [("kilometers",
                  PDict [("estimated_diameter_min", PFloat 0.1058168859%float);
                         ("estimated_diameter_max", PFloat 0.2366137501%float)])]);
         ("is_potentially_hazardous_asteroid", PBool hazardous);
         ("close_approach_data",
          PList [PDict [("close_approach_date", PStr day);
                        ("relative_velocity",
                         PDict [("kilometers_per_hour", PStr "48356.7209")]);
                        ("miss_distance",
                         PDict [("kilometers", PStr km)])]])].

(** A feed of six objects over three days. *)
Definition sample_feed : pyval :=
  PDict [("element_count", PInt 6);
         ("near_earth_objects",
          PDict [("2024-02-27",
                  PList [sample_neo "(2010 PK9)" "2024-02-27" "45290298.225725659" false;
                         sample_neo "(2024 DW)" "2024-02-27" "225130.411" false]);
                 ("2024-02-26",
                  PList [sample_neo "(2019 DA1)" "2024-02-26" "7162873.5" true]);
                 ("2024-03-01",
                  PList [sample_neo "(2021 EK1)" "2024-03-01" "19840511.07" false;
                         sample_neo "(2008 OS7)" "2024-03-01" "2850707.66" true;
                         sample_neo "(2016 CL264)" "2024-03-01" "7162873.5" false])])].

Definition sample_feed_world : world :=
  constant_world (Ok (ok_response sample_feed)) "2024-02-26".

(** The provider is down: every request is answered with status 503. *)
Definition unavailable_world : world :=
  constant_world (Ok (failed_response 503 "Service Unavailable")) "2024-02-26".

(** The network is down: every request raises. *)
Definition offline_world : world :=
  constant_world (raise RequestException "Connection refused") "2024-02-26".

(** Every request is answered with status 200 and a body that is not JSON. *)
Definition garbled_world : world :=
  constant_world (Ok (failed_response 200 "<html>")) "2024-02-26".

(** An EPIC image as the provider sends it. *)
Definition sample_image (n : string) : pyval :=
  PDict [("identifier", PStr ("202402250" ++ n));
         ("caption", PStr "This image was taken by NASA's EPIC camera onboard the NOAA DSCOVR spacecraft");
         ("image", PStr ("epic_1b_202402250" ++ n));
         ("date", PStr ("2024-02-25 0" ++ n ++ ":13:02"));
         ("centroid_coordinates", PDict [("lat", PFloat 6.5%float); ("lon", PFloat (-160.25)%float)])].

(** The EPIC provider: the list of available dates, and four images for
    any date. *)
Definition sample_epic_world : world :=
  {| requests_get := fun url =>
       if contains "/available" url
       then Ok (ok_response (PList [PStr "2024-02-25"; PStr "2024-02-24"]))
       else Ok (ok_response (PList (map sample_image ["1"; "3"; "5"; "7"])));
     today := "2024-02-26" |}.

Definition sample_tool : NasaApiTool := {| api_key := "DEMO_KEY" |}.

(** What [call] makes of the outcome of a fetcher: the record, or the
    error record of the [except] clause. *)
Definition caught (outcome : result record) : record :=
  match outcome with
  | Ok r => r
  | Raise e => [("error", PStr (exn_str e))]
  end.

(** ** Queries of the test suite ([TEST_CASES] of [test_suite.py]) *)

Definition test_case_2_query : string := "Show me NASA's picture from 2022-12-25".
Definition test_case_4_query : string :=
  "Show me pictures from Perseverance rover on Mars".
Definition test_case_7_query : string := "Show me images of Earth from space".
Definition test_case_9_query : string :=
  "Tell me about the Mars rover and show me today's astronomy picture".

(** ** Vocabulary of the properties *)

(** The shape of a photo descriptor of a rover record. *)
Definition is_photo_descriptor (v : pyval) : Prop :=
  exists id sol camera earth_date img_src,
    v = PDict [("id", id); ("sol", sol); ("camera", camera);
               ("earth_date", earth_date); ("img_src", img_src)].







(** The records the fetchers build in the sample worlds. *)
Definition seven_photos_record : record :=
  Eval vm_compute in
    match get_mars_photos PyFloat.lib seven_photos_world "curiosity" None with
    | Ok r => r
    | Raise _ => []
    end.

Definition sample_neo_record : record :=
  Eval vm_compute in
    match get_neo_objects PyFloat.lib sample_feed_world (Some "2024-02-26") 5 with
    | Ok r => r
    | Raise _ => []
    end.

Definition sample_epic_record : record :=
  Eval vm_compute in
    match get_epic_imagery PyFloat.lib sample_epic_world None with
    | Ok r => r
    | Raise _ => []
    end.

(** Does the text start with a character of white space? *)
Definition leading_space (s : string) : bool :=
  match s with
  | String a s1 =>
      is_space a
      || match s1 with
         | String b s2 =>
             is_space2 a b
             || match s2 with
                | String c _ => is_space3 a b c
                | EmptyString => false
                end
         | EmptyString => false
         end
  | EmptyString => false
  end.

(** The shape of an image descriptor of an EPIC record. *)
Definition is_epic_descriptor (v : pyval) : Prop :=
  exists id caption image_url date lat lon,
    v = PDict [("id", id); ("caption", caption); ("image_url", PStr image_url);
               ("date", date);
               ("centroid_coordinates", PDict [("lat", lat); ("lon", lon)])].

(** The date a token of the router's date pattern writes: the numbers of
    its three groups of digits. *)
Definition token_date (s : string) : pydate :=
  match s with
  | String y1 (String y2 (String y3 (String y4 (String _
      (String m1 (String m2 (String _ (String d1 (String d2 _))))))))) =>
      Date (1000 * digit_val y1 + 100 * digit_val y2 + 10 * digit_val y3
            + digit_val y4)
           (10 * digit_val m1 + digit_val m2)
           (10 * digit_val d1 + digit_val d2)
  | _ => Date 0 0 0
  end.

(** The number a string of decimal digits writes after the digits read so
    far wrote [acc]; [None] when a character is not a digit. *)
Fixpoint digits_value (acc : Z) (s : string) : option Z :=
  match s with
  | EmptyString => Some acc
  | String c s' =>
      if is_digit c then digits_value (10 * acc + digit_val c) s' else None
  end.

(** [s] writes [z] on exactly [width] digits. *)
Definition writes_number (width : nat) (z : Z) (s : string) : bool :=
  (String.length s =? width)%nat
  && match digits_value 0 s with
     | Some v => (v =? z)%Z
     | None => false
     end.

(** Does the router find a keyword in the query? *)
Definition routed (q : string) : bool :=
  match route q with Some _ => true | None => false end.

(** The lines that end the chat: [user_input.lower() in ["exit", "quit"]] *)
Definition is_exit_word (user_input : string) : bool :=
  str_among (lower user_input) ["exit"; "quit"].

(** A model that answers every conversation with the same text, and one
    that cannot be reached after the start. *)
Definition constant_model (answer : string) : mcp_chat.backend :=
  {| mcp_chat.ollama_list := Ok tt;
     mcp_chat.ollama_chat := fun _ =>
       Ok (PDict [("message", mcp_chat.message "assistant" answer)]) |}.

Definition failing_model : mcp_chat.backend :=
  {| mcp_chat.ollama_list := Ok tt;
     mcp_chat.ollama_chat := fun _ => raise RequestException "Connection refused" |}.





(** The rank of a branch of the router in the order the branches are
    tested: the picture of the day first, the EPIC camera last. *)
Definition branch_rank (r : route_decision) : nat :=
  match r with
  | RouteApod _ => 0
  | RouteMars _ _ => 1
  | RouteNeo _ => 2
  | RouteEpic _ => 3
  end.

(** The shape of a descriptor of a near-Earth-object record. *)
Definition is_neo_descriptor (v : pyval) : Prop :=
  exists name id dmin dmax hazardous approach miss velocity,
    v = PDict [("name", name); ("id", id); ("diameter_min_km", dmin);
               ("diameter_max_km", dmax);
               ("is_potentially_hazardous", hazardous);
               ("close_approach_date", approach);
               ("miss_distance_km", miss);
               ("relative_velocity_kph", velocity)].

(** The two diameters of a descriptor can be written with [:.2f]. *)
Definition diameters_format fl (obj : pyval) : Prop :=
  exists lo hi,
    (dmin <- item fl obj "diameter_min_km" ;; format_2f fl dmin) = Ok lo
    /\ (dmax <- item fl obj "diameter_max_km" ;; format_2f fl dmax) = Ok hi.

(** The name the test suite gives the API of a branch of the router. *)
Definition api_name (r : route_decision) : string :=
  match r with
  | RouteApod _ => "APOD"
  | RouteMars _ _ => "Mars"
  | RouteNeo _ => "NEO"
  | RouteEpic _ => "EPIC"
  end.

(** Does the router send the query of a test case to an API its
    [expected_api] names ([None]: to no API)? *)
Definition routed_as_expected (case : Z * string * string * option string) : bool :=
  let '(_, _, query, expected_api) := case in
  match route query, expected_api with
  | None, None => true
  | Some r, Some expected => contains (api_name r) expected
  | _, _ => false
  end.

Definition case_id (case : Z * string * string * option string) : Z :=
  let '(id, _, _, _) := case in id.

Definition case_query (case : Z * string * string * option string) : string :=
  let '(_, _, query, _) := case in query.


(** * Properties *)

(** ** Strings *)

Lemma prefix_app (a b : string) : prefix a (a ++ b) = true.
Proof.
  induction a as [|c a IH]; simpl.
  - now destruct b.
  - destruct (ascii_dec c c) as [_|n]; [exact IH | now elim n].
Qed.

Lemma prefix_split (a s : string) :
  prefix a s = true -> exists post, s = a ++ post.
Proof.
  revert s; induction a as [|c a IH]; intros s H.
  - now exists s.
  - destruct s as [|c' s]; simpl in H; [discriminate|].
    destruct (ascii_dec c c') as [->|]; [|discriminate].
    destruct (IH _ H) as [post ->]. now exists post.
Qed.

Lemma app_assoc_str (a b c : string) : (a ++ b) ++ c = a ++ (b ++ c).
Proof. induction a; simpl; congruence. Qed.

Lemma contains_cons (n : string) (c : ascii) (h : string) :
  contains n (String c h) = prefix n (String c h) || contains n h.
Proof. reflexivity. Qed.

(** [contains] decides the substring relation. *)
Lemma contains_spec (n h : string) :
  contains n h = true <-> exists pre post, h = pre ++ n ++ post.
Proof.
  split.
  - induction h as [|c h IH]; intros H.
    + destruct n; [now exists "", "" | discriminate].
    + rewrite contains_cons in H. apply orb_true_iff in H as [H|H].
      * apply prefix_split in H as [post ->]. now exists "", post.
      * destruct (IH H) as (pre & post & ->). now exists (String c pre), post.
  - intros (pre & post & ->). induction pre as [|c pre IH].
    + change ("" ++ n ++ post) with (n ++ post).
      destruct (n ++ post) eqn:E.
      * destruct n; [reflexivity | discriminate].
      * rewrite contains_cons, <- E, prefix_app. reflexivity.
    + change (String c pre ++ n ++ post) with (String c (pre ++ n ++ post)).
      rewrite contains_cons, IH. apply orb_true_r.
Qed.
















(** ** The router *)

Example route_test1 :
  route "What is today's astronomy picture of the day?" = Some (RouteApod None).
Proof. reflexivity. Qed.

Example route_test3 :
  route "What photos did Curiosity rover take recently?"
  = Some (RouteMars "curiosity" None).
Proof. reflexivity. Qed.

Example route_test10 : route "Tell me about black holes" = None.
Proof. reflexivity. Qed.

Lemma any_keyword_spec (keywords : list string) (query : string) :
  any_keyword keywords query = true
  <-> exists k, In k keywords /\ contains k query = true.
Proof. unfold any_keyword. apply existsb_exists. Qed.

Lemma any_keyword_none (keywords : list string) (query : string) :
  (forall k, In k keywords -> contains k query = false) ->
  any_keyword keywords query = false.
Proof.
  intros H. destruct (any_keyword keywords query) eqn:E; [|reflexivity].
  apply any_keyword_spec in E as (k & I & C). rewrite (H k I) in C. discriminate.
Qed.

(** C3 (evaluation of the code at the query of test case 2): no keyword set
    matches the lower-cased query "Show me NASA's picture from 2022-12-25",
    so the router takes no branch and [get_nasa_response] returns
    [(None, None)] in every world, although the date pattern does occur in
    the query.  The test suite lists APOD as the expected API. *)
Theorem C3_dated_picture_query_is_not_routed :
  any_keyword apod_keywords (lower test_case_2_query) = false
  /\ re_search_date (lower test_case_2_query) = Some "2022-12-25"
  /\ route test_case_2_query = None
  /\ (forall fl w, get_nasa_response fl w test_case_2_query = Ok None).
Proof. repeat split. Qed.

(** C4, counterexample: the query of test case 9 holds the rover keywords
    "mars" and "rover" and no near-Earth-object keyword, and is routed to
    the picture of the day, whose keywords are tested first. *)
Lemma C4_rover_query_routed_to_apod :
  contains "mars" (lower test_case_9_query) = true
  /\ contains "rover" (lower test_case_9_query) = true
  /\ any_keyword neo_keywords (lower test_case_9_query) = false
  /\ route test_case_9_query = Some (RouteApod None).
Proof. repeat split. Qed.

(** C4, amended: a query whose lower-cased text contains a rover-photos
    keyword and no picture-of-the-day keyword is routed to rover-photos
    (whatever near-Earth-object keywords it holds), with one of the four
    rover names and the date the pattern finds. *)
Theorem C4_rover_keyword_without_apod_keyword (q : string) :
  (exists k, In k mars_keywords /\ contains k (lower q) = true) ->
  (forall k, In k apod_keywords -> contains k (lower q) = false) ->
  exists rover,
    In rover ["curiosity"; "perseverance"; "opportunity"; "spirit"]
    /\ route q = Some (RouteMars rover (re_search_date (lower q))).
Proof.
  intros M A. unfold route.
  rewrite (any_keyword_none _ _ A).
  apply any_keyword_spec in M. rewrite M.
  destruct (contains "perseverance" (lower q));
    [|destruct (contains "opportunity" (lower q));
      [|destruct (contains "spirit" (lower q))]];
    eexists; (split; [|reflexivity]); simpl; auto.
Qed.

(** The query of test case 4 is such a query. *)
Lemma C4_rover_keyword_witness :
  exists rover,
    In rover ["curiosity"; "perseverance"; "opportunity"; "spirit"]
    /\ route test_case_4_query
       = Some (RouteMars rover (re_search_date (lower test_case_4_query))).
Proof.
  apply C4_rover_keyword_without_apod_keyword.
  - exists "rover". split; [simpl; auto | reflexivity].
  - intros k I. simpl in I.
    repeat (destruct I as [<-|I]; [reflexivity|]). destruct I.
Defined.





(** ** The error monad *)

Lemma bind_ok {A B} (m : result A) (k : A -> result B) (b : B) :
  bind m k = Ok b -> exists a, m = Ok a /\ k a = Ok b.
Proof. destruct m as [a|e]; [now exists a | discriminate]. Qed.

(** Splits a hypothesis [x <- m ;; k = Ok b] into [m = Ok x] and [k x = Ok b]. *)
Ltac bind_inv H :=
  let x := fresh "x" in
  let E := fresh "E" in
  apply bind_ok in H as (x & E & H).

Lemma mapM_length {A B} (f : A -> result B) (l : list A) (bs : list B) :
  mapM f l = Ok bs -> List.length bs = List.length l.
Proof.
  revert bs; induction l as [|a l IH]; intros bs H; simpl in H.
  - now inversion H.
  - bind_inv H. bind_inv H. inversion H; subst. simpl. f_equal. now apply IH.
Qed.

Lemma mapM_Forall2 {A B} (f : A -> result B) (l : list A) (bs : list B) :
  mapM f l = Ok bs -> Forall2 (fun a b => f a = Ok b) l bs.
Proof.
  revert bs; induction l as [|a l IH]; intros bs H; simpl in H.
  - inversion H. constructor.
  - bind_inv H. bind_inv H. inversion H; subst. constructor; auto.
Qed.

Lemma mapM_total {A B} (f : A -> result B) (l : list A) :
  Forall (fun a => exists b, f a = Ok b) l -> exists bs, mapM f l = Ok bs.
Proof.
  induction 1 as [|a l [b E] _ [bs IH]]; simpl.
  - now exists [].
  - rewrite E, IH. now exists (b :: bs).
Qed.

(** ** Characters *)

Lemma chars_cons (c : ascii) (s : string) :
  exists t rest, chars (String c s) = String c t :: rest.
Proof.
  simpl. destruct (chars s) as [|g rest]; [eauto|].
  destruct (starts_with_continuation g); eauto.
Qed.

Lemma str_slice_cons (n : nat) (c : ascii) (s : string) :
  exists t, str_slice (S n) (String c s) = String c t.
Proof.
  unfold str_slice. destruct (chars_cons c s) as (t & rest & ->).
  cbn [firstn]. destruct (firstn n rest); simpl; eauto.
Qed.

(** A [str] where a list of records is expected: the first thing a
    comprehension over a slice of it meets is a [str] of one character. *)
Lemma str_is_no_list {B} (f : pyval -> result B) (s : string) (k : Z)
  (x : pyval) (elements : list pyval) (out : list B) :
  (forall g, exists e, f (PStr g) = Raise e) ->
  truthy (PStr s) = true -> 0 < k ->
  slice_to (PStr s) k = Ok x -> iter x = Ok elements ->
  mapM f elements = Ok out -> False.
Proof.
  intros F T K Sl I M. destruct s as [|c s]; [discriminate|].
  unfold slice_to in Sl.
  assert (L : slice_len (str_len (String c s)) k = S (Nat.pred (Z.to_nat k)))
    by (unfold slice_len; destruct (Z.ltb_spec k 0); lia).
  rewrite L in Sl. destruct (str_slice_cons (Nat.pred (Z.to_nat k)) c s) as [t E].
  rewrite E in Sl. inversion Sl; subst x; clear Sl.
  unfold iter in I. destruct (chars_cons c t) as (t' & rest & C).
  rewrite C in I. inversion I; subst elements; clear I.
  cbn [map mapM] in M. destruct (F (String c t')) as [e R].
  rewrite R in M. discriminate.
Qed.

(** ** Rover photos *)

Lemma photo_descriptor_shape fl (photo v : pyval) :
  photo_descriptor fl photo = Ok v -> is_photo_descriptor v.
Proof.
  unfold photo_descriptor. intros H. do 6 bind_inv H. inversion H.
  unfold is_photo_descriptor. eauto 10.
Qed.

(** What [mars_record] returns when it returns more than the marker. *)
Lemma mars_record_photos fl (data rover date : pyval) (rec : record) :
  mars_record fl data rover date = Ok rec ->
  dict_has "message" rec = false ->
  exists provided photos,
    item fl data "photos" = Ok (PList provided)
    /\ mapM (photo_descriptor fl) (firstn 5 provided) = Ok photos
    /\ provided <> []
    /\ rec = [("rover", rover); ("date", date);
              ("photo_count", PInt (Z.of_nat (List.length photos)));
              ("photos", PList photos)].
Proof.
  unfold mars_record. intros H M. bind_inv H.
  destruct (truthy x) eqn:T; cbn [negb] in H.
  2:{ inversion H; subst. discriminate. }
  do 5 bind_inv H. inversion H; subst; clear H.
  destruct data as [| | | | |l|d]; try discriminate.
  cbn in E. inversion E; subst; clear E.
  cbn in E0. destruct (dict_get "photos" d) as [v|] eqn:G; [|discriminate].
  inversion E0; subst; clear E0.
  destruct x0 as [| | | |s|provided|]; try discriminate.
  - (* a str of photos: its characters are no photos *)
    exfalso.
    apply (str_is_no_list (photo_descriptor fl) s 5 x1 x3 x4);
      try assumption; [|lia].
    intros g. eexists. reflexivity.
  - cbn in E1. inversion E1; subst; clear E1.
    cbn in E2, E3. inversion E2; inversion E3; subst; clear E2 E3.
    exists provided, x4. repeat split.
    + cbn. now rewrite G.
    + exact E4.
    + intros ->. discriminate.
    + apply mapM_length in E4. rewrite E4. reflexivity.
Qed.

Lemma Forall_enumerate {A} (P : A -> Prop) (l : list A) :
  Forall P l -> Forall (fun ia : Z * A => P (snd ia)) (enumerate l).
Proof.
  unfold enumerate. intros H. generalize (map Z.of_nat (seq 0 (List.length l))).
  induction H as [|a l Pa _ IH]; intros [|i idx]; simpl; constructor; auto.
Qed.

Lemma Forall_firstn {A} (P : A -> Prop) (n : nat) (l : list A) :
  Forall P l -> Forall P (firstn n l).
Proof.
  intros H; revert n; induction H; intros [|n]; simpl; constructor; auto.
Qed.

(** The formatter accepts every rover-photos record the fetcher builds, and
    its text opens with the photo count of the record. *)
Lemma format_mars_headline fl (q : string) (rover date : pyval) (n : Z)
  (photos : list pyval) :
  Forall is_photo_descriptor photos ->
  exists rest,
    format_nasa_response fl q
      [("rover", rover); ("date", date); ("photo_count", PInt n);
       ("photos", PList photos)] "mars"
    = Ok ("I found " ++ str_of_Z n ++ " recent photos" ++ rest).
Proof.
  intros D. unfold format_nasa_response. cbn -[mapM enumerate firstn str_of_Z].
  match goal with
  | |- context [mapM ?f ?l] => destruct (mapM_total f l) as [lines ->]
  end.
  - eapply Forall_impl; [|apply Forall_enumerate, Forall_firstn, D].
    intros [i v] (id & sol & camera & earth_date & img_src & E).
    cbn in E; subst v. cbn -[str_of_Z]. eexists; reflexivity.
  - cbn -[str_of_Z]. eexists. reflexivity.
Qed.

(** C2 (evaluation of the code where the provider has no photo): the
    fetcher returns its marker, and [format_nasa_response] answers the marker
    at its first test on "message", with the text "NASA API message: ...";
    the rover branch that would write "NASA Mars Rover Data: ..." is never
    reached.  The formatter of [mcp_chat.py], which has no such first test,
    writes the rover text.  [process_query] therefore answers a rover query
    on a day without photos with the "NASA API message" text. *)
Theorem C2_no_photos_marker_formatted_as_api_message
  fl (q rover date day : string) :
  get_mars_photos fl (no_photos_world day) rover (Some date)
  = Ok (no_photos_marker rover date)
  /\ format_nasa_response fl q (no_photos_marker rover date) "mars"
     = Ok ("NASA API message: No photos available for " ++ rover ++ " on " ++ date)
  /\ mcp_chat.get_model_response_with_nasa_data fl q (no_photos_marker rover date) "mars"
     = Ok ("NASA Mars Rover Data: No photos available for " ++ rover ++ " on " ++ date)
  /\ process_query fl (no_photos_world day)
       "What photos did Curiosity rover take recently?"
     = Ok (Some ("NASA API message: No photos available for curiosity on " ++ day,
                 "NASA MARS API", no_photos_marker "curiosity" day)).
Proof. repeat split. Qed.

Lemma length_firstn_min {A} (n : nat) (l : list A) :
  List.length (firstn n l) = Nat.min n (List.length l).
Proof. apply List.length_firstn. Qed.

(** C10: whenever the rover-photos fetcher returns a record with photos (no
    error and no marker), [photo_count] is the length of the [photos] list
    of the record, which holds the descriptors of the first five photos the
    provider sent: the count is the smaller of 5 and the number of photos
    provided, and the formatted text opens with "I found <that count>
    recent photos". *)
Theorem C10_photo_count_is_capped_length
  fl (w : world) (rover : string) (date : option string) (rec : record) :
  get_mars_photos fl w rover date = Ok rec ->
  dict_has "error" rec = false ->
  dict_has "message" rec = false ->
  exists provided photos,
    (exists url resp data,
        requests_get w url = Ok resp /\ json resp = Ok data
        /\ item fl data "photos" = Ok (PList provided))
    /\ mapM (photo_descriptor fl) (firstn 5 provided) = Ok photos
    /\ dict_get "photos" rec = Some (PList photos)
    /\ dict_get "photo_count" rec = Some (PInt (Z.of_nat (List.length photos)))
    /\ List.length photos = Nat.min 5 (List.length provided)
    /\ (1 <= List.length photos <= 5)%nat
    /\ forall q, exists rest,
         format_nasa_response fl q rec "mars"
         = Ok ("I found " ++ str_of_Z (Z.of_nat (Nat.min 5 (List.length provided)))
               ++ " recent photos" ++ rest).
Proof.
  unfold get_mars_photos. intros H NE NM. bind_inv H.
  destruct (negb (status_code x =? 200)%Z).
  { inversion H; subst. discriminate. }
  bind_inv H.
  destruct (mars_record_photos _ _ _ _ _ H NM) as (provided & photos & P & D & N & ->).
  assert (List.length photos = Nat.min 5 (List.length provided)) as L
    by (rewrite (mapM_length _ _ _ D); apply length_firstn_min).
  exists provided, photos.
  split; [eauto 10|]. split; [exact D|]. split; [reflexivity|].
  split; [reflexivity|]. split; [exact L|]. split.
  - destruct provided as [|p provided]; [congruence|].
    rewrite L. cbn [List.length]. lia.
  - intros q. rewrite <- L. apply format_mars_headline.
    apply mapM_Forall2 in D. clear - D.
    induction D; constructor; eauto using photo_descriptor_shape.
Qed.

(** The provider sends seven photos: the record counts five. *)
Lemma C10_seven_photos_witness :
  exists provided photos,
    (exists url resp data,
        requests_get seven_photos_world url = Ok resp /\ json resp = Ok data
        /\ item PyFloat.lib data "photos" = Ok (PList provided))
    /\ mapM (photo_descriptor PyFloat.lib) (firstn 5 provided) = Ok photos
    /\ dict_get "photos" seven_photos_record = Some (PList photos)
    /\ dict_get "photo_count" seven_photos_record
       = Some (PInt (Z.of_nat (List.length photos)))
    /\ List.length photos = Nat.min 5 (List.length provided)
    /\ (1 <= List.length photos <= 5)%nat
    /\ forall q, exists rest,
         format_nasa_response PyFloat.lib q seven_photos_record "mars"
         = Ok ("I found " ++ str_of_Z (Z.of_nat (Nat.min 5 (List.length provided)))
               ++ " recent photos" ++ rest).
Proof.
  exact (C10_photo_count_is_capped_length PyFloat.lib seven_photos_world
           "curiosity" None seven_photos_record eq_refl eq_refl eq_refl).
Defined.

Example seven_photos_headline :
  exists rest,
    format_nasa_response PyFloat.lib "" seven_photos_record "mars"
    = Ok ("I found 5 recent photos from the curiosity Mars rover, dated 2015-05-30."
          ++ rest).
Proof. eexists. vm_compute. reflexivity. Qed.

(** ** Records *)

Lemma dict_get_set_same (k : string) (v : pyval) (d : record) :
  dict_get k (dict_set k v d) = Some v.
Proof.
  induction d as [|[k' x] d IH]; simpl.
  - now rewrite String.eqb_refl.
  - destruct (String.eqb k k') eqn:E; simpl; rewrite E; [reflexivity | exact IH].
Qed.

Lemma dict_get_set_other (k k' : string) (v : pyval) (d : record) :
  k <> k' -> dict_get k' (dict_set k v d) = dict_get k' d.
Proof.
  intros N. induction d as [|[k0 x] d IH]; simpl.
  - destruct (String.eqb_spec k' k); [congruence | reflexivity].
  - destruct (String.eqb_spec k k0) as [->|]; simpl.
    + destruct (String.eqb_spec k' k0); [congruence | reflexivity].
    + now rewrite IH.
Qed.

Lemma dict_has_set_other (k k' : string) (v : pyval) (d : record) :
  k <> k' -> dict_has k' (dict_set k v d) = dict_has k' d.
Proof. intros N. unfold dict_has. now rewrite dict_get_set_other. Qed.

Lemma item_set_other fl (k k' : string) (v : pyval) (d : record) :
  k <> k' -> item fl (PDict (dict_set k v d)) k' = item fl (PDict d) k'.
Proof. intros N. unfold item, getitem. now rewrite dict_get_set_other. Qed.

Lemma item_set_same fl (k : string) (v : pyval) (d : record) :
  item fl (PDict (dict_set k v d)) k = Ok v.
Proof. unfold item, getitem. now rewrite dict_get_set_same. Qed.

Lemma item_of_get fl (k : string) (v : pyval) (d : record) :
  dict_get k d = Some v -> item fl (PDict d) k = Ok v.
Proof. intros G. unfold item, getitem. now rewrite G. Qed.

Lemma slice_to_firstn (n : nat) (l : list pyval) :
  slice_to (PList (firstn n l)) (Z.of_nat n) = slice_to (PList l) (Z.of_nat n).
Proof.
  unfold slice_to, slice_len.
  destruct (Z.ltb_spec (Z.of_nat n) 0); [lia|].
  rewrite Nat2Z.id, firstn_firstn, Nat.min_id. reflexivity.
Qed.

(** Rewrites the accesses to a record updated at one key into accesses to
    the record itself. *)
Ltac forget_update :=
  repeat first
    [ rewrite item_set_same
    | rewrite dict_has_set_other by discriminate
    | rewrite item_set_other by discriminate ].

(** The formatter reads the list of a record through its first three items
    only. *)
Lemma format_reads_three_items fl (q : string) (rec : record)
  (data_type key : string) (items : list pyval) :
  In (data_type, key)
     [("mars", "photos"); ("neo", "near_earth_objects"); ("epic", "images")] ->
  dict_get key rec = Some (PList items) ->
  format_nasa_response fl q (dict_set key (PList (firstn 3 items)) rec) data_type
  = format_nasa_response fl q rec data_type.
Proof.
  intros I G. simpl in I.
  destruct I as [I|[I|[I|[]]]]; inversion I; subst; clear I;
    unfold format_nasa_response; cbn [String.eqb Ascii.eqb Bool.eqb];
    forget_update; rewrite (item_of_get fl _ _ _ G); cbn [bind];
    change 3%Z with (Z.of_nat 3); rewrite slice_to_firstn; reflexivity.
Qed.

(** ** The order of floats *)











(** ** The sort *)

Lemma insert_by_key_perm {A} (x : float * A) (l : list (float * A)) :
  Permutation (insert_by_key x l) (x :: l).
Proof.
  induction l as [|y l IH]; simpl.
  - reflexivity.
  - destruct (PrimFloat.ltb (fst y) (fst x)).
    + rewrite IH. apply perm_swap.
    + reflexivity.
Qed.

Lemma sort_by_key_perm {A} (l : list (float * A)) : Permutation (sort_by_key l) l.
Proof.
  induction l as [|x l IH]; simpl.
  - reflexivity.
  - rewrite insert_by_key_perm. now constructor.
Qed.



Lemma swap_at_perm {A} (i : nat) (l : list A) : Permutation (swap_at i l) l.
Proof.
  revert l; induction i as [|i IH]; intros [|a [|b l]]; simpl;
    try reflexivity.
  - apply perm_swap.
  - apply perm_skip, IH.
  - apply perm_skip, IH.
Qed.

Lemma apply_swaps_perm {A} (swaps : list nat) (l : list A) :
  Permutation (apply_swaps swaps l) l.
Proof.
  unfold apply_swaps. revert l; induction swaps as [|i swaps IH]; intros l; simpl.
  - reflexivity.
  - rewrite IH. apply swap_at_perm.
Qed.

(** Whatever the keys, the sort rearranges the list. *)
Lemma list_sort_perm fl {A} (l : list (float * A)) : Permutation (list_sort fl l) l.
Proof.
  unfold list_sort. destruct (forallb _ l).
  - apply sort_by_key_perm.
  - apply apply_swaps_perm.
Qed.



(** ** The calendar *)

Lemma is_leap_parts (n400 n100 n4 n1 : Z) :
  0 <= n100 <= 3 -> 0 <= n4 <= 24 -> 0 <= n1 <= 3 ->
  is_leap (n400 * 400 + 1 + n100 * 100 + n4 * 4 + n1)
  = ((n1 =? 3) && (negb (n4 =? 24) || (n100 =? 3)))%Z.
Proof.
  intros H100 H4 H1. unfold is_leap.
  set (y := n400 * 400 + 1 + n100 * 100 + n4 * 4 + n1).
  assert (y mod 4 = 0 <-> n1 = 3) as A4
    by (subst y; Z.to_euclidean_division_equations; lia).
  assert (y mod 100 = 0 <-> (n4 = 24 /\ n1 = 3)) as A100
    by (subst y; Z.to_euclidean_division_equations; lia).
  assert (y mod 400 = 0 <-> (n100 = 3 /\ n4 = 24 /\ n1 = 3)) as A400
    by (subst y; Z.to_euclidean_division_equations; lia).
  destruct (Z.eqb_spec (y mod 4) 0), (Z.eqb_spec (y mod 100) 0),
    (Z.eqb_spec (y mod 400) 0), (Z.eqb_spec n1 3), (Z.eqb_spec n4 24),
    (Z.eqb_spec n100 3); cbn; try reflexivity; exfalso; intuition lia.
Qed.

Lemma days_before_year_parts (n400 n100 n4 n1 : Z) :
  0 <= n100 <= 3 -> 0 <= n4 <= 24 -> 0 <= n1 <= 3 ->
  days_before_year (n400 * 400 + 1 + n100 * 100 + n4 * 4 + n1)
  = n400 * 146097 + n100 * 36524 + n4 * 1461 + n1 * 365.
Proof.
  intros H100 H4 H1. unfold days_before_year. cbv zeta.
  Z.to_euclidean_division_equations. lia.
Qed.

Lemma ymd2ord_parts (n400 n100 n4 n1 m d : Z) :
  0 <= n100 <= 3 -> 0 <= n4 <= 24 -> 0 <= n1 <= 3 ->
  ymd2ord (Date (n400 * 400 + 1 + n100 * 100 + n4 * 4 + n1) m d)
  = n400 * 146097 + n100 * 36524 + n4 * 1461 + n1 * 365
    + DAYS_BEFORE_MONTH m
    + (if ((2 <? m) && ((n1 =? 3) && (negb (n4 =? 24) || (n100 =? 3))))%Z then 1 else 0)
    + d.
Proof.
  intros H100 H4 H1. unfold ymd2ord, days_before_month. cbn [year month day].
  rewrite days_before_year_parts, is_leap_parts by assumption. lia.
Qed.

Lemma valid_date_parts (n400 n100 n4 n1 m d : Z) :
  0 <= n400 -> 0 <= n100 <= 3 -> 0 <= n4 <= 24 -> 0 <= n1 <= 3 ->
  n400 * 400 + 1 + n100 * 100 + n4 * 4 + n1 <= 9999 ->
  1 <= m <= 12 -> 1 <= d ->
  d <= (if ((m =? 2) && ((n1 =? 3) && (negb (n4 =? 24) || (n100 =? 3))))%Z
        then 29 else DAYS_IN_MONTH m) ->
  valid_date (Date (n400 * 400 + 1 + n100 * 100 + n4 * 4 + n1) m d) = true.
Proof.
  intros H400 H100 H4 H1 Hy Hm Hd Hd'. unfold valid_date, days_in_month.
  cbn [year month day]. rewrite is_leap_parts by assumption.
  repeat (apply andb_true_intro; split); apply Z.leb_le; (assumption || lia).
Qed.

(** The conversion from ordinals inverts [ymd2ord] and yields valid dates. *)
Lemma ord2ymd_spec (n : Z) :
  1 <= n <= MAXORDINAL ->
  valid_date (ord2ymd n) = true /\ ymd2ord (ord2ymd n) = n.
Proof.
  unfold MAXORDINAL. intros Hn. unfold ord2ymd. cbv zeta.
  rewrite Z.shiftr_div_pow2 by lia. change (2 ^ 5) with 32.
  set (n0 := n - 1).
  set (n400 := n0 / 146097). set (r400 := n0 mod 146097).
  set (n100 := r400 / 36524). set (r100 := r400 mod 36524).
  set (n4 := r100 / 1461). set (r4 := r100 mod 1461).
  set (n1 := r4 / 365). set (r1 := r4 mod 365).
  set (m := (r1 + 50) / 32).
  assert (n0 = 146097 * n400 + r400 /\ 0 <= r400 < 146097) as [A1 A2]
    by (subst n400 r400; Z.to_euclidean_division_equations; lia).
  assert (r400 = 36524 * n100 + r100 /\ 0 <= r100 < 36524) as [B1 B2]
    by (subst n100 r100; Z.to_euclidean_division_equations; lia).
  assert (r100 = 1461 * n4 + r4 /\ 0 <= r4 < 1461) as [C1 C2]
    by (subst n4 r4; Z.to_euclidean_division_equations; lia).
  assert (r4 = 365 * n1 + r1 /\ 0 <= r1 < 365) as [D1 D2]
    by (subst n1 r1; Z.to_euclidean_division_equations; lia).
  assert (32 * m <= r1 + 50 < 32 * m + 32) as Hm
    by (subst m; Z.to_euclidean_division_equations; lia).
  clearbody n400 r400 n100 r100 n4 r4 n1 r1 m. subst n0.
  assert (n = 146097 * n400 + 36524 * n100 + 1461 * n4 + 365 * n1 + r1 + 1
          /\ 0 <= n400 <= 24 /\ 0 <= n100 <= 4 /\ 0 <= n4 <= 24 /\ 0 <= n1 <= 4
          /\ 0 <= r1 <= 364 /\ 0 <= r4 <= 1460 /\ 0 <= r100 <= 36523
          /\ r4 = 365 * n1 + r1 /\ r100 = 1461 * n4 + r4
          /\ (n100 = 4 -> r100 = 0)) as F by (repeat split; lia).
  clear A1 A2 B1 B2 C1 C2 D1 D2. clear r400.
  destruct F as (En & H400 & H100 & H4 & H1 & Hr1 & Hr4 & Hr100 & Er4 & Er100 & E100).
  destruct (Z.eqb_spec n1 4) as [E1|N1]; cbn [orb].
  { (* the last day of a leap year *)
    assert (n100 <= 3 /\ n4 <= 23 /\ r1 = 0) as (? & ? & ?) by lia.
    replace (n400 * 400 + 1 + n100 * 100 + n4 * 4 + n1 - 1)
      with (n400 * 400 + 1 + n100 * 100 + n4 * 4 + 3) by lia.
    split.
    - apply valid_date_parts; try lia. cbn. lia.
    - rewrite ymd2ord_parts by lia.
      destruct (Z.eqb_spec n4 24); [lia|]. cbn. lia. }
  destruct (Z.eqb_spec n100 4) as [E4|N4].
  { (* the last day of a 400-year cycle *)
    assert (n4 = 0 /\ n1 = 0 /\ r1 = 0) as (? & ? & ?) by lia.
    replace (n400 * 400 + 1 + n100 * 100 + n4 * 4 + n1 - 1)
      with (n400 * 400 + 1 + 3 * 100 + 24 * 4 + 3) by lia.
    split.
    - apply valid_date_parts; try lia. cbn. lia.
    - rewrite ymd2ord_parts by lia. cbn. lia. }
  assert (0 <= n1 <= 3 /\ 0 <= n100 <= 3) as (H1' & H100') by lia.
  set (leap := ((n1 =? 3) && (negb (n4 =? 24) || (n100 =? 3)))%Z).
  assert (n400 = 24 -> n100 * 36524 + n4 * 1461 + n1 * 365 + r1 <= 145730) as Top by lia.
  assert (m = 1 \/ m = 2 \/ m = 3 \/ m = 4 \/ m = 5 \/ m = 6 \/ m = 7 \/ m = 8
          \/ m = 9 \/ m = 10 \/ m = 11 \/ m = 12) as M by lia.
  repeat (destruct M as [M|M]); subst m; cbn [DAYS_BEFORE_MONTH Z.ltb Z.compare Pos.compare Pos.compare_cont andb Z.sub Z.add Z.opp Z.pos_sub Pos.pred_double Pos.succ Z.succ_double Z.pred_double Z.double DAYS_IN_MONTH Z.eqb Pos.eqb];
    destruct leap eqn:L;
    repeat match goal with
           | |- context [(?a <? ?b)%Z] => destruct (Z.ltb_spec a b)
           end;
    (split;
     [ apply valid_date_parts; try assumption; try lia; fold leap; rewrite L; cbn; lia
     | rewrite ymd2ord_parts by assumption; fold leap; rewrite L; cbn; lia ]).
Qed.

Lemma digit_val_range (c : ascii) : is_digit c = true -> 0 <= digit_val c <= 9.
Proof.
  unfold is_digit, digit_val. intros H. apply andb_true_iff in H as [H1 H2].
  apply Nat.leb_le in H1, H2. lia.
Qed.








(** ** Near-Earth objects *)

(** A descriptor carries the miss distance its object was sorted by. *)
Lemma neo_descriptor_km fl (neo d : pyval) :
  neo_descriptor fl neo = Ok d -> descriptor_km fl d = miss_distance_key fl neo.
Proof.
  unfold neo_descriptor. intros H. do 20 bind_inv H.
  inversion H; subst; clear H.
  repeat match goal with
         | E : ?m = Ok ?a, E' : ?m = Ok ?b |- _ =>
             tryif constr_eq a b then fail
             else (rewrite E in E'; inversion E'; subst; clear E')
         end.
  unfold descriptor_km, miss_distance_key.
  cbn [item getitem dict_get String.eqb Ascii.eqb Bool.eqb bind].
  repeat match goal with
         | E : ?m = Ok _ |- context [?m] => rewrite E; cbn [bind]
         end.
  reflexivity.
Qed.

Lemma with_key_spec fl (x : pyval) (kx : float * pyval) :
  with_key fl x = Ok kx -> snd kx = x /\ miss_distance_key fl x = Ok (fst kx).
Proof.
  unfold with_key. intros H. bind_inv H. inversion H; subst. auto.
Qed.

Lemma mapM_with_key fl (l : list pyval) (keyed : list (float * pyval)) :
  mapM (with_key fl) l = Ok keyed ->
  map snd keyed = l
  /\ Forall (fun kx => miss_distance_key fl (snd kx) = Ok (fst kx)) keyed.
Proof.
  intros H. apply mapM_Forall2 in H.
  induction H as [|x kx l keyed K _ [IH1 IH2]]; cbn.
  - split; constructor.
  - apply with_key_spec in K as [K1 K2]. split.
    + now rewrite K1, IH1.
    + constructor; [now rewrite K1 | exact IH2].
Qed.

(** What [neo_record] returns, for an [int] count. *)
Lemma neo_record_spec fl (data : pyval) (start_date end_date : string)
  (count : Z) (rec : record) :
  neo_record fl data start_date end_date (PInt count) = Ok rec ->
  exists days all_neo keyed total_count descriptors,
    item fl data "near_earth_objects" = Ok days
    /\ flatten_days fl days = Ok all_neo
    /\ mapM (with_key fl) all_neo = Ok keyed
    /\ mapM (neo_descriptor fl)
         (firstn (slice_len (List.length all_neo) count) (map snd (list_sort fl keyed)))
       = Ok descriptors
    /\ rec = [("total_count", total_count);
              ("period", PStr (start_date ++ " to " ++ end_date));
              ("near_earth_objects", PList descriptors)].
Proof.
  unfold neo_record. intros H. do 3 bind_inv H.
  unfold sort_neo in E1. bind_inv E1. inversion E1; subst; clear E1.
  do 4 bind_inv H. inversion H; subst; clear H.
  cbn in E1. inversion E1; subst; clear E1.
  cbn in E4. inversion E4; subst; clear E4.
  exists x, x0, x2, x3, x5. repeat split; auto.
  rewrite <- E5. do 2 f_equal.
  rewrite length_map.
  rewrite (Permutation_length (list_sort_perm fl x2)).
  apply mapM_length in E2. now rewrite E2.
Qed.







(** ** The caps on the lists *)

Lemma mars_photos_capped fl (w : world) (rover : string) (date : option string)
  (rec : record) (photos : list pyval) :
  get_mars_photos fl w rover date = Ok rec ->
  dict_get "photos" rec = Some (PList photos) ->
  (List.length photos <= 5)%nat.
Proof.
  unfold get_mars_photos. intros H G. bind_inv H.
  destruct (negb (status_code x =? 200)%Z).
  { inversion H; subst. discriminate. }
  bind_inv H.
  destruct (dict_has "message" rec) eqn:M.
  - unfold mars_record in H. bind_inv H.
    destruct (negb (truthy x1)).
    + inversion H; subst. discriminate.
    + do 5 bind_inv H. inversion H; subst. discriminate.
  - destruct (mars_record_photos _ _ _ _ _ H M) as (provided & ps & _ & D & _ & ->).
    cbn in G. inversion G; subst.
    rewrite (mapM_length _ _ _ D), length_firstn_min. lia.
Qed.

Lemma neo_objects_capped fl (w : world) (date : option string) (count : Z)
  (rec : record) (objects : list pyval) :
  0 <= count ->
  get_neo_objects fl w date count = Ok rec ->
  dict_get "near_earth_objects" rec = Some (PList objects) ->
  (List.length objects <= Z.to_nat count)%nat.
Proof.
  unfold get_neo_objects. intros C H G. bind_inv H. bind_inv H.
  destruct (negb (status_code x0 =? 200)%Z).
  { inversion H; subst. discriminate. }
  bind_inv H.
  destruct (neo_record_spec _ _ _ _ _ _ H)
    as (days & all_neo & keyed & total & descriptors & _ & _ & _ & D & ->).
  cbn in G. inversion G; subst.
  rewrite (mapM_length _ _ _ D), length_firstn_min.
  unfold slice_len. destruct (Z.ltb_spec count 0); lia.
Qed.

(** C6, counterexample: asked for six objects, the near-Earth-object fetcher
    returns a record of six, one more than the 5 of the claim; so does the
    tool of [nasa_tool.py] called with a "count" of 6. *)
Lemma C6_count_six_returns_six :
  exists rec objects rec' objects',
    get_neo_objects PyFloat.lib sample_feed_world (Some "2024-02-26") 6 = Ok rec
    /\ dict_get "near_earth_objects" rec = Some (PList objects)
    /\ List.length objects = 6%nat
    /\ call PyFloat.lib (NasaApiTool_init None None) sample_feed_world
         [("endpoint", PStr "neo"); ("date", PStr "2024-02-26"); ("count", PInt 6)]
       = Ok rec'
    /\ dict_get "near_earth_objects" rec' = Some (PList objects')
    /\ List.length objects' = 6%nat
    /\ (5 <? List.length objects)%nat = true
    /\ (5 <? List.length objects')%nat = true.
Proof. vm_compute. eexists _, _, _, _. repeat split. Qed.

(** C6, amended: the [photos] list of every record of the rover-photos
    fetcher holds at most 5 items; the [near_earth_objects] list of a record
    of the near-Earth-object fetcher holds at most [count] items for the
    count it was asked for, when that is not negative, which is at most 5
    for the default count and in every call the router makes; and the
    formatter reads the list of a rover, near-Earth-object or Earth-imagery
    record through its first 3 items only: cutting the list down to them
    leaves the formatted text, or the exception, unchanged. *)
Theorem C6_five_items_kept_three_rendered fl :
  (forall w rover date rec photos,
      get_mars_photos fl w rover date = Ok rec ->
      dict_get "photos" rec = Some (PList photos) ->
      (List.length photos <= 5)%nat)
  /\ (forall w date count rec objects,
        0 <= count ->
        get_neo_objects fl w date count = Ok rec ->
        dict_get "near_earth_objects" rec = Some (PList objects) ->
        (List.length objects <= Z.to_nat count)%nat)
  /\ (forall w date rec objects,
        get_neo_objects fl w date 5 = Ok rec ->
        dict_get "near_earth_objects" rec = Some (PList objects) ->
        (List.length objects <= 5)%nat)
  /\ (forall w query data_type rec key items,
        get_nasa_response fl w query = Ok (Some (data_type, rec)) ->
        In (data_type, key) [("mars", "photos"); ("neo", "near_earth_objects")] ->
        dict_get key rec = Some (PList items) ->
        (List.length items <= 5)%nat)
  /\ (forall query rec data_type key items,
        In (data_type, key)
           [("mars", "photos"); ("neo", "near_earth_objects"); ("epic", "images")] ->
        dict_get key rec = Some (PList items) ->
        format_nasa_response fl query (dict_set key (PList (firstn 3 items)) rec)
          data_type
        = format_nasa_response fl query rec data_type).
Proof.
  split; [|split; [|split; [|split]]].
  - apply mars_photos_capped.
  - apply neo_objects_capped.
  - intros w date rec objects H G.
    apply (neo_objects_capped fl w date 5 rec objects); [lia | exact H | exact G].
  - intros w query data_type rec key items H I G.
    unfold get_nasa_response in H.
    destruct (route query) as [[d|r d|d|d]|]; try discriminate;
      bind_inv H; inversion H; subst; clear H;
      cbn in I; destruct I as [I|[I|[]]]; inversion I; subst.
    + eapply mars_photos_capped; eauto.
    + apply (neo_objects_capped fl w d 5 rec items); [lia | exact E | exact G].
  - intros. now apply format_reads_three_items.
Qed.

(** Seven photos provided, six objects in the feed: five of each are kept
    by default, four objects when four are asked for, and the text of the
    rover record reads the first three photos only. *)
Lemma C6_seven_photos_witness :
  (exists photos,
      dict_get "photos" seven_photos_record = Some (PList photos)
      /\ (List.length photos <= 5)%nat
      /\ format_nasa_response PyFloat.lib ""
           (dict_set "photos" (PList (firstn 3 photos)) seven_photos_record) "mars"
         = format_nasa_response PyFloat.lib "" seven_photos_record "mars")
  /\ (exists objects,
        dict_get "near_earth_objects" sample_neo_record = Some (PList objects)
        /\ (List.length objects <= 5)%nat)
  /\ (exists rec objects,
        get_neo_objects PyFloat.lib sample_feed_world (Some "2024-02-26") 4 = Ok rec
        /\ dict_get "near_earth_objects" rec = Some (PList objects)
        /\ (List.length objects <= 4)%nat).
Proof.
  destruct (C6_five_items_kept_three_rendered PyFloat.lib) as (M & C & N & _ & F).
  split; [|split].
  - eexists. split; [reflexivity|]. split.
    + apply (M seven_photos_world "curiosity" None seven_photos_record);
        reflexivity.
    + apply F; [left; reflexivity | reflexivity].
  - eexists. split; [reflexivity|].
    apply (N sample_feed_world (Some "2024-02-26") sample_neo_record);
      [vm_compute|]; reflexivity.
  - destruct (get_neo_objects PyFloat.lib sample_feed_world (Some "2024-02-26") 4)
      as [rec|e] eqn:E; [|vm_compute in E; discriminate].
    destruct (dict_get "near_earth_objects" rec) as [[| | | | |objects|]|] eqn:G;
      try (vm_compute in E; inversion E; subst rec; vm_compute in G; discriminate).
    exists rec, objects. split; [reflexivity|]. split; [exact G|].
    apply (C sample_feed_world (Some "2024-02-26") 4 rec objects);
      [lia | exact E | exact G].
Defined.

(** ** The two formatters *)

(** C8, counterexample: on the error record of a failed near-Earth-object
    fetch the formatter of the tool module answers with its error line,
    while the formatter of the chat entry point looks for the object list
    and raises [KeyError]; on an Earth-imagery record the first writes the
    EPIC text and the second the empty string. *)
Lemma C8_formatters_differ_on_error_record :
  format_nasa_response PyFloat.lib ""
    (api_error (failed_response 503 "Service Unavailable")) "neo"
  = Ok "Sorry, I encountered an error when trying to fetch NASA data: API error: 503"
  /\ mcp_chat.get_model_response_with_nasa_data PyFloat.lib ""
       (api_error (failed_response 503 "Service Unavailable")) "neo"
     = Raise (Exn KeyError "'near_earth_objects'")
  /\ (exists rest,
        format_nasa_response PyFloat.lib "" sample_epic_record "epic"
        = Ok ("I found 4 Earth images from NASA's EPIC camera for 2024-02-25."
              ++ rest))
  /\ mcp_chat.get_model_response_with_nasa_data PyFloat.lib "" sample_epic_record
       "epic"
     = Ok "".
Proof.
  split; [reflexivity|]. split; [reflexivity|]. split; [|reflexivity].
  eexists. vm_compute. reflexivity.
Qed.

(** C8, amended: on every record that carries neither an "error" nor a
    "message" field, and for every data type other than "epic", the
    formatter of the tool module and the formatter of the chat entry point
    return the same text or raise the same exception; a record with an
    "error" field is answered by the formatter of the tool module with its
    one-line error text. *)
Theorem C8_formatters_agree_off_markers_and_epic
  fl (query : string) (rec : record) (data_type : string) :
  (dict_has "error" rec = false ->
   dict_has "message" rec = false ->
   String.eqb data_type "epic" = false ->
   format_nasa_response fl query rec data_type
   = mcp_chat.get_model_response_with_nasa_data fl query rec data_type)
  /\ (forall e, dict_get "error" rec = Some e ->
        format_nasa_response fl query rec data_type
        = Ok ("Sorry, I encountered an error when trying to fetch NASA data: "
              ++ py_str fl e)).
Proof.
  split.
  - intros E M D.
    unfold format_nasa_response, mcp_chat.get_model_response_with_nasa_data.
    rewrite E, M, D.
    destruct (String.eqb data_type "apod"); [reflexivity|].
    destruct (String.eqb data_type "mars"); [reflexivity|].
    destruct (String.eqb data_type "neo"); reflexivity.
  - intros e G. unfold format_nasa_response, dict_has.
    rewrite G, (item_of_get fl _ _ _ G). reflexivity.
Qed.

(** The two formatters agree on the sample records. *)
Lemma C8_sample_records_witness :
  format_nasa_response PyFloat.lib "" sample_neo_record "neo"
  = mcp_chat.get_model_response_with_nasa_data PyFloat.lib "" sample_neo_record "neo"
  /\ format_nasa_response PyFloat.lib "" seven_photos_record "mars"
     = mcp_chat.get_model_response_with_nasa_data PyFloat.lib "" seven_photos_record
         "mars".
Proof.
  split.
  - apply (C8_formatters_agree_off_markers_and_epic PyFloat.lib "" sample_neo_record
             "neo"); reflexivity.
  - apply (C8_formatters_agree_off_markers_and_epic PyFloat.lib ""
             seven_photos_record "mars"); reflexivity.
Defined.

(** ** Earth imagery *)

(** C1, counterexample: the query of test case 7 is routed to
    [get_epic_imagery]; when the provider answers with status 503 the
    record it returns carries an "error" field, and a transport failure or
    a body that is not JSON leaves [get_nasa_response] as an exception. *)
Lemma C1_routed_earth_fetcher_reports_errors :
  route test_case_7_query = Some (RouteEpic None)
  /\ get_nasa_response PyFloat.lib unavailable_world test_case_7_query
     = Ok (Some ("epic", [("error", PStr "API error: 503");
                          ("message", PStr "Service Unavailable")]))
  /\ get_nasa_response PyFloat.lib offline_world test_case_7_query
     = Raise (Exn RequestException "Connection refused")
  /\ get_nasa_response PyFloat.lib garbled_world test_case_7_query
     = Raise (Exn JSONDecodeError "Expecting value: line 1 column 1 (char 0)").
Proof. repeat split. Qed.

Lemma normalized_is_str (endpoint : pyval) (name : string) :
  _normalize_endpoint endpoint = Ok name -> exists s, endpoint = PStr s.
Proof. destruct endpoint; try discriminate. eauto. Qed.

(** C1, amended: the Earth-imagery fetcher of the tool class,
    [NasaApiTool._get_earth_imagery], which [NasaApiTool.call] runs for the
    endpoint "earth" (the keyword router runs [get_epic_imagery] instead),
    requests one URL whose coordinates are the fixed pair 40.71, -74.00 and
    whose only variable parts are the date and the key; for every date, a
    transport failure, a body that is not JSON and a body that is no JSON
    object all give the soft "message" record; no outcome is an exception
    or a record with an "error" field. *)
Theorem C1_tool_earth_imagery_degrades_softly
  fl (self : NasaApiTool) (w : world) (date : pyval) :
  earth_url fl self date
  = "https://api.nasa.gov/planetary/earth/imagery?lon="
      ++ float_repr fl (-74.00)%float ++ "&lat=" ++ float_repr fl 40.71%float
      ++ "&date=" ++ py_str fl date ++ "&api_key=" ++ api_key self
  /\ (forall e,
        requests_get w (earth_url fl self date) = Raise e ->
        _get_earth_imagery fl self w date = Ok earth_no_coverage)
  /\ (forall resp e,
        requests_get w (earth_url fl self date) = Ok resp ->
        json resp = Raise e ->
        _get_earth_imagery fl self w date = Ok earth_no_coverage)
  /\ (forall resp data,
        requests_get w (earth_url fl self date) = Ok resp ->
        json resp = Ok data ->
        _get_earth_imagery fl self w date
        = Ok match data with
             | PDict body =>
                 [("date", date); ("location", PStr "New York City");
                  ("coordinates",
                   PDict [("lat", PFloat 40.71%float); ("lon", PFloat (-74.00)%float)]);
                  ("image_url",
                   params_get "url" (PStr "No image available for this date/location")
                     body)]
             | _ => earth_no_coverage
             end)
  /\ (exists rec,
        _get_earth_imagery fl self w date = Ok rec /\ dict_has "error" rec = false)
  /\ (forall params,
        _normalize_endpoint (params_get "endpoint" (PStr "") params) = Ok "earth" ->
        params_get "date" (PStr (today w)) params = date ->
        call fl self w params = _get_earth_imagery fl self w date).
Proof.
  assert (exists rec,
             _get_earth_imagery fl self w date = Ok rec
             /\ dict_has "error" rec = false) as Soft.
  { unfold _get_earth_imagery. cbv zeta.
    destruct (requests_get w (earth_url fl self date)) as [resp|e]; cbn;
      [|eexists; split; reflexivity].
    destruct (json resp) as [[| | | | | |body]|e]; cbn;
      eexists; split; reflexivity. }
  split; [reflexivity|].
  split; [intros e R; unfold _get_earth_imagery; cbv zeta; now rewrite R|].
  split; [intros resp e R J; unfold _get_earth_imagery; cbv zeta;
          now rewrite R; cbn; rewrite J|].
  split; [intros resp data R J; unfold _get_earth_imagery; cbv zeta;
          rewrite R; cbn; rewrite J; now destruct data|].
  split; [exact Soft|].
  intros params N D. unfold call. rewrite N, D. cbn [bind String.eqb Ascii.eqb Bool.eqb].
  destruct Soft as (rec & -> & _). reflexivity.
Qed.

(** The URL the tool requests, and its soft answer when the network is
    down, the body is garbled or the provider is unavailable. *)
Lemma C1_tool_earth_imagery_witness :
  earth_url PyFloat.lib sample_tool (PStr "2024-02-26")
  = "https://api.nasa.gov/planetary/earth/imagery?lon=-74.0&lat=40.71&date=2024-02-26&api_key=DEMO_KEY"
  /\ _get_earth_imagery PyFloat.lib sample_tool offline_world (PStr "2024-02-26")
     = Ok earth_no_coverage
  /\ _get_earth_imagery PyFloat.lib sample_tool garbled_world (PStr "2024-02-26")
     = Ok earth_no_coverage
  /\ call PyFloat.lib sample_tool unavailable_world
       [("endpoint", PStr "Earth Imagery "); ("date", PStr "2024-02-26")]
     = Ok earth_no_coverage.
Proof.
  destruct (C1_tool_earth_imagery_degrades_softly PyFloat.lib sample_tool
              offline_world (PStr "2024-02-26")) as (_ & T & _).
  destruct (C1_tool_earth_imagery_degrades_softly PyFloat.lib sample_tool
              garbled_world (PStr "2024-02-26")) as (_ & _ & P & _).
  destruct (C1_tool_earth_imagery_degrades_softly PyFloat.lib sample_tool
              unavailable_world (PStr "2024-02-26")) as (_ & _ & P' & _ & _ & C).
  split; [vm_compute; reflexivity|].
  split; [eapply T; reflexivity|].
  split; [eapply P; reflexivity|].
  rewrite (C [("endpoint", PStr "Earth Imagery "); ("date", PStr "2024-02-26")]
             eq_refl eq_refl).
  eapply P'; reflexivity.
Defined.

(** ** The tool entry point *)

(** C9, counterexample: an endpoint that is no [str] has no method
    [lower]; the call that normalizes it stands before the [try], so the
    [AttributeError] leaves [call]. *)
Lemma C9_call_raises_on_non_str_endpoint :
  call PyFloat.lib sample_tool offline_world [("endpoint", PInt 5)]
  = Raise (Exn AttributeError "'int' object has no attribute 'lower'").
Proof. reflexivity. Qed.

Lemma normalize_str_ok (s : string) :
  exists endpoint, _normalize_endpoint (PStr s) = Ok endpoint.
Proof.
  unfold _normalize_endpoint.
  repeat match goal with
         | |- context [if ?b then _ else _] => destruct b
         end; eauto.
Qed.

(** C9, amended: for every params dictionary whose "endpoint" entry is
    absent or a [str], as the tool's schema declares it,
    [NasaApiTool.call] returns a dictionary and never raises: the record
    of the fetcher of the normalized endpoint, or {"error": str(e)} for the
    exception [e] the fetcher raised, or, for a name outside "apod",
    "mars_photos", "neo" and "earth", the record {"error": "Invalid
    endpoint specified: <name>"}. *)
Theorem C9_call_returns_a_record_for_str_endpoints
  fl (self : NasaApiTool) (w : world) (params : record) (s : string) :
  params_get "endpoint" (PStr "") params = PStr s ->
  exists endpoint rec,
    _normalize_endpoint (PStr s) = Ok endpoint
    /\ call fl self w params = Ok rec
    /\ let date := params_get "date" (PStr (today w)) params in
       (endpoint = "apod" -> rec = caught (_get_astronomy_picture fl self w date))
       /\ (endpoint = "mars_photos" ->
           rec = caught (_get_mars_photos fl self w
                           (params_get "rover" (PStr "curiosity") params) date
                           (params_get "camera" PNone params)))
       /\ (endpoint = "neo" ->
           rec = caught (_get_near_earth_objects fl self w date
                           (params_get "count" (PInt 5) params)))
       /\ (endpoint = "earth" -> rec = caught (_get_earth_imagery fl self w date))
       /\ (str_among endpoint ["apod"; "mars_photos"; "neo"; "earth"] = false ->
           rec = [("error", PStr ("Invalid endpoint specified: " ++ endpoint))]).
Proof.
  intros E. unfold call. rewrite E.
  destruct (normalize_str_ok s) as [endpoint N]. rewrite N.
  cbn [bind]. cbv zeta.
  set (date := params_get "date" (PStr (today w)) params).
  unfold str_among. cbn [existsb].
  destruct (String.eqb_spec endpoint "apod") as [->|NA].
  { destruct (_get_astronomy_picture fl self w date) as [r|e] eqn:F;
      eexists _, _; (split; [reflexivity|]); (split; [reflexivity|]);
      repeat split; intros; cbn in *; solve [discriminate | congruence | reflexivity]. }
  destruct (String.eqb_spec endpoint "mars_photos") as [->|NM].
  { destruct (_get_mars_photos fl self w _ date _) as [r|e] eqn:F;
      eexists _, _; (split; [reflexivity|]); (split; [reflexivity|]);
      repeat split; intros; cbn in *; solve [discriminate | congruence | reflexivity]. }
  destruct (String.eqb_spec endpoint "neo") as [->|NN].
  { destruct (_get_near_earth_objects fl self w date _) as [r|e] eqn:F;
      eexists _, _; (split; [reflexivity|]); (split; [reflexivity|]);
      repeat split; intros; cbn in *; solve [discriminate | congruence | reflexivity]. }
  destruct (String.eqb_spec endpoint "earth") as [->|NE].
  { destruct (_get_earth_imagery fl self w date) as [r|e] eqn:F;
      eexists _, _; (split; [reflexivity|]); (split; [reflexivity|]);
      repeat split; intros; cbn in *; solve [discriminate | congruence | reflexivity]. }
  eexists _, _. split; [reflexivity|]. split; [reflexivity|].
  repeat split; intros; solve [congruence | reflexivity].
Qed.

(** An exception of a fetcher, an unknown endpoint, a missing endpoint and
    a transport failure all come back as error records. *)
Lemma C9_call_witness :
  call PyFloat.lib sample_tool offline_world
    [("endpoint", PStr " Near-Earth-Objects "); ("date", PStr "next week")]
  = Ok [("error", PStr "time data 'next week' does not match format '%Y-%m-%d'")]
  /\ call PyFloat.lib sample_tool offline_world [("endpoint", PStr "moon")]
     = Ok [("error", PStr "Invalid endpoint specified: moon")]
  /\ call PyFloat.lib sample_tool offline_world [("date", PStr "2024-02-26")]
     = Ok [("error", PStr "Invalid endpoint specified: ")]
  /\ call PyFloat.lib sample_tool offline_world [("endpoint", PStr "APOD")]
     = Ok [("error", PStr "Connection refused")].
Proof.
  split; [|split; [|split]].
  - destruct (C9_call_returns_a_record_for_str_endpoints PyFloat.lib sample_tool
                offline_world
                [("endpoint", PStr " Near-Earth-Objects "); ("date", PStr "next week")]
                " Near-Earth-Objects " eq_refl)
      as (endpoint & rec & N & -> & _ & _ & R & _).
    vm_compute in N. inversion N; subst endpoint. now rewrite (R eq_refl).
  - destruct (C9_call_returns_a_record_for_str_endpoints PyFloat.lib sample_tool
                offline_world [("endpoint", PStr "moon")] "moon" eq_refl)
      as (endpoint & rec & N & -> & _ & _ & _ & _ & R).
    vm_compute in N. inversion N; subst endpoint. now rewrite (R eq_refl).
  - destruct (C9_call_returns_a_record_for_str_endpoints PyFloat.lib sample_tool
                offline_world [("date", PStr "2024-02-26")] "" eq_refl)
      as (endpoint & rec & N & -> & _ & _ & _ & _ & R).
    vm_compute in N. inversion N; subst endpoint. now rewrite (R eq_refl).
  - destruct (C9_call_returns_a_record_for_str_endpoints PyFloat.lib sample_tool
                offline_world [("endpoint", PStr "APOD")] "APOD" eq_refl)
      as (endpoint & rec & N & -> & R & _).
    vm_compute in N. inversion N; subst endpoint. now rewrite (R eq_refl).
Defined.

(** * Further properties of the code *)

(** ** Endpoint names *)

Lemma lower_char_idem (c : ascii) : lower_char (lower_char c) = lower_char c.
Proof. destruct c as [[] [] [] [] [] [] [] []]; reflexivity. Qed.

Lemma is_space_lower (c : ascii) : is_space (lower_char c) = is_space c.
Proof. destruct c as [[] [] [] [] [] [] [] []]; reflexivity. Qed.

(** [lower] leaves the bytes from 128 on as they are, and keeps the other
    bytes below 128. *)
Lemma lower_char_high (c : ascii) : is_ascii_char c = false -> lower_char c = c.
Proof. destruct c as [[] [] [] [] [] [] [] []]; intros H; first [reflexivity | discriminate H]. Qed.

Lemma lower_char_low (c : ascii) :
  is_ascii_char c = true -> is_ascii_char (lower_char c) = true.
Proof. destruct c as [[] [] [] [] [] [] [] []]; intros H; first [reflexivity | discriminate H]. Qed.

Lemma byte_in_lower (lo hi : nat) (c : ascii) :
  (128 <= lo)%nat -> byte_in lo hi (lower_char c) = byte_in lo hi c.
Proof.
  intros L. destruct (is_ascii_char c) eqn:A.
  - pose proof (lower_char_low c A) as A'.
    unfold is_ascii_char in A, A'. apply Nat.ltb_lt in A, A'.
    unfold byte_in. cbv zeta.
    replace (lo <=? nat_of_ascii (lower_char c))%nat with false
      by (symmetry; apply Nat.leb_gt; lia).
    replace (lo <=? nat_of_ascii c)%nat with false
      by (symmetry; apply Nat.leb_gt; lia).
    reflexivity.
  - now rewrite lower_char_high.
Qed.

Lemma is_space2_lower (a b : ascii) :
  is_space2 (lower_char a) (lower_char b) = is_space2 a b.
Proof. unfold is_space2. now rewrite !byte_in_lower by lia. Qed.

Lemma is_space3_lower (a b c : ascii) :
  is_space3 (lower_char a) (lower_char b) (lower_char c) = is_space3 a b c.
Proof. unfold is_space3. now rewrite !byte_in_lower by lia. Qed.

Lemma is_space_char_lower (g : string) : is_space_char (lower g) = is_space_char g.
Proof.
  destruct g as [|a [|b [|c [|d g]]]]; simpl;
    auto using is_space_lower, is_space2_lower, is_space3_lower.
Qed.

Lemma lower_idem (s : string) : lower (lower s) = lower s.
Proof. induction s; simpl; [reflexivity | now rewrite lower_char_idem, IHs]. Qed.

(** [lstrip] calls itself on the text without its first character, of one,
    two or three bytes. *)
Lemma lstrip_ind (P : string -> Prop) :
  P "" ->
  (forall a s, P s -> (forall b s', s = String b s' -> P s'
                        /\ forall c s'', s' = String c s'' -> P s'') ->
               P (String a s)) ->
  forall s, P s.
Proof.
  intros P0 PS s.
  assert (H : P s /\ (forall b s', s = String b s' -> P s'
                       /\ forall c s'', s' = String c s'' -> P s'')).
  { induction s as [|a s [IH1 IH2]].
    - split; [exact P0 | discriminate].
    - split; [now apply PS|].
      intros b s' E. inversion E; subst. split; [exact IH1|].
      intros c s'' ->. exact (proj1 (IH2 _ _ eq_refl)). }
  exact (proj1 H).
Qed.

Lemma lstrip_lower (s : string) : lstrip (lower s) = lower (lstrip s).
Proof.
  induction s as [|a s IH1 IH] using lstrip_ind; [reflexivity|].
  cbn [lower lstrip]. rewrite is_space_lower.
  destruct (is_space a); [exact IH1|].
  destruct s as [|b s]; [reflexivity|].
  destruct (IH b s eq_refl) as [IH2 IH'].
  cbn [lower]. rewrite is_space2_lower.
  destruct (is_space2 a b); [exact IH2|].
  destruct s as [|c s]; [reflexivity|].
  cbn [lower]. rewrite is_space3_lower.
  destruct (is_space3 a b c); [exact (IH' c s eq_refl) | reflexivity].
Qed.

Lemma rstrip_lower (s : string) : rstrip (lower s) = lower (rstrip s).
Proof.
  induction s as [|c s IH]; [reflexivity|].
  cbn [lower rstrip]. cbv zeta. rewrite IH.
  change (String (lower_char c) (lower (rstrip s)))
    with (lower (String c (rstrip s))).
  rewrite is_space_char_lower.
  now destruct (is_space_char (String c (rstrip s))).
Qed.

Lemma strip_lower (s : string) : strip (lower s) = lower (strip s).
Proof. unfold strip. now rewrite lstrip_lower, rstrip_lower. Qed.

Lemma lstrip_no_leading_space (s : string) : leading_space (lstrip s) = false.
Proof.
  induction s as [|a s IH1 IH] using lstrip_ind; [reflexivity|].
  cbn [lstrip]. destruct (is_space a) eqn:A; [exact IH1|].
  destruct s as [|b s]; [simpl; now rewrite A|].
  destruct (IH b s eq_refl) as [IH2 IH'].
  destruct (is_space2 a b) eqn:B; [exact IH2|].
  destruct s as [|c s]; [simpl; now rewrite A, B|].
  destruct (is_space3 a b c) eqn:C; [exact (IH' c s eq_refl)|].
  simpl. now rewrite A, B, C.
Qed.

Lemma lstrip_fixed (s : string) : leading_space s = false -> lstrip s = s.
Proof.
  destruct s as [|a [|b [|c s]]]; simpl; try reflexivity.
  - intros H. apply orb_false_iff in H as [-> _]. reflexivity.
  - intros H. apply orb_false_iff in H as [-> H].
    apply orb_false_iff in H as [-> _]. reflexivity.
  - intros H. apply orb_false_iff in H as [-> H].
    apply orb_false_iff in H as [-> ->]. reflexivity.
Qed.

(** What [rstrip] keeps is a text that ends in no white space: it is no
    character of white space itself. *)
Lemma rstrip_cases (c : ascii) (s : string) :
  (rstrip (String c s) = "" /\ is_space_char (String c (rstrip s)) = true)
  \/ (rstrip (String c s) = String c (rstrip s)
      /\ is_space_char (String c (rstrip s)) = false).
Proof. cbn [rstrip]. cbv zeta. destruct (is_space_char _); auto. Qed.

Lemma rstrip_no_leading_space (s : string) :
  leading_space s = false -> leading_space (rstrip s) = false.
Proof.
  destruct s as [|a s]; [reflexivity|]. intros L.
  destruct (rstrip_cases a s) as [[-> _]|[-> N]]; [reflexivity|].
  destruct s as [|b s].
  { exact L. }
  destruct (rstrip_cases b s) as [[-> _]|[-> N2]].
  { simpl in L |- *. apply orb_false_iff in L as [-> _]. reflexivity. }
  destruct s as [|c s].
  { exact L. }
  destruct (rstrip_cases c s) as [[-> _]|[-> N3]].
  { simpl in L |- *. apply orb_false_iff in L as [-> L].
    apply orb_false_iff in L as [-> _]. reflexivity. }
  exact L.
Qed.

Lemma rstrip_idem (s : string) : rstrip (rstrip s) = rstrip s.
Proof.
  induction s as [|c s IH]; [reflexivity|].
  destruct (rstrip_cases c s) as [[-> _]|[-> N]]; [reflexivity|].
  cbn [rstrip]. cbv zeta. now rewrite IH, N.
Qed.

Lemma strip_idem (s : string) : strip (strip s) = strip s.
Proof.
  unfold strip.
  rewrite (lstrip_fixed (rstrip (lstrip s)))
    by apply rstrip_no_leading_space, lstrip_no_leading_space.
  apply rstrip_idem.
Qed.

(** A no-break space (U+00A0) after the name is white space too. *)
Example normalize_no_break_space :
  _normalize_endpoint
    (PStr ("APOD" ++ String (ascii_of_nat 194) (String (ascii_of_nat 160) "")))
  = Ok "apod".
Proof. reflexivity. Qed.

(** X1.  [NasaApiTool._normalize_endpoint] reads its argument up to case
    and surrounding whitespace, and its result is a fixed point: a name that
    was normalized once is returned unchanged when normalized again. *)
Theorem X1_normalize_endpoint_canonical (s : string) :
  _normalize_endpoint (PStr (lower s)) = _normalize_endpoint (PStr s)
  /\ _normalize_endpoint (PStr (strip s)) = _normalize_endpoint (PStr s)
  /\ exists e, _normalize_endpoint (PStr s) = Ok e
               /\ _normalize_endpoint (PStr e) = Ok e.
Proof.
  split; [|split].
  - unfold _normalize_endpoint. now rewrite lower_idem.
  - unfold _normalize_endpoint.
    now rewrite <- strip_lower, strip_idem, strip_lower.
  - unfold _normalize_endpoint.
    assert (F : strip (lower (strip (lower s))) = strip (lower s))
      by now rewrite (strip_lower s), lower_idem, <- (strip_lower s), strip_idem.
    set (e := strip (lower s)) in *.
    repeat match goal with
           | |- context [str_among e ?l] =>
               let E := fresh "E" in destruct (str_among e l) eqn:E
           end;
      try (eexists; split; [reflexivity | reflexivity]).
    exists e. split; [reflexivity|]. now rewrite F, E, E0, E1, E2.
Qed.
(** ** Records of the fetchers are never empty *)

Lemma apod_record_nonempty (data : pyval) (rec : record) :
  apod_record data = Ok rec -> rec <> [].
Proof. unfold apod_record. intros H. do 6 bind_inv H. now inversion H. Qed.

Lemma mars_record_nonempty fl (data rover date : pyval) (rec : record) :
  mars_record fl data rover date = Ok rec -> rec <> [].
Proof.
  unfold mars_record. intros H. bind_inv H.
  destruct (negb (truthy x)); [now inversion H|].
  do 5 bind_inv H. now inversion H.
Qed.

Lemma neo_record_nonempty fl (data : pyval) (s e : string) (count : pyval)
  (rec : record) :
  neo_record fl data s e count = Ok rec -> rec <> [].
Proof. unfold neo_record. intros H. do 7 bind_inv H. now inversion H. Qed.

Lemma get_astronomy_picture_nonempty (w : world) (date : option string)
  (rec : record) :
  get_astronomy_picture w date = Ok rec -> rec <> [].
Proof.
  unfold get_astronomy_picture. intros H. bind_inv H.
  destruct (negb (status_code x =? 200)%Z); [now inversion H|].
  bind_inv H. eapply apod_record_nonempty, H.
Qed.

Lemma get_mars_photos_nonempty fl (w : world) (rover : string)
  (date : option string) (rec : record) :
  get_mars_photos fl w rover date = Ok rec -> rec <> [].
Proof.
  unfold get_mars_photos. intros H. bind_inv H.
  destruct (negb (status_code x =? 200)%Z); [now inversion H|].
  bind_inv H. eapply mars_record_nonempty, H.
Qed.

Lemma get_neo_objects_nonempty fl (w : world) (date : option string) (count : Z)
  (rec : record) :
  get_neo_objects fl w date count = Ok rec -> rec <> [].
Proof.
  unfold get_neo_objects. intros H. do 2 bind_inv H.
  destruct (negb (status_code x0 =? 200)%Z); [now inversion H|].
  bind_inv H. eapply neo_record_nonempty, H.
Qed.

Lemma get_epic_imagery_nonempty fl (w : world) (date : option string)
  (rec : record) :
  get_epic_imagery fl w date = Ok rec -> rec <> [].
Proof.
  unfold get_epic_imagery. intros H. bind_inv H.
  destruct (negb (status_code x =? 200)%Z); [now inversion H|].
  do 3 bind_inv H.
  destruct (negb (status_code x2 =? 200)%Z); [now inversion H|].
  bind_inv H.
  destruct (negb (truthy x3)); [now inversion H|].
  do 5 bind_inv H. now inversion H.
Qed.

(** The data type and the record of a routed query. *)
Lemma get_nasa_response_routed fl (w : world) (q : string) (data_type : string)
  (rec : record) :
  get_nasa_response fl w q = Ok (Some (data_type, rec)) ->
  rec <> [] /\ In data_type ["apod"; "mars"; "neo"; "epic"].
Proof.
  unfold get_nasa_response. intros H.
  destruct (route q) as [[d|r d|d|d]|]; [| | | |discriminate];
    bind_inv H; inversion H; subst; clear H; (split; [|simpl; tauto]).
  - eapply get_astronomy_picture_nonempty, E.
  - eapply get_mars_photos_nonempty, E.
  - eapply get_neo_objects_nonempty, E.
  - eapply get_epic_imagery_nonempty, E.
Qed.

Lemma get_nasa_response_unrouted fl (w : world) (q : string) :
  get_nasa_response fl w q = Ok None <-> route q = None.
Proof.
  unfold get_nasa_response. split.
  - destruct (route q) as [[d|r d|d|d]|]; [| | | |reflexivity];
      intros H; bind_inv H; discriminate.
  - now intros ->.
Qed.

(** X2.  [process_query] returns [None] exactly for the queries in which the
    router finds no keyword: the record of a routed query is never empty, so
    the test [if data_type and nasa_data] never fails for it; and the source
    label of a response is one of four texts. *)
Theorem X2_process_query_none_iff_unrouted fl (w : world) (q : string) :
  (process_query fl w q = Ok None <-> route q = None)
  /\ forall response source data,
       process_query fl w q = Ok (Some (response, source, data)) ->
       data <> []
       /\ In source ["NASA APOD API"; "NASA MARS API"; "NASA NEO API";
                     "NASA EPIC API"].
Proof.
  unfold process_query.
  destruct (get_nasa_response fl w q) as [[[t rec]|]|e] eqn:G; cbn [bind].
  - destruct (get_nasa_response_routed _ _ _ _ _ G) as [N I].
    assert (T : negb (String.eqb t "") && truthy (PDict rec) = true).
    { destruct rec; [congruence|].
      simpl in I. destruct I as [<-|[<-|[<-|[<-|[]]]]]; reflexivity. }
    rewrite T. split.
    + split.
      * intros H. bind_inv H. discriminate.
      * intros R. apply (get_nasa_response_unrouted fl w) in R. congruence.
    + intros response source data H. bind_inv H. inversion H; subst; clear H.
      split; [exact N|].
      simpl in I. destruct I as [<-|[<-|[<-|[<-|[]]]]]; simpl; tauto.
  - split.
    + split; [|reflexivity]. intros _. now apply (get_nasa_response_unrouted fl w).
    + discriminate.
  - split.
    + split; [discriminate|].
      intros R. apply (get_nasa_response_unrouted fl w) in R. congruence.
    + discriminate.
Qed.

(** ** The formatter on the records of the fetchers *)

Lemma epic_descriptor_shape fl (formatted_date : string) (img v : pyval) :
  epic_descriptor fl formatted_date img = Ok v -> is_epic_descriptor v.
Proof.
  unfold epic_descriptor. intros H. do 8 bind_inv H. inversion H.
  unfold is_epic_descriptor. eauto 10.
Qed.

Lemma mapM_Forall {A B} (f : A -> result B) (P : B -> Prop) (l : list A)
  (bs : list B) :
  (forall a b, f a = Ok b -> P b) -> mapM f l = Ok bs -> Forall P bs.
Proof.
  intros F H. apply mapM_Forall2 in H.
  induction H; constructor; eauto.
Qed.

(** What [get_epic_imagery] returns when it returns neither an error record
    nor its marker. *)
Lemma epic_record_images fl (w : world) (date : option string) (rec : record) :
  get_epic_imagery fl w date = Ok rec ->
  dict_has "error" rec = false ->
  dict_has "message" rec = false ->
  exists chosen (provided images : list pyval),
    provided <> []
    /\ Forall is_epic_descriptor images
    /\ List.length images = Nat.min 3 (List.length provided)
    /\ rec = [("date", chosen);
              ("image_count", PInt (Z.of_nat (List.length provided)));
              ("images", PList images)].
Proof.
  unfold get_epic_imagery. intros H NE NM. bind_inv H.
  destruct (negb (status_code x =? 200)%Z).
  { inversion H; subst. discriminate. }
  do 3 bind_inv H.
  destruct (negb (status_code x2 =? 200)%Z).
  { inversion H; subst. discriminate. }
  bind_inv H.
  destruct (truthy x3) eqn:T; cbn [negb] in H.
  2:{ inversion H; subst. discriminate. }
  do 5 bind_inv H. inversion H; subst; clear H.
  destruct x3 as [| | | |s|provided|]; try discriminate.
  - (* a str of images: its characters are no images *)
    exfalso.
    apply (str_is_no_list (epic_descriptor fl (strftime_ymd fl "/" x4)) s 3 x5 x7 x8);
      try assumption; [|lia].
    intros g. eexists. reflexivity.
  - cbn in E5, E6. inversion E5; inversion E6; subst; clear E5 E6.
    cbn in E7. inversion E7; subst; clear E7.
    exists x1, provided, x8. split; [|split; [|split]].
    + intros ->. discriminate.
    + eapply mapM_Forall; [|exact E8]. intros a b. apply epic_descriptor_shape.
    + rewrite (mapM_length _ _ _ E8). exact (length_firstn_min 3 provided).
    + reflexivity.
Qed.

Lemma format_epic_total fl (q : string) (chosen : pyval) (n : Z)
  (images : list pyval) :
  Forall is_epic_descriptor images ->
  exists rest,
    format_nasa_response fl q
      [("date", chosen); ("image_count", PInt n); ("images", PList images)] "epic"
    = Ok ("I found " ++ str_of_Z n ++ " Earth images" ++ rest).
Proof.
  intros D. unfold format_nasa_response. cbn -[mapM enumerate firstn str_of_Z].
  match goal with
  | |- context [mapM ?f ?l] => destruct (mapM_total f l) as [lines ->]
  end.
  - eapply Forall_impl; [|apply Forall_enumerate, Forall_firstn, D].
    intros [i v] (id & caption & image_url & date & lat & lon & E).
    cbn in E; subst v. cbn -[str_of_Z]. eexists; reflexivity.
  - cbn -[str_of_Z]. eexists. reflexivity.
Qed.

Lemma format_error_record fl (q t : string) (rec : record) :
  dict_has "error" rec = true ->
  exists text, format_nasa_response fl q rec t = Ok text.
Proof.
  unfold format_nasa_response, dict_has. intros H.
  destruct (dict_get "error" rec) as [v|] eqn:G; [|discriminate].
  unfold item, getitem. rewrite G. cbn. eauto.
Qed.

Lemma format_message_record fl (q t : string) (rec : record) :
  dict_has "message" rec = true ->
  exists text, format_nasa_response fl q rec t = Ok text.
Proof.
  intros M. destruct (dict_has "error" rec) eqn:E.
  { now apply format_error_record. }
  unfold format_nasa_response. rewrite E, M. unfold dict_has in M.
  destruct (dict_get "message" rec) as [v|] eqn:G; [|discriminate].
  unfold item, getitem. rewrite G. cbn. eauto.
Qed.

(** X3.  [format_nasa_response] never raises on a record that
    [get_mars_photos] returned, read as "mars", nor on a record that
    [get_epic_imagery] returned, read as "epic": every field the two
    templates read is a field the fetcher wrote. *)
Theorem X3_formatter_total_on_rover_and_epic_records
  fl (w : world) (q rover : string) (date : option string) (rec : record)
  (data_type : string) :
  (get_mars_photos fl w rover date = Ok rec /\ data_type = "mars")
  \/ (get_epic_imagery fl w date = Ok rec /\ data_type = "epic") ->
  exists text, format_nasa_response fl q rec data_type = Ok text.
Proof.
  intros H.
  destruct (dict_has "error" rec) eqn:E; [now apply format_error_record|].
  destruct (dict_has "message" rec) eqn:M; [now apply format_message_record|].
  destruct H as [[H ->]|[H ->]].
  - unfold get_mars_photos in H. bind_inv H.
    destruct (negb (status_code x =? 200)%Z).
    { inversion H; subst. discriminate. }
    bind_inv H.
    destruct (mars_record_photos _ _ _ _ _ H M) as (provided & ps & _ & D & _ & ->).
    destruct (format_mars_headline fl q (PStr rover) (PStr (or_today w date))
                (Z.of_nat (List.length ps)) ps) as [rest R].
    + eapply mapM_Forall; [|exact D]. intros a b. apply photo_descriptor_shape.
    + eauto.
  - destruct (epic_record_images _ _ _ _ H E M)
      as (chosen & provided & images & _ & D & _ & ->).
    destruct (format_epic_total fl q chosen (Z.of_nat (List.length provided))
                images D) as [rest R].
    eauto.
Qed.

Lemma X3_seven_photos_witness :
  exists text,
    format_nasa_response PyFloat.lib "rover" seven_photos_record "mars" = Ok text.
Proof.
  apply (X3_formatter_total_on_rover_and_epic_records PyFloat.lib
           seven_photos_world "rover" "curiosity" None).
  left. split; reflexivity.
Defined.

(** ** Earth images of the EPIC camera *)

(** X4.  In a record with images of [get_epic_imagery], "image_count" is the
    number of images the provider sent for the day, which is not capped,
    while "images" holds the first three of them at most; the text of
    [format_nasa_response] opens with the uncapped count. *)
Theorem X4_epic_image_count_is_not_capped
  fl (w : world) (q : string) (date : option string) (rec : record) :
  get_epic_imagery fl w date = Ok rec ->
  dict_has "error" rec = false ->
  dict_has "message" rec = false ->
  exists (n : Z) (images : list pyval) (rest : string),
    dict_get "image_count" rec = Some (PInt n)
    /\ dict_get "images" rec = Some (PList images)
    /\ 1 <= n
    /\ Z.of_nat (List.length images) = Z.min 3 n
    /\ format_nasa_response fl q rec "epic"
       = Ok ("I found " ++ str_of_Z n ++ " Earth images" ++ rest).
Proof.
  intros H E M.
  destruct (epic_record_images _ _ _ _ H E M)
    as (chosen & provided & images & N & D & L & ->).
  destruct (format_epic_total fl q chosen (Z.of_nat (List.length provided))
              images D) as [rest R].
  exists (Z.of_nat (List.length provided)), images, rest.
  repeat split; [| |exact R].
  - destruct provided; [congruence | simpl; lia].
  - rewrite L. lia.
Qed.

(** Four images are sent: the record counts 4 and lists 3. *)
Lemma X4_sample_epic_witness :
  exists (n : Z) (images : list pyval) (rest : string),
    dict_get "image_count" sample_epic_record = Some (PInt n)
    /\ dict_get "images" sample_epic_record = Some (PList images)
    /\ 1 <= n
    /\ Z.of_nat (List.length images) = Z.min 3 n
    /\ format_nasa_response PyFloat.lib "earth" sample_epic_record "epic"
       = Ok ("I found " ++ str_of_Z n ++ " Earth images" ++ rest).
Proof.
  apply (X4_epic_image_count_is_not_capped PyFloat.lib sample_epic_world "earth" None);
    reflexivity.
Defined.

Example sample_epic_counts :
  dict_get "image_count" sample_epic_record = Some (PInt 4)
  /\ exists images, dict_get "images" sample_epic_record = Some (PList images)
                    /\ List.length images = 3%nat.
Proof. split; [reflexivity|]. eexists. split; reflexivity. Qed.

(** X5.  [get_epic_imagery] asks the provider for the available dates
    first.  A requested date that is not among them is replaced by the first
    available date without notice: the answer is that of a call without a
    date.  When the provider lists no date at all, the fetcher raises
    [IndexError], whatever date was requested. *)
Theorem X5_epic_date_falls_back_to_first_available
  fl (w : world) (r : response) (available_dates : pyval) (d : string) :
  requests_get w ("https://api.nasa.gov/EPIC/api/natural/available?api_key="
                  ++ NASA_API_KEY) = Ok r ->
  status_code r = 200 ->
  json r = Ok available_dates ->
  (str_in d available_dates = Ok false ->
   get_epic_imagery fl w (Some d) = get_epic_imagery fl w None)
  /\ (available_dates = PList [] ->
      forall date, get_epic_imagery fl w date
                   = Raise (Exn IndexError "list index out of range")).
Proof.
  intros R S J. unfold get_epic_imagery. rewrite R. cbn [bind]. rewrite S.
  cbn [Z.eqb Pos.eqb negb]. rewrite J. cbn [bind]. split.
  - intros ->. reflexivity.
  - intros -> [d'|]; reflexivity.
Qed.

Lemma X5_sample_epic_witness :
  get_epic_imagery PyFloat.lib sample_epic_world (Some "2024-02-26")
  = get_epic_imagery PyFloat.lib sample_epic_world None.
Proof.
  refine (proj1 (X5_epic_date_falls_back_to_first_available PyFloat.lib
                   sample_epic_world
                   (ok_response (PList [PStr "2024-02-25"; PStr "2024-02-24"]))
                   _ "2024-02-26" eq_refl eq_refl eq_refl) eq_refl).
Defined.

(** ** Dates as text *)

Lemma digit_cases (c : ascii) :
  is_digit c = true ->
  In c ["0"; "1"; "2"; "3"; "4"; "5"; "6"; "7"; "8"; "9"]%char.
Proof.
  destruct c as [[] [] [] [] [] [] [] []]; intros H;
    first [discriminate H | simpl; tauto].
Qed.

Lemma parse_month_token (a b : ascii) (rest : string) :
  is_digit a = true -> is_digit b = true ->
  parse_month (String a (String b (String hyphen rest)))
  = let m := 10 * digit_val a + digit_val b in
    if ((1 <=? m) && (m <=? 12))%Z then Some (m, rest) else None.
Proof.
  intros A B. apply digit_cases in A, B. simpl in A, B.
  repeat match goal with H : _ \/ _ |- _ => destruct H as [<-|H] end;
    first [reflexivity | contradiction].
Qed.

Lemma parse_day_token (a b : ascii) :
  is_digit a = true -> is_digit b = true ->
  parse_day (String a (String b ""))
  = let d := 10 * digit_val a + digit_val b in
    if ((1 <=? d) && (d <=? 31))%Z then Some (d, "")
    else if (d =? 0)%Z then None
    else Some (digit_val a, String b "").
Proof.
  intros A B. apply digit_cases in A, B. simpl in A, B.
  repeat match goal with H : _ \/ _ |- _ => destruct H as [<-|H] end;
    first [reflexivity | contradiction].
Qed.

Lemma days_in_month_le (y m : Z) : days_in_month y m <= 31.
Proof.
  unfold days_in_month.
  destruct ((m =? 2)%Z && is_leap y); [lia|].
  unfold DAYS_IN_MONTH.
  repeat match goal with
         | |- context [match ?x with _ => _ end] => destruct x
         end; lia.
Qed.

(** The shape of a date token. *)
Lemma date_token_shape (t : string) :
  is_date_token t = true ->
  exists y1 y2 y3 y4 m1 m2 d1 d2,
    t = String y1 (String y2 (String y3 (String y4 (String hyphen
          (String m1 (String m2 (String hyphen (String d1 (String d2 "")))))))))
    /\ is_digit y1 = true /\ is_digit y2 = true /\ is_digit y3 = true
    /\ is_digit y4 = true /\ is_digit m1 = true /\ is_digit m2 = true
    /\ is_digit d1 = true /\ is_digit d2 = true.
Proof.
  unfold is_date_token.
  do 10 (destruct t as [|? t]; [discriminate|]).
  destruct t; [|discriminate].
  intros H. repeat (apply andb_true_iff in H as [H ?]).
  repeat match goal with
         | E : Ascii.eqb _ hyphen = true |- _ => apply Ascii.eqb_eq in E; subst
         end.
  eexists _, _, _, _, _, _, _, _. split; [reflexivity|]. repeat split; try assumption. unfold is_digit. cbv zeta. now rewrite H, H9.
Qed.

(** [strptime] on a token of the date pattern. *)
Lemma strptime_token (t : string) :
  is_date_token t = true ->
  (valid_date (token_date t) = true -> strptime_ymd t = Ok (token_date t))
  /\ (valid_date (token_date t) = false ->
      exists msg, strptime_ymd t = Raise (Exn ValueError msg)).
Proof.
  intros T.
  destruct (date_token_shape t T)
    as (y1 & y2 & y3 & y4 & m1 & m2 & d1 & d2 & -> & Y1 & Y2 & Y3 & Y4
        & M1 & M2 & D1 & D2).
  unfold strptime_ymd.
  set (msg := "time data " ++ _ ++ " does not match format '%Y-%m-%d'").
  unfold parse_year. rewrite Y1, Y2, Y3, Y4, Ascii.eqb_refl. cbn [andb].
  rewrite (parse_month_token m1 m2 _ M1 M2). cbv zeta.
  unfold valid_date, token_date. cbn [year month day].
  set (y := 1000 * digit_val y1 + 100 * digit_val y2 + 10 * digit_val y3
            + digit_val y4).
  set (m := 10 * digit_val m1 + digit_val m2).
  set (d := 10 * digit_val d1 + digit_val d2).
  assert (Ry : 0 <= y <= 9999)
    by (apply digit_val_range in Y1, Y2, Y3, Y4; subst y; lia).
  assert (Rd1 : 0 <= digit_val d1 <= 9) by now apply digit_val_range.
  pose proof (days_in_month_le y m) as Lm.
  destruct ((1 <=? m) && (m <=? 12))%Z eqn:Bm.
  2:{ split; [|unfold raise; eauto].
      intros V. exfalso. revert V Bm.
      destruct (1 <=? y)%Z, (y <=? 9999)%Z, (1 <=? m)%Z, (m <=? 12)%Z;
        cbn [andb]; congruence. }
  rewrite (parse_day_token d1 d2 D1 D2). cbv zeta. fold d.
  apply andb_true_iff in Bm as [Bm1 Bm2]. rewrite Bm1, Bm2.
  destruct ((1 <=? d) && (d <=? 31))%Z eqn:Bd.
  - apply andb_true_iff in Bd as [Bd1 Bd2]. rewrite Bd1.
    cbn [String.eqb negb andb].
    destruct (Z.eqb_spec y 0) as [Zy|Zy].
    { rewrite Zy. cbn [Z.leb Z.compare andb]. split; [discriminate|].
      unfold raise; eauto. }
    replace (1 <=? y)%Z with true by (symmetry; apply Z.leb_le; lia).
    replace (y <=? 9999)%Z with true by (symmetry; apply Z.leb_le; lia).
    cbn [andb].
    destruct (Z.ltb_spec (days_in_month y m) d) as [L|L].
    + replace (d <=? days_in_month y m)%Z with false
        by (symmetry; apply Z.leb_gt; lia).
      split; [discriminate|]. unfold raise; eauto.
    + replace (d <=? days_in_month y m)%Z with true
        by (symmetry; apply Z.leb_le; lia).
      split; [reflexivity | discriminate].
  - assert (V : ((1 <=? d) && (d <=? days_in_month y m))%Z = false).
    { destruct (Z.leb_spec 1 d); [|reflexivity].
      destruct (Z.leb_spec d 31); [discriminate|].
      cbn [andb]. apply Z.leb_gt. lia. }
    rewrite <- !andb_assoc, V, !andb_false_r.
    split; [discriminate|]. intros _.
    destruct (d =? 0)%Z; [unfold raise; eauto|].
    cbn [String.eqb negb]. unfold raise; eauto.
Qed.

Lemma writes_number_spec4 (z : Z) (s : string) :
  writes_number 4 z s = true ->
  exists a b c d,
    s = String a (String b (String c (String d "")))
    /\ is_digit a = true /\ is_digit b = true /\ is_digit c = true
    /\ is_digit d = true
    /\ 1000 * digit_val a + 100 * digit_val b + 10 * digit_val c + digit_val d = z.
Proof.
  unfold writes_number. intros H.
  apply andb_true_iff in H as [L V].
  do 4 (destruct s as [|? s]; [discriminate|]).
  destruct s; [|discriminate]. clear L.
  cbn [digits_value] in V.
  destruct (is_digit a) eqn:A; [|discriminate].
  destruct (is_digit a0) eqn:B; [|discriminate].
  destruct (is_digit a1) eqn:C; [|discriminate].
  destruct (is_digit a2) eqn:D; [|discriminate].
  apply Z.eqb_eq in V.
  eexists _, _, _, _. split; [reflexivity|]. repeat split; first [assumption | lia].
Qed.

Lemma writes_number_spec2 (z : Z) (s : string) :
  writes_number 2 z s = true ->
  exists a b,
    s = String a (String b "")
    /\ is_digit a = true /\ is_digit b = true
    /\ 10 * digit_val a + digit_val b = z.
Proof.
  unfold writes_number. intros H.
  apply andb_true_iff in H as [L V].
  do 2 (destruct s as [|? s]; [discriminate|]).
  destruct s; [|discriminate]. clear L.
  cbn [digits_value] in V.
  destruct (is_digit a) eqn:A; [|discriminate].
  destruct (is_digit a0) eqn:B; [|discriminate].
  apply Z.eqb_eq in V.
  eexists _, _. split; [reflexivity|]. repeat split; first [assumption | lia].
Qed.

Lemma writes_number_between (width : nat) (text : Z -> string) (lo len z : Z) :
  forallb (fun z => writes_number width z (text z))
    (map Z.of_nat (seq (Z.to_nat lo) (Z.to_nat len))) = true ->
  0 <= lo <= z -> z < lo + len -> writes_number width z (text z) = true.
Proof.
  intros F R1 R2. rewrite forallb_forall in F.
  apply (F z). replace z with (Z.of_nat (Z.to_nat z)) at 1 by lia.
  apply in_map, in_seq. lia.
Qed.

(** The decimal text of a year from 1000 to 9999 has four digits. *)
Lemma year_has_four_digits (y : Z) :
  1000 <= y <= 9999 -> writes_number 4 y (str_of_Z y) = true.
Proof.
  intros R. apply (writes_number_between 4 str_of_Z 1000 9000);
    [vm_compute; reflexivity | lia..].
Qed.

Lemma pads_two_digits (z : Z) :
  0 <= z <= 99 -> writes_number 2 z (zero_pad 2 (str_of_Z z)) = true.
Proof.
  intros R. apply (writes_number_between 2 (fun z => zero_pad 2 (str_of_Z z)) 0 100);
    [vm_compute; reflexivity | lia..].
Qed.

(** [strftime] writes a valid date from the year 1000 on as a token of the
    date pattern, and the token writes that date. *)
Lemma strftime_token fl (d : pydate) :
  valid_date d = true -> 1000 <= year d ->
  is_date_token (strftime_ymd fl "-" d) = true
  /\ token_date (strftime_ymd fl "-" d) = d.
Proof.
  intros V Y. unfold valid_date in V.
  repeat (apply andb_true_iff in V as [V ?]).
  repeat match goal with H : (_ <=? _)%Z = true |- _ => apply Z.leb_le in H end.
  pose proof (days_in_month_le (year d) (month d)).
  unfold strftime_ymd, year_text.
  replace (1000 <=? year d)%Z with true by (symmetry; apply Z.leb_le; lia).
  destruct (writes_number_spec4 (year d) (str_of_Z (year d)))
    as (a & b & c & e & -> & A & B & C & E & Vy);
    [apply year_has_four_digits; lia|].
  destruct (writes_number_spec2 (month d) (zero_pad 2 (str_of_Z (month d))))
    as (m1 & m2 & -> & M1 & M2 & Vm);
    [apply pads_two_digits; lia|].
  destruct (writes_number_spec2 (day d) (zero_pad 2 (str_of_Z (day d))))
    as (d1 & d2 & -> & D1 & D2 & Vd);
    [apply pads_two_digits; lia|].
  cbn [String.append].
  unfold is_date_token, token_date.
  rewrite A, B, C, E, M1, M2, D1, D2, Vy, Vm, Vd.
  split; [reflexivity | now destruct d].
Qed.

(** X6.  On an ASCII text of the router's date pattern, four ASCII digits,
    two and two between hyphens, [datetime.strptime(..., "%Y-%m-%d")]
    returns the date with the three numbers when it is a date of the calendar
    (year at least 1, month 1 to 12, day within the month), and raises
    [ValueError] otherwise.  (The pattern also matches decimal digits
    outside ASCII, which [is_date_token] leaves out.) *)
Theorem X6_strptime_on_date_tokens (t : string) :
  is_date_token t = true ->
  (valid_date (token_date t) = true -> strptime_ymd t = Ok (token_date t))
  /\ (valid_date (token_date t) = false ->
      exists msg, strptime_ymd t = Raise (Exn ValueError msg)).
Proof. exact (strptime_token t). Qed.

(** A leap day is read in a leap year and refused in another year. *)
Lemma X6_leap_day_witness :
  strptime_ymd "2024-02-29" = Ok (Date 2024 2 29)
  /\ exists msg, strptime_ymd "2023-02-29" = Raise (Exn ValueError msg).
Proof.
  split.
  - exact (proj1 (X6_strptime_on_date_tokens "2024-02-29" eq_refl) eq_refl).
  - exact (proj2 (X6_strptime_on_date_tokens "2023-02-29" eq_refl) eq_refl).
Defined.

(** X7.  Round trip of the two date conversions: the text [strftime] writes
    with "%Y-%m-%d" for a valid date of the years 1000 to 9999 is a token of
    the router's date pattern, and [strptime] reads it back as the same
    date. *)
Theorem X7_strptime_reads_back_strftime fl (d : pydate) :
  valid_date d = true -> 1000 <= year d ->
  is_date_token (strftime_ymd fl "-" d) = true
  /\ strptime_ymd (strftime_ymd fl "-" d) = Ok d.
Proof.
  intros V Y. destruct (strftime_token fl d V Y) as [T E].
  split; [exact T|].
  destruct (strptime_token _ T) as [R _].
  rewrite E in R. exact (R V).
Qed.

Lemma X7_round_trip_witness :
  is_date_token (strftime_ymd PyFloat.lib "-" (Date 1987 6 5)) = true
  /\ strptime_ymd (strftime_ymd PyFloat.lib "-" (Date 1987 6 5))
     = Ok (Date 1987 6 5).
Proof.
  apply (X7_strptime_reads_back_strftime PyFloat.lib (Date 1987 6 5) eq_refl).
  cbn [year]. lia.
Defined.

(** ** The window of the near-Earth-object feed *)

Lemma year_length (y : Z) :
  days_before_year (y + 1)
  = days_before_year y + 365 + (if is_leap y then 1 else 0).
Proof.
  unfold days_before_year, is_leap. cbv zeta.
  replace (y + 1 - 1) with y by lia.
  destruct (Z.eqb_spec (y mod 4) 0), (Z.eqb_spec (y mod 100) 0),
    (Z.eqb_spec (y mod 400) 0); cbn [andb orb negb];
    Z.to_euclidean_division_equations; lia.
Qed.

Lemma days_before_year_mono (y y' : Z) :
  y <= y' -> days_before_year y <= days_before_year y'.
Proof.
  intros L. replace y' with (y + Z.of_nat (Z.to_nat (y' - y))) by lia.
  induction (Z.to_nat (y' - y)) as [|n IH]; [now rewrite Z.add_0_r|].
  replace (y + Z.of_nat (S n)) with (y + Z.of_nat n + 1) by lia.
  rewrite year_length. destruct (is_leap _); lia.
Qed.

(** The day of the year of a valid date. *)
Lemma day_of_year_range (d : pydate) :
  valid_date d = true ->
  1 <= days_before_month (year d) (month d) + day d
    <= 365 + (if is_leap (year d) then 1 else 0).
Proof.
  intros V. unfold valid_date in V.
  apply andb_true_iff in V as [V D2]. apply andb_true_iff in V as [V D1].
  apply andb_true_iff in V as [V M2]. apply andb_true_iff in V as [V M1].
  apply andb_true_iff in V as [Y1 Y2].
  apply Z.leb_le in D1, D2, M1, M2.
  unfold days_in_month in D2. unfold days_before_month.
  assert (M : month d = 1 \/ month d = 2 \/ month d = 3 \/ month d = 4
              \/ month d = 5 \/ month d = 6 \/ month d = 7 \/ month d = 8
              \/ month d = 9 \/ month d = 10 \/ month d = 11 \/ month d = 12)
    by lia.
  destruct (is_leap (year d));
    repeat (destruct M as [M|M]); rewrite M in *; cbn -[Z.add Z.le Z.lt] in D2 |- *; lia.
Qed.

Lemma ymd2ord_positive (d : pydate) : valid_date d = true -> 1 <= ymd2ord d.
Proof.
  intros V. pose proof (day_of_year_range d V) as R.
  assert (Y : 1 <= year d).
  { unfold valid_date in V. repeat (apply andb_true_iff in V as [V ?]).
    now apply Z.leb_le. }
  pose proof (days_before_year_mono 1 (year d) Y) as M.
  change (days_before_year 1) with 0 in M. unfold ymd2ord. lia.
Qed.

(** A later day lies in the same or a later year. *)
Lemma year_mono (d d' : pydate) :
  valid_date d = true -> valid_date d' = true ->
  ymd2ord d <= ymd2ord d' -> year d <= year d'.
Proof.
  intros V V' L.
  destruct (Z.le_gt_cases (year d) (year d')) as [|G]; [assumption|exfalso].
  pose proof (day_of_year_range d V). pose proof (day_of_year_range d' V').
  pose proof (year_length (year d')).
  pose proof (days_before_year_mono (year d' + 1) (year d) ltac:(lia)).
  unfold ymd2ord in L. lia.
Qed.

(** X8.  The end of the feed window, [(strptime(date) + timedelta(days=7))
    .strftime("%Y-%m-%d")], for a start date that is an ASCII text of the
    date pattern (four ASCII digits, two and two between hyphens) and a date
    of the calendar from the year 1000 on: up to 9999-12-24 (day number
    [MAXORDINAL - 7]) it is again such a text, and it writes the date seven
    days later; past that day the addition raises [OverflowError]. *)
Theorem X8_feed_window_end_on_date_tokens fl (t : string) :
  is_date_token t = true ->
  valid_date (token_date t) = true ->
  1000 <= year (token_date t) ->
  (ymd2ord (token_date t) + 7 <= MAXORDINAL ->
   exists e, seven_days_later fl t = Ok e
             /\ is_date_token e = true
             /\ valid_date (token_date e) = true
             /\ ymd2ord (token_date e) = ymd2ord (token_date t) + 7)
  /\ (MAXORDINAL < ymd2ord (token_date t) + 7 ->
      seven_days_later fl t = Raise (Exn OverflowError "date value out of range")).
Proof.
  intros T V Y.
  destruct (strptime_token t T) as [P _]. specialize (P V).
  pose proof (ymd2ord_positive _ V) as Pos.
  unfold seven_days_later. rewrite P. cbn [bind]. unfold add_days.
  replace (0 <? ymd2ord (token_date t) + 7)%Z with true
    by (symmetry; apply Z.ltb_lt; lia).
  cbn [andb]. split; intros L.
  - replace (ymd2ord (token_date t) + 7 <=? MAXORDINAL)%Z with true
      by (symmetry; apply Z.leb_le; lia).
    cbn [bind].
    destruct (ord2ymd_spec (ymd2ord (token_date t) + 7)) as [V7 O7]; [lia|].
    assert (Y7 : 1000 <= year (ord2ymd (ymd2ord (token_date t) + 7))).
    { pose proof (year_mono _ _ V V7). lia. }
    destruct (strftime_token fl _ V7 Y7) as [T7 E7].
    eexists. split; [reflexivity|]. rewrite E7. auto.
  - replace (ymd2ord (token_date t) + 7 <=? MAXORDINAL)%Z with false
      by (symmetry; apply Z.leb_gt; lia).
    reflexivity.
Qed.

(** The window that starts on 2024-02-26 ends on 2024-03-04, and no window
    starts on the last day of the calendar. *)
Lemma X8_feed_window_witness :
  (exists e, seven_days_later PyFloat.lib "2024-02-26" = Ok e
             /\ is_date_token e = true
             /\ valid_date (token_date e) = true
             /\ ymd2ord (token_date e) = ymd2ord (token_date "2024-02-26") + 7)
  /\ seven_days_later PyFloat.lib "9999-12-31"
     = Raise (Exn OverflowError "date value out of range").
Proof.
  split.
  - apply (X8_feed_window_end_on_date_tokens PyFloat.lib "2024-02-26"
             eq_refl eq_refl);
      vm_compute; discriminate.
  - apply (X8_feed_window_end_on_date_tokens PyFloat.lib "9999-12-31"
             eq_refl eq_refl);
      vm_compute; [discriminate | reflexivity].
Defined.

Example feed_window_of_sample_day :
  seven_days_later PyFloat.lib "2024-02-26" = Ok "2024-03-04".
Proof. reflexivity. Qed.

(** ** The chat session *)



Lemma process_query_unrouted fl (w : world) (q : string) :
  route q = None -> process_query fl w q = Ok None.
Proof.
  intros R. unfold process_query.
  now rewrite (proj2 (get_nasa_response_unrouted fl w q) R).
Qed.

Lemma process_query_routed fl (w : world) (q : string) :
  routed q = true -> process_query fl w q <> Ok None.
Proof.
  unfold routed, process_query. intros R H.
  destruct (get_nasa_response fl w q) as [[[t rec]|]|e] eqn:G; cbn [bind] in H.
  - destruct (get_nasa_response_routed _ _ _ _ _ G) as [N I].
    assert (T : negb (String.eqb t "") && truthy (PDict rec) = true).
    { destruct rec; [congruence|].
      simpl in I. destruct I as [<-|[<-|[<-|[<-|[]]]]]; reflexivity. }
    rewrite T in H. bind_inv H. discriminate.
  - apply get_nasa_response_unrouted in G. now rewrite G in R.
  - discriminate.
Qed.




Example impossible_date_message :
  process_query PyFloat.lib offline_world "asteroids on 2024-02-30"
  = Raise (Exn ValueError "day is out of range for month").
Proof. reflexivity. Qed.

(** X10.  A chat in which no line holds a keyword of the router makes no
    request: the session is the same in every world.  The exceptions of the
    model are caught inside the loop, so such a chat ends in one of two ways
    only: with "Goodbye!" when a line is an exit word, and waiting for the
    next line otherwise. *)
Theorem X10_unrouted_chat_makes_no_request
  fl (w1 w2 : world) (llm : mcp_chat.backend) (inputs : list string)
  (messages : list pyval) (out : list string) :
  Forall (fun line => route line = None) inputs ->
  mcp_chat.chat_loop fl w1 llm inputs messages out
  = mcp_chat.chat_loop fl w2 llm inputs messages out
  /\ mcp_chat.ended (mcp_chat.chat_loop fl w1 llm inputs messages out)
     = if existsb is_exit_word inputs then mcp_chat.Goodbye
       else mcp_chat.AwaitingInput.
Proof.
  intros U. revert messages out.
  induction U as [|line inputs R _ IH]; intros messages out; [split; reflexivity|].
  cbn [mcp_chat.chat_loop existsb]. fold (is_exit_word line).
  destruct (is_exit_word line); [split; reflexivity|]. cbn [orb].
  rewrite !(process_query_unrouted fl _ line R).
  repeat match goal with
         | |- context [match ?x with _ => _ end] =>
             lazymatch x with
             | context [mcp_chat.chat_loop] => fail
             | _ => destruct x
             end
         end; apply IH.
Qed.

Lemma X10_unrouted_chat_witness :
  mcp_chat.chat_loop PyFloat.lib offline_world failing_model
    ["Tell me about black holes"; "quit"] [mcp_chat.system_message] mcp_chat.banner
  = mcp_chat.chat_loop PyFloat.lib sample_feed_world failing_model
      ["Tell me about black holes"; "quit"] [mcp_chat.system_message] mcp_chat.banner
  /\ mcp_chat.ended
       (mcp_chat.chat_loop PyFloat.lib offline_world failing_model
          ["Tell me about black holes"; "quit"] [mcp_chat.system_message]
          mcp_chat.banner)
     = mcp_chat.Goodbye.
Proof.
  apply (X10_unrouted_chat_makes_no_request PyFloat.lib offline_world
           sample_feed_world failing_model ["Tell me about black holes"; "quit"]).
  repeat constructor.
Defined.

(** X11.  A chat in which every line holds a keyword of the router, or is
    an exit word, never asks the model: the session is the same with every
    model. *)
Theorem X11_routed_chat_never_asks_the_model
  fl (w : world) (llm1 llm2 : mcp_chat.backend) (inputs : list string)
  (messages : list pyval) (out : list string) :
  Forall (fun line => routed line = true \/ is_exit_word line = true) inputs ->
  mcp_chat.chat_loop fl w llm1 inputs messages out
  = mcp_chat.chat_loop fl w llm2 inputs messages out.
Proof.
  intros U. revert messages out.
  induction U as [|line inputs R _ IH]; intros messages out; [reflexivity|].
  cbn [mcp_chat.chat_loop]. fold (is_exit_word line).
  destruct (is_exit_word line) eqn:X; [reflexivity|].
  destruct R as [R|R]; [|congruence].
  pose proof (process_query_routed fl w line R) as P.
  destruct (process_query fl w line) as [[[[response source] data]|]|e];
    [apply IH | congruence | reflexivity].
Qed.

Lemma X11_routed_chat_witness :
  mcp_chat.chat_loop PyFloat.lib seven_photos_world (constant_model "Hello")
    ["What photos did Curiosity rover take recently?"; "exit"] [] []
  = mcp_chat.chat_loop PyFloat.lib seven_photos_world failing_model
      ["What photos did Curiosity rover take recently?"; "exit"] [] [].
Proof.
  apply (X11_routed_chat_never_asks_the_model PyFloat.lib seven_photos_world
           (constant_model "Hello") failing_model).
  constructor; [left; reflexivity|].
  constructor; [right; reflexivity|]. constructor.
Defined.

Lemma chat_loop_grows fl (w : world) (llm : mcp_chat.backend)
  (inputs : list string) (messages : list pyval) (out : list string) :
  exists (said : list pyval) (shown : list string),
    mcp_chat.history (mcp_chat.chat_loop fl w llm inputs messages out)
    = (messages ++ said)%list
    /\ mcp_chat.printed (mcp_chat.chat_loop fl w llm inputs messages out)
       = (out ++ shown)%list
    /\ (List.length said <= 2 * List.length inputs)%nat.
Proof.
  revert messages out.
  induction inputs as [|line inputs IH]; intros messages out.
  { exists [], []. rewrite !app_nil_r. repeat split. simpl. lia. }
  assert (K : forall (m : list pyval) (o : list string),
             (List.length m <= 2)%nat ->
             exists (said : list pyval) (shown : list string),
               mcp_chat.history
                 (mcp_chat.chat_loop fl w llm inputs (messages ++ m)%list
                    (out ++ o)%list)
               = (messages ++ said)%list
               /\ mcp_chat.printed
                    (mcp_chat.chat_loop fl w llm inputs (messages ++ m)%list
                       (out ++ o)%list)
                  = (out ++ shown)%list
               /\ (List.length said <= 2 * List.length (line :: inputs))%nat).
  { intros m o L.
    destruct (IH (messages ++ m)%list (out ++ o)%list) as (said & shown & H & P & B).
    exists (m ++ said)%list, (o ++ shown)%list.
    rewrite H, P, <- !app_assoc, length_app. repeat split. simpl. lia. }
  cbn [mcp_chat.chat_loop]. unfold mcp_chat.print, mcp_chat.append.
  repeat match goal with
         | |- context [match ?x with _ => _ end] =>
             lazymatch x with
             | context [mcp_chat.chat_loop] => fail
             | _ => destruct x
             end
         end;
    cbn [mcp_chat.history mcp_chat.printed];
    rewrite <- ?app_assoc;
    first
      [ apply K; simpl; lia
      | exists [], ["Goodbye!"];
        split; [symmetry; apply app_nil_r | split; [reflexivity | simpl; lia]]
      | exists [], [];
        split; [symmetry; apply app_nil_r
               | split; [symmetry; apply app_nil_r | simpl; lia]] ].
Qed.

(** X12.  The chat loop only adds to the conversation and to the output:
    the history it ends with starts with the history it was entered with,
    the lines printed start with the lines printed before, and each line
    read adds at most two messages.  The history of [mcp_chat] therefore
    starts with the system message whenever the model can be reached. *)
Theorem X12_chat_history_only_grows
  fl (w : world) (llm : mcp_chat.backend) (inputs : list string) :
  (forall messages out,
      exists (said : list pyval) (shown : list string),
        mcp_chat.history (mcp_chat.chat_loop fl w llm inputs messages out)
        = (messages ++ said)%list
        /\ mcp_chat.printed (mcp_chat.chat_loop fl w llm inputs messages out)
           = (out ++ shown)%list
        /\ (List.length said <= 2 * List.length inputs)%nat)
  /\ (mcp_chat.ollama_list llm = Ok tt ->
      exists said,
        mcp_chat.history (mcp_chat.mcp_chat fl w llm inputs)
        = mcp_chat.system_message :: said).
Proof.
  split.
  - intros messages out. apply chat_loop_grows.
  - intros L. unfold mcp_chat.mcp_chat. rewrite L.
    destruct (chat_loop_grows fl w llm inputs [mcp_chat.system_message]
                mcp_chat.banner) as (said & shown & H & _).
    exists said. exact H.
Qed.

Lemma chat_loop_exit fl (w : world) (llm : mcp_chat.backend)
  (before after : list string) (line : string) :
  is_exit_word line = true ->
  forall messages out,
    mcp_chat.chat_loop fl w llm (before ++ line :: after)%list messages out
    = mcp_chat.chat_loop fl w llm (before ++ [line])%list messages out
    /\ (mcp_chat.ended
          (mcp_chat.chat_loop fl w llm (before ++ line :: after)%list messages out)
        = mcp_chat.Goodbye
        \/ exists e,
            mcp_chat.ended
              (mcp_chat.chat_loop fl w llm (before ++ line :: after)%list
                 messages out)
            = mcp_chat.Uncaught e).
Proof.
  intros X. induction before as [|first before IH]; intros messages out.
  - cbn [List.app mcp_chat.chat_loop]. unfold is_exit_word in X. rewrite X.
    split; [reflexivity | left; reflexivity].
  - cbn [List.app mcp_chat.chat_loop].
    repeat match goal with
           | |- context [match ?x with _ => _ end] =>
               lazymatch x with
               | context [mcp_chat.chat_loop] => fail
               | _ => destruct x
               end
           end;
      cbn [mcp_chat.ended];
      first [apply IH | split; [reflexivity | eauto]].
Qed.

(** X13.  The chat stops at the first exit word ("exit" or "quit" in any
    case): the lines after it are not read, and a script that holds an exit
    word never ends waiting for input; it ends with "Goodbye!", or earlier
    with an exception that left the loop. *)
Theorem X13_chat_stops_at_exit_word
  fl (w : world) (llm : mcp_chat.backend) (before after : list string)
  (line : string) (messages : list pyval) (out : list string) :
  is_exit_word line = true ->
  mcp_chat.chat_loop fl w llm (before ++ line :: after)%list messages out
  = mcp_chat.chat_loop fl w llm (before ++ [line])%list messages out
  /\ (mcp_chat.ended
        (mcp_chat.chat_loop fl w llm (before ++ line :: after)%list messages out)
      = mcp_chat.Goodbye
      \/ exists e,
          mcp_chat.ended
            (mcp_chat.chat_loop fl w llm (before ++ line :: after)%list
               messages out)
          = mcp_chat.Uncaught e).
Proof. intros X. now apply chat_loop_exit. Qed.

Lemma X13_exit_word_witness :
  mcp_chat.chat_loop PyFloat.lib seven_photos_world (constant_model "Hello")
    (["Tell me about black holes"] ++ "QUIT" :: ["What did the rover see?"])%list
    [] []
  = mcp_chat.chat_loop PyFloat.lib seven_photos_world (constant_model "Hello")
      (["Tell me about black holes"] ++ ["QUIT"])%list [] []
  /\ (mcp_chat.ended
        (mcp_chat.chat_loop PyFloat.lib seven_photos_world (constant_model "Hello")
           (["Tell me about black holes"] ++ "QUIT" :: ["What did the rover see?"])%list
           [] [])
      = mcp_chat.Goodbye
      \/ exists e,
          mcp_chat.ended
            (mcp_chat.chat_loop PyFloat.lib seven_photos_world
               (constant_model "Hello")
               (["Tell me about black holes"] ++ "QUIT" :: ["What did the rover see?"])%list
               [] [])
          = mcp_chat.Uncaught e).
Proof.
  apply (X13_chat_stops_at_exit_word PyFloat.lib seven_photos_world
           (constant_model "Hello") ["Tell me about black holes"]
           ["What did the rover see?"] "QUIT" [] []).
  reflexivity.
Defined.

(** ** The copies of the fetchers *)



(** ** Answers with an error status *)




Example unavailable_answer :
  process_query PyFloat.lib unavailable_world test_case_7_query
  = Ok (Some ("Sorry, I encountered an error when trying to fetch NASA data: API error: 503",
              "NASA EPIC API",
              api_error (failed_response 503 "Service Unavailable"))).
Proof. reflexivity. Qed.

(** ** The picture of the day *)

Lemma apod_record_of_dict (body : record) :
  apod_record (PDict body)
  = Ok [("title", params_get "title" PNone body);
        ("date", params_get "date" PNone body);
        ("explanation", params_get "explanation" PNone body);
        ("image_url", params_get "url" PNone body);
        ("media_type", params_get "media_type" PNone body);
        ("copyright", params_get "copyright" (PStr "NASA") body)].
Proof. reflexivity. Qed.

(** X16.  The record built from a picture-of-the-day answer without an
    "explanation" holds [None] in that field, and both formatters raise
    [TypeError] on it, at the slice [nasa_data['explanation'][:500]]. *)
Theorem X16_apod_without_explanation_raises fl (q : string) (body : record) :
  dict_get "explanation" body = None ->
  exists rec,
    apod_record (PDict body) = Ok rec
    /\ dict_get "explanation" rec = Some PNone
    /\ format_nasa_response fl q rec "apod"
       = Raise (Exn TypeError "'NoneType' object is not subscriptable")
    /\ mcp_chat.get_model_response_with_nasa_data fl q rec "apod"
       = Raise (Exn TypeError "'NoneType' object is not subscriptable").
Proof.
  intros E. eexists. split; [apply apod_record_of_dict|].
  unfold params_get. rewrite E. repeat split.
Qed.

Lemma X16_bare_answer_witness :
  exists rec,
    apod_record (PDict [("code", PInt 404); ("msg", PStr "No data available")])
    = Ok rec
    /\ dict_get "explanation" rec = Some PNone
    /\ format_nasa_response PyFloat.lib "apod" rec "apod"
       = Raise (Exn TypeError "'NoneType' object is not subscriptable")
    /\ mcp_chat.get_model_response_with_nasa_data PyFloat.lib "apod" rec "apod"
       = Raise (Exn TypeError "'NoneType' object is not subscriptable").
Proof.
  apply (X16_apod_without_explanation_raises PyFloat.lib "apod"
           [("code", PInt 404); ("msg", PStr "No data available")]).
  reflexivity.
Defined.

Lemma append_nil_r (s : string) : s ++ "" = s.
Proof. induction s; simpl; congruence. Qed.

Lemma concat_cons (x : string) (xs : list string) :
  String.concat "" (x :: xs) = x ++ String.concat "" xs.
Proof. destruct xs; simpl; [now rewrite append_nil_r | reflexivity]. Qed.

(** The characters of a text, put together again, are the text. *)
Lemma concat_chars (s : string) : String.concat "" (chars s) = s.
Proof.
  induction s as [|c s IH]; [reflexivity|].
  cbn [chars]. destruct (chars s) as [|g rest].
  - simpl in IH. now subst s.
  - rewrite concat_cons in IH.
    destruct (starts_with_continuation g); rewrite !concat_cons; simpl; now rewrite IH.
Qed.

(** A slice that is not shorter than the text is the text. *)
Lemma str_slice_all (n : nat) (s : string) :
  (str_len s <= n)%nat -> str_slice n s = s.
Proof.
  intros L. unfold str_slice. rewrite firstn_all2 by exact L. apply concat_chars.
Qed.

(** On ASCII text the characters are the bytes. *)
Lemma chars_ascii (s : string) :
  is_ascii s = true ->
  chars s = map (fun c => String c "") (list_ascii_of_string s).
Proof.
  unfold is_ascii. induction s as [|c s IH]; [reflexivity|].
  cbn [list_ascii_of_string forallb map chars]. intros H.
  apply andb_true_iff in H as [A H]. rewrite (IH H).
  destruct s as [|c' s]; [reflexivity|].
  cbn [list_ascii_of_string map starts_with_continuation].
  cbn [list_ascii_of_string forallb] in H. apply andb_true_iff in H as [A' _].
  replace (is_continuation c') with false; [reflexivity|].
  unfold is_ascii_char in A'. apply Nat.ltb_lt in A'.
  unfold is_continuation. cbv zeta. symmetry. apply andb_false_iff. left.
  apply Nat.leb_gt. exact A'.
Qed.

Lemma str_len_ascii (s : string) : is_ascii s = true -> str_len s = String.length s.
Proof.
  intros A. unfold str_len. rewrite (chars_ascii s A), length_map.
  clear A. induction s; simpl; congruence.
Qed.

(** X17.  The text [format_nasa_response] prints of the explanation of a
    picture of the day: the whole explanation when it has at most 500
    characters, and its first 500 characters followed by "..." when it is
    longer. *)
Theorem X17_apod_explanation_is_cut_at_500 fl (q : string) (body : record)
  (explanation : string) :
  dict_get "explanation" body = Some (PStr explanation) ->
  exists rec head credit,
    apod_record (PDict body) = Ok rec
    /\ format_nasa_response fl q rec "apod"
       = Ok (head ++ "Description: "
               ++ (if (str_len explanation <=? 500)%nat then explanation
                   else str_slice 500 explanation ++ "...")
               ++ nl ++ nl ++ "Credit: " ++ credit ++ nl ++ nl
               ++ "You can view this image and more at NASA's official APOD website: https://apod.nasa.gov/apod/"
               ++ nl).
Proof.
  intros E.
  exists [("title", params_get "title" PNone body);
          ("date", params_get "date" PNone body);
          ("explanation", PStr explanation);
          ("image_url", params_get "url" PNone body);
          ("media_type", params_get "media_type" PNone body);
          ("copyright", params_get "copyright" (PStr "NASA") body)],
    ("Today's Astronomy Picture of the Day is titled " ++ dq
       ++ py_str fl (params_get "title" PNone body) ++ dq ++ " from "
       ++ py_str fl (params_get "date" PNone body) ++ "." ++ nl ++ nl
       ++ "Image URL: " ++ py_str fl (params_get "url" PNone body) ++ nl ++ nl),
    (py_str fl (params_get "copyright" (PStr "NASA") body)).
  split.
  { rewrite apod_record_of_dict. unfold params_get at 3. now rewrite E. }
  assert (T : str_slice 500 explanation
                ++ (if (500 <? Z.of_nat (str_len explanation))%Z
                    then "..." else "")
              = if (str_len explanation <=? 500)%nat then explanation
                else str_slice 500 explanation ++ "...").
  { destruct (Nat.leb_spec (str_len explanation) 500) as [L|L].
    - rewrite str_slice_all by assumption.
      replace (500 <? Z.of_nat (str_len explanation))%Z with false
        by (symmetry; apply Z.ltb_ge; lia).
      apply append_nil_r.
    - replace (500 <? Z.of_nat (str_len explanation))%Z with true
        by (symmetry; apply Z.ltb_lt; lia).
      reflexivity. }
  rewrite <- T. clear T.
  rewrite !app_assoc_str.
  unfold format_nasa_response.
  change (dict_has "error" _) with false. change (dict_has "message" _) with false.
  cbv iota. change (String.eqb "apod" "apod") with true. cbv iota.
  unfold item, getitem.
  change (dict_get "title" _) with (Some (params_get "title" PNone body)).
  change (dict_get "date" _) with (Some (params_get "date" PNone body)).
  change (dict_get "image_url" _) with (Some (params_get "url" PNone body)).
  change (dict_get "explanation" _) with (Some (PStr explanation)).
  cbn [bind slice_to py_len get_method].
  change (dict_get "copyright" _)
    with (Some (params_get "copyright" (PStr "NASA") body)).
  change (slice_len (str_len explanation) 500) with 500%nat.
  reflexivity.
Qed.

(** An explanation of 300 letters with an accent, two bytes each, is
    printed whole. *)
Lemma X17_short_explanation_witness :
  exists rec head credit,
    apod_record
      (PDict [("title", PStr "Orion");
              ("explanation",
               PStr (mcp_chat.repeat_str
                       (String (ascii_of_nat 195) (String (ascii_of_nat 169) ""))
                       300))])
    = Ok rec
    /\ format_nasa_response PyFloat.lib "apod" rec "apod"
       = Ok (head ++ "Description: "
               ++ mcp_chat.repeat_str
                    (String (ascii_of_nat 195) (String (ascii_of_nat 169) "")) 300
               ++ nl ++ nl ++ "Credit: " ++ credit ++ nl ++ nl
               ++ "You can view this image and more at NASA's official APOD website: https://apod.nasa.gov/apod/"
               ++ nl).
Proof.
  exact (X17_apod_explanation_is_cut_at_500 PyFloat.lib "apod"
           [("title", PStr "Orion");
            ("explanation",
             PStr (mcp_chat.repeat_str
                     (String (ascii_of_nat 195) (String (ascii_of_nat 169) ""))
                     300))]
           _ eq_refl).
Defined.

(** ** Keywords are matched anywhere in the query *)

Lemma lower_app (a b : string) : lower (a ++ b) = lower a ++ lower b.
Proof. induction a as [|c a IH]; simpl; [reflexivity | now rewrite IH]. Qed.

Lemma contains_embedded (k pre q post : string) :
  contains k q = true -> contains k (pre ++ q ++ post) = true.
Proof.
  rewrite !contains_spec. intros (a & b & ->).
  exists (pre ++ a), (b ++ post). now rewrite !app_assoc_str.
Qed.

Lemma any_keyword_embedded (keywords : list string) (pre q post : string) :
  any_keyword keywords (lower q) = true ->
  any_keyword keywords (lower (pre ++ q ++ post)) = true.
Proof.
  rewrite !any_keyword_spec. intros (k & I & C). exists k. split; [assumption|].
  rewrite !lower_app. now apply contains_embedded.
Qed.

(** X18.  The router looks for its keywords anywhere in the lower-cased
    query, also inside words.  A text that holds a routed query is therefore
    routed as well, to the same branch or to a branch that is tested
    earlier. *)
Theorem X18_embedding_a_routed_query (pre q post : string) (r : route_decision) :
  route q = Some r ->
  exists r',
    route (pre ++ q ++ post) = Some r'
    /\ (branch_rank r' <= branch_rank r)%nat.
Proof.
  unfold route. cbv zeta. intros R.
  pose proof (any_keyword_embedded apod_keywords pre q post) as A.
  pose proof (any_keyword_embedded mars_keywords pre q post) as M.
  pose proof (any_keyword_embedded neo_keywords pre q post) as N.
  pose proof (any_keyword_embedded epic_keywords pre q post) as E.
  destruct (any_keyword apod_keywords (lower (pre ++ q ++ post)));
    [eexists; split; [reflexivity|simpl; lia]|].
  destruct (any_keyword apod_keywords (lower q)); [now discriminate A|].
  destruct (any_keyword mars_keywords (lower (pre ++ q ++ post))).
  { eexists; split; [reflexivity|].
    destruct (any_keyword mars_keywords (lower q)); [inversion R; simpl; lia|].
    destruct (any_keyword neo_keywords (lower q)); [inversion R; simpl; lia|].
    destruct (any_keyword epic_keywords (lower q)); [inversion R; simpl; lia|].
    discriminate. }
  destruct (any_keyword mars_keywords (lower q)); [now discriminate M|].
  destruct (any_keyword neo_keywords (lower (pre ++ q ++ post))).
  { eexists; split; [reflexivity|].
    destruct (any_keyword neo_keywords (lower q)); [inversion R; simpl; lia|].
    destruct (any_keyword epic_keywords (lower q)); [inversion R; simpl; lia|].
    discriminate. }
  destruct (any_keyword neo_keywords (lower q)); [now discriminate N|].
  destruct (any_keyword epic_keywords (lower q)); [|discriminate].
  rewrite E by reflexivity. inversion R. eexists; split; [reflexivity|simpl; lia].
Qed.

(** "Earth" routes to the EPIC camera; inside a question about asteroids
    the same word comes with a keyword of an earlier branch. *)
Lemma X18_embedding_witness :
  exists r',
    route ("Are there any asteroids passing near " ++ "Earth" ++ " this week?")
    = Some r'
    /\ (branch_rank r' <= branch_rank (RouteEpic None))%nat.
Proof.
  apply (X18_embedding_a_routed_query "Are there any asteroids passing near "
           "Earth" " this week?" (RouteEpic None)).
  reflexivity.
Defined.

(** ** The defaults of the tool *)

Lemma params_get_set (k k' : string) (v d : pyval) (params : record) :
  params_get k' d (dict_set k v params)
  = if String.eqb k k' then v else params_get k' d params.
Proof.
  unfold params_get. destruct (String.eqb_spec k k') as [<-|N].
  - now rewrite dict_get_set_same.
  - now rewrite dict_get_set_other.
Qed.

Lemma params_get_absent (k : string) (d : pyval) (params : record) :
  dict_get k params = None -> params_get k d params = d.
Proof. unfold params_get. now intros ->. Qed.

(** X19.  The defaults of [NasaApiTool.call]: a [params] dictionary
    without "date", "rover" or "count" is answered as the same dictionary
    with the date of today, the rover "curiosity" or the count 5 (the text
    of [get_tool_definition] announces a default of 1), whatever the
    endpoint; and one without "endpoint" is refused as the endpoint "",
    with no request made. *)
Theorem X19_call_defaults fl (self : NasaApiTool) (w : world) (params : record) :
  (dict_get "date" params = None ->
   call fl self w (dict_set "date" (PStr (today w)) params) = call fl self w params)
  /\ (dict_get "rover" params = None ->
      call fl self w (dict_set "rover" (PStr "curiosity") params)
      = call fl self w params)
  /\ (dict_get "count" params = None ->
      call fl self w (dict_set "count" (PInt 5) params) = call fl self w params)
  /\ (dict_get "endpoint" params = None ->
      call fl self w params
      = Ok [("error", PStr "Invalid endpoint specified: ")]).
Proof.
  repeat split; intros A; unfold call.
  - rewrite !params_get_set. cbn [String.eqb Ascii.eqb Bool.eqb].
    now rewrite (params_get_absent "date" _ _ A).
  - rewrite !params_get_set. cbn [String.eqb Ascii.eqb Bool.eqb].
    now rewrite (params_get_absent "rover" _ _ A).
  - rewrite !params_get_set. cbn [String.eqb Ascii.eqb Bool.eqb].
    now rewrite (params_get_absent "count" _ _ A).
  - now rewrite (params_get_absent "endpoint" _ _ A).
Qed.

Example tool_definition_count_text :
  (properties <- (f <- item PyFloat.lib get_tool_definition "function" ;;
                  p <- item PyFloat.lib f "parameters" ;;
                  item PyFloat.lib p "properties") ;;
   count <- item PyFloat.lib properties "count" ;;
   item PyFloat.lib count "description")
  = Ok (PStr "Number of items to return (default: 1)").
Proof. reflexivity. Qed.

(** ** The formatter on near-Earth-object records *)

Lemma neo_descriptor_shape fl (neo v : pyval) :
  neo_descriptor fl neo = Ok v -> is_neo_descriptor v.
Proof.
  unfold neo_descriptor. intros H. do 20 bind_inv H. inversion H.
  unfold is_neo_descriptor. eauto 12.
Qed.

(** The miss distance of every descriptor of a record reads as a float: the
    sort has read it before. *)
Lemma neo_record_descriptors fl (data : pyval) (s e : string) (count : Z)
  (rec : record) :
  neo_record fl data s e (PInt count) = Ok rec ->
  exists total_count descriptors,
    rec = [("total_count", total_count); ("period", PStr (s ++ " to " ++ e));
           ("near_earth_objects", PList descriptors)]
    /\ Forall (fun d => is_neo_descriptor d
                        /\ exists k, descriptor_km fl d = Ok k) descriptors.
Proof.
  intros H.
  destruct (neo_record_spec _ _ _ _ _ _ H)
    as (days & all_neo & keyed & total & descriptors & _ & _ & K & D & ->).
  exists total, descriptors. split; [reflexivity|].
  apply mapM_with_key in K as [_ K].
  assert (S : Forall (fun a => exists k, miss_distance_key fl a = Ok k)
                (firstn (slice_len (List.length all_neo) count)
                   (map snd (list_sort fl keyed)))).
  { assert (K' : Forall (fun kx => miss_distance_key fl (snd kx) = Ok (fst kx))
                   (list_sort fl keyed))
      by (eapply Permutation_Forall;
          [apply Permutation_sym, list_sort_perm | exact K]).
    apply Forall_firstn, Forall_map.
    eapply Forall_impl; [|exact K']. intros kx E. cbn in E. eauto. }
  apply mapM_Forall2 in D. clear H. revert S.
  induction D as [|a b l l' E _ IH]; intros S; constructor.
  - split; [eapply neo_descriptor_shape, E|].
    inversion S as [|? ? [k Ka] _]; subst. exists k.
    now rewrite (neo_descriptor_km _ _ _ E).
  - apply IH. inversion S; assumption.
Qed.

Lemma format_neo_total fl (q : string) (total_count period : pyval)
  (descriptors : list pyval) :
  Forall (fun d => is_neo_descriptor d /\ exists k, descriptor_km fl d = Ok k)
    descriptors ->
  Forall (diameters_format fl) (firstn 3 descriptors) ->
  exists text,
    format_nasa_response fl q
      [("total_count", total_count); ("period", period);
       ("near_earth_objects", PList descriptors)] "neo"
    = Ok text.
Proof.
  intros D F. unfold format_nasa_response.
  cbn -[mapM firstn].
  change (firstn (slice_len (List.length descriptors) 3) descriptors)
    with (firstn 3 descriptors).
  match goal with
  | |- context [mapM ?f ?l] => destruct (mapM_total f l) as [lines ->]
  end.
  - apply (Forall_firstn _ 3) in D.
    change (firstn _ descriptors) with (firstn 3 descriptors).
    revert D F. generalize (firstn 3 descriptors). intros l D.
    induction D as [|d l [(name & id & dmin & dmax & hazardous
                                      & approach & miss & velocity & ->) [k K]] _ IH];
      intros F; constructor.
    + inversion F as [|? ? (lo & hi & L & H) _]; subst.
      unfold descriptor_km in K. cbn in K, L, H |- *.
      destruct (format_2f fl dmin); [|discriminate].
      destruct (format_2f fl dmax); [|discriminate].
      destruct (py_float fl miss); [|discriminate].
      cbn. eauto.
    + apply IH. now inversion F.
  - cbn. eauto.
Qed.

(** X20.  On a record with objects that [get_neo_objects] returned,
    [format_nasa_response] can fail in one place only, the [:.2f] fields of
    the two diameters: when the diameters of the first three descriptors can
    be written with [:.2f], as the numbers of the feed can, the formatter
    returns a text.  In particular [float(obj['miss_distance_km'])] cannot
    fail, since the sort has converted the same value before. *)
Theorem X20_neo_formatter_fails_on_diameters_only
  fl (w : world) (q : string) (date : option string) (count : Z) (rec : record)
  (descriptors : list pyval) :
  get_neo_objects fl w date count = Ok rec ->
  dict_get "near_earth_objects" rec = Some (PList descriptors) ->
  Forall (diameters_format fl) (firstn 3 descriptors) ->
  exists text, format_nasa_response fl q rec "neo" = Ok text.
Proof.
  unfold get_neo_objects. intros H G F. do 2 bind_inv H.
  destruct (negb (status_code x0 =? 200)%Z).
  { inversion H; subst. discriminate. }
  bind_inv H.
  destruct (neo_record_descriptors _ _ _ _ _ _ H) as (total & ds & -> & D).
  cbn in G. inversion G; subst.
  now apply format_neo_total.
Qed.

Lemma X20_sample_feed_witness :
  exists text,
    format_nasa_response PyFloat.lib "asteroids" sample_neo_record "neo" = Ok text.
Proof.
  refine (X20_neo_formatter_fails_on_diameters_only PyFloat.lib sample_feed_world
            "asteroids" (Some "2024-02-26") 5 sample_neo_record _ eq_refl eq_refl _).
  repeat constructor; eexists _, _; split; reflexivity.
Defined.

(** ** The rover of a rover query *)

(** X21.  The rover [get_nasa_response] asks photos of is one of the four
    rovers of the tool definition.  It is a rover other than "curiosity"
    only when the lower-cased query names it, and of the rovers named
    "perseverance" wins over "opportunity", which wins over "spirit";
    "curiosity" is what is left, whether the query names it or not. *)
Theorem X21_rover_of_a_rover_query (q rover : string) (date : option string) :
  route q = Some (RouteMars rover date) ->
  In rover ["curiosity"; "opportunity"; "spirit"; "perseverance"]
  /\ (contains "perseverance" (lower q) = true -> rover = "perseverance")
  /\ (contains "perseverance" (lower q) = false ->
      contains "opportunity" (lower q) = true -> rover = "opportunity")
  /\ (rover = "curiosity" \/ contains rover (lower q) = true).
Proof.
  unfold route. cbv zeta.
  destruct (any_keyword apod_keywords (lower q)); [discriminate|].
  destruct (any_keyword mars_keywords (lower q)); [|
    destruct (any_keyword neo_keywords (lower q)); [discriminate|];
    destruct (any_keyword epic_keywords (lower q)); discriminate].
  destruct (contains "perseverance" (lower q)) eqn:P;
    [|destruct (contains "opportunity" (lower q)) eqn:O;
      [|destruct (contains "spirit" (lower q)) eqn:S]];
    intros H; inversion H; subst; clear H;
    (split; [simpl; tauto|]); repeat split; intros; auto; discriminate.
Qed.

(** A query that names two rovers. *)
Lemma X21_two_rovers_witness :
  route "Did Spirit or Opportunity find water?"
  = Some (RouteMars "opportunity" None)
  /\ In "opportunity" ["curiosity"; "opportunity"; "spirit"; "perseverance"]
  /\ ("opportunity" = "curiosity"
      \/ contains "opportunity" (lower "Did Spirit or Opportunity find water?")
         = true).
Proof.
  split; [reflexivity|].
  destruct (X21_rover_of_a_rover_query "Did Spirit or Opportunity find water?"
              "opportunity" None eq_refl) as (I & _ & _ & C).
  split; [exact I | exact C].
Defined.

(** ** The test cases and the router *)

(** X22.  The queries of [TEST_CASES] against [get_nasa_response]: eight of
    the ten cases are sent where their [expected_api] says; the cases 2 and 8
    hold no keyword of the router and are sent to no API. *)
Theorem X22_test_cases_against_the_router :
  map case_id (filter (fun case => negb (routed_as_expected case))
                 test_suite.TEST_CASES)
  = [2; 8]
  /\ forall case, In case test_suite.TEST_CASES ->
                  routed_as_expected case = false -> route (case_query case) = None.
Proof.
  split; [vm_compute; reflexivity|].
  intros case I. simpl in I.
  repeat (destruct I as [<-|I];
          [intros H; vm_compute in H |- *; first [discriminate H | reflexivity]|]).
  destruct I.
Qed.

(** ** How the chat program ends *)



(** ** Transport failures *)


